(** * IDBIndex: the index engine of IndexedDBShim (src/IDBIndex.js)

    A shallow embedding of the index descriptor life cycle (name setter,
    [__createIndex], [__deleteIndex], [__updateIndexList], [__renameIndex])
    and of the bulk
    fetch path ([__fetchIndexData], [buildFetchIndexDataSQL],
    [executeFetchIndexData]).

    Conventions of the embedding.
    - JavaScript objects that are shared and mutated (index descriptors,
      object stores, transactions) live in a heap and are referred to by
      location; a field holding an object holds its location.
    - A thrown exception is the left injection of the result; what was
      mutated before the [throw] stays mutated.
    - A closure handed to the transaction queue is a [Task] value holding the
      variables the closure captured; [run_task] is its body.
    - The SQL text sent to the backend is replaced by the operation it
      denotes on a table model.  The escaping helpers of util.js
      ([escapeStoreNameForSQL], [escapeIndexNameForSQL],
      [escapeSQLiteStatement], [unescapeSQLiteResponse], [sqlQuote]) are
      injective renamings, so names and stored values stand for themselves.
    - [CFG.DEBUG && console.log (...)] has no effect on the state.
    - [openCursor], [openKeyCursor] and [count] on an [IDBKeyRange] hand
      over to IDBCursor.js and are left out. *)

From Stdlib Require Import ZArith String List Bool Lia.
From Stdlib Require DecimalString.
From stdpp Require Import base option list gmap strings sorting.

Local Open Scope string_scope.
Local Open Scope list_scope.

(** ** Keys and queries *)

(** Decoded key values as the key codec hands them to this file: the file
    only asks whether a key is an array, for its length and its elements. *)
#[warnings="-register-all"] Inductive Key : Type :=
| KNumber (z : Z)
| KDate (z : Z)
| KString (s : string)
| KBinary (b : string)
| KArray (l : list Key).

Fixpoint Key_eq_dec (a b : Key) {struct a} : {a = b} + {a <> b}.
Proof.
  decide equality;
    try apply Z.eq_dec; try apply string_dec.
  apply (List.list_eq_dec Key_eq_dec).
Defined.

Global Instance Key_EqDecision : EqDecision Key := Key_eq_dec.

Record IDBKeyRange := mkKeyRange {
  lower : option Key;
  upper : option Key;
  lowerOpen : bool;
  upperOpen : bool
}.

Global Instance IDBKeyRange_eq_dec : EqDecision IDBKeyRange.
Proof. solve_decision. Defined.

(** The value a caller passes as [query] / [range]. *)
Inductive Query : Type :=
| QUndefined
| QNull
| QKey (k : Key)
| QKeyRange (r : IDBKeyRange).

(** [range == null] *)
Definition is_nullish (q : Query) : bool :=
  match q with
  | QUndefined | QNull => true
  | _ => false
  end.

Inductive KeyPath : Type :=
| KPString (s : string)
| KPArray (l : list string).

(** Result of [Key.extractKeyValueDecodedFromValueUsingKeyPath]: an object
    with [failure], [invalid] or [value]. *)
Inductive KeyExtraction : Type :=
| ExtractFailure
| ExtractInvalid
| ExtractValue (k : Key).

Inductive OpType : Type := OpValue | OpKey | OpCount.

(** ** Exceptions *)

Inductive DOMExceptionName : Type :=
| ConstraintError
| InvalidStateError
| DataError
| UnknownError.

(** [SQLError] is the error object of the backend, [CodecError] whatever
    Key.js or Sca.js throw on a value they reject. *)
Inductive JSError : Type :=
| TypeError
| DOMException (name : DOMExceptionName)
| SQLError
| CodecError.

Global Instance DOMExceptionName_eq_dec : EqDecision DOMExceptionName.
Proof. solve_decision. Defined.
Global Instance JSError_eq_dec : EqDecision JSError.
Proof. solve_decision. Defined.
Global Instance OpType_eq_dec : EqDecision OpType.
Proof. solve_decision. Defined.

(** ** Heap objects *)

Definition loc := positive.

(** An IDBIndex instance (lines 26-96).  A flag that the code sets to [true]
    and removes with [delete] is a [bool]; [__pendingName] is tested with
    [in], so its absence is [None]. *)
Record IDBIndexObj := mkIndex {
  ix_objectStore : loc;
  ix_name : string;
  ix_originalName : string;
  ix_keyPath : KeyPath;
  ix_multiEntry : bool;
  ix_unique : bool;
  ix_deleted : bool;
  ix_pendingDelete : bool;
  ix_pendingCreate : bool;
  ix_recreated : bool;
  ix_pendingName : option string
}.

(** The fields of an IDBObjectStore that this file reads or writes. *)
Record IDBObjectStoreObj := mkStore {
  os_name : string;
  os_pendingName : option string;
  os_autoIncrement : bool;
  os_indexNames : list string;
  os_indexes : gmap string loc;
  os_indexHandles : gmap string loc;
  os_deleted : bool;
  os_pendingDelete : bool;
  os_pendingCreate : bool;
  os_transaction : option loc
}.

(** [IDBIndexProperties] as written by [__updateIndexList] (lines 327-335). *)
Record IDBIndexProperties := mkProps {
  columnName : string;
  keyPath : KeyPath;
  unique : bool;
  multiEntry : bool;
  deleted : bool
}.

Global Instance KeyPath_eq_dec : EqDecision KeyPath.
Proof. solve_decision. Defined.
Global Instance IDBIndexProperties_eq_dec : EqDecision IDBIndexProperties.
Proof. solve_decision. Defined.

(** [__currentName] getter of an index (lines 38-42). *)
Definition ix_currentName (ix : IDBIndexObj) : string :=
  match ix_pendingName ix with
  | Some p => p
  | None => ix_name ix
  end.

(** Objects on which the deleted-state guards read [__deleted],
    [__pendingDelete], [__pendingCreate] and [transaction]: the guards are
    duck-typed, so an index can be passed where a store is expected. *)
Class Lifecycle (A : Type) := {
  js_deleted : A -> bool;
  js_pendingDelete : A -> bool;
  js_pendingCreate : A -> bool;
  js_transaction : A -> option loc
}.

Global Instance IDBObjectStore_Lifecycle : Lifecycle IDBObjectStoreObj := {|
  js_deleted := os_deleted;
  js_pendingDelete := os_pendingDelete;
  js_pendingCreate := os_pendingCreate;
  js_transaction := os_transaction
|}.

(** An index has no [transaction] property: reading it gives [undefined]. *)
Global Instance IDBIndex_Lifecycle : Lifecycle IDBIndexObj := {|
  js_deleted := ix_deleted;
  js_pendingDelete := ix_pendingDelete;
  js_pendingCreate := ix_pendingCreate;
  js_transaction := fun _ => None
|}.

(** ** Array helpers *)

Fixpoint indexOf (x : string) (l : list string) : option nat :=
  match l with
  | [] => None
  | y :: l' => if decide (y = x) then Some 0%nat else S <$> indexOf x l'
  end.

(** [l.splice(l.indexOf(old), 1, new)]: with [indexOf = -1] the start is
    counted from the end, so the last element is the one replaced. *)
Definition splice_replace (old new : string) (l : list string) : list string :=
  match indexOf old l with
  | Some i => <[i := new]> l
  | None => removelast l ++ [new]
  end.

(** [l.splice(l.indexOf(old), 1)] *)
Definition splice_remove (old : string) (l : list string) : list string :=
  match indexOf old l with
  | Some i => take i l ++ drop (S i) l
  | None => removelast l
  end.

(** ** The engine, over its collaborators *)

Section Engine.

(** [EncodedKey]: what [Key.encode] returns and an index column stores;
    [Stored]: the serialized record held by the [value] column;
    [Value]: what [Sca.decode] makes of it. *)
Context {EncodedKey Stored Value : Type} `{EqDecision EncodedKey}.

(** Functions this file imports from Key.js, Sca.js, IDBKeyRange.js,
    util.js, CFG.js and IDBObjectStore.js, and the comparisons the SQL
    backend applies to stored text.  [inl] / [None] in a result that can
    fail is a thrown exception, except for [Key_decode], where [None] is
    the value [undefined], as argument (a column the row does not have) and
    as result.  [String_includes s k] is [s.includes(k)] of the host. *)
Class Collaborators := {
  CFG_useSQLiteIndexes : bool;
  Sca_decode : Stored -> option Value;
  Key_extractKeyValueDecodedFromValueUsingKeyPath :
    Value -> KeyPath -> bool -> option KeyExtraction;
  Key_encode : Query -> bool -> JSError + EncodedKey;
  Key_decode : option EncodedKey -> option Key;
  Key_isMultiEntryMatch : EncodedKey -> option EncodedKey -> bool;
  String_includes : string -> Key -> bool;
  convertValueToKeyRange : Query -> bool -> JSError + IDBKeyRange;
  util_enforceRange : Z -> JSError + N;
  IDBObjectStore_currentName : IDBObjectStoreObj -> string;
  sql_like : EncodedKey -> EncodedKey -> bool;
  sql_in_range : IDBKeyRange -> EncodedKey -> bool;
  sql_leb : EncodedKey -> EncodedKey -> bool
}.

Context `{Collaborators}.

(** *** The relational store *)

(** A row of a store's table: the [key] and [value] columns and one
    nullable column per index ([NULL] is an absent entry of the map). *)
Record Row := mkRow {
  row_key : EncodedKey;
  row_value : Stored;
  row_cols : gmap string EncodedKey
}.

Record Table := mkTable {
  tbl_autoIncrement : bool;
  tbl_columns : list string;
  tbl_rows : list Row
}.

(** A table is the table of a store or the shadow table [tmp_...] of a
    rebuild; a storage-level index is [sk_<store>] on the [key] column or
    [<store>^5<index>] on an index column. *)
Definition TableId : Type := bool * string.
Definition store_table (s : string) : TableId := (false, s).
Definition tmp_table (s : string) : TableId := (true, s).
Definition SqlIndexId : Type := string * option string.

Record Database := mkDatabase {
  db_tables : gmap TableId Table;
  db_sys : gmap string (gmap string IDBIndexProperties);
  db_sqlIndexes : gset SqlIndexId
}.

Definition db_set_tables (t : gmap TableId Table) (db : Database) : Database :=
  {| db_tables := t; db_sys := db_sys db; db_sqlIndexes := db_sqlIndexes db |}.
Definition db_set_sys (s : gmap string (gmap string IDBIndexProperties))
    (db : Database) : Database :=
  {| db_tables := db_tables db; db_sys := s; db_sqlIndexes := db_sqlIndexes db |}.
Definition db_set_sqlIndexes (i : gset SqlIndexId) (db : Database) : Database :=
  {| db_tables := db_tables db; db_sys := db_sys db; db_sqlIndexes := i |}.

(** Each statement gives [None] where the backend reports an error. *)

(** [ALTER TABLE <store> ADD <col> BLOB] *)
Definition sql_add_column (store col : string) (db : Database) : option Database :=
  t ← db_tables db !! store_table store;
  if decide (col ∈ tbl_columns t) then None
  else Some (db_set_tables
    (<[store_table store :=
         {| tbl_autoIncrement := tbl_autoIncrement t;
            tbl_columns := tbl_columns t ++ [col];
            tbl_rows := tbl_rows t |}]> (db_tables db)) db).

(** [CREATE INDEX IF NOT EXISTS "<store>^5<col>" ON <store>(<col>)] *)
Definition sql_create_index_if_not_exists (store col : string) (db : Database)
    : option Database :=
  t ← db_tables db !! store_table store;
  if decide (col ∈ tbl_columns t)
  then Some (db_set_sqlIndexes ({[ (store, Some col) ]} ∪ db_sqlIndexes db) db)
  else None.

(** [UPDATE __sys__ SET "indexList" = ? WHERE "name" = ?]: a store
    without a row in [__sys__] has nothing updated. *)
Definition sql_update_indexList (store : string)
    (indexList : gmap string IDBIndexProperties) (db : Database) : Database :=
  db_set_sys (alter (fun _ => indexList) store (db_sys db)) db.

(** [SELECT "key", "value" FROM <store>] *)
Definition sql_select_all (store : string) (db : Database) : option (list Row) :=
  tbl_rows <$> db_tables db !! store_table store.

Definition row_set_col (col : string) (v : EncodedKey) (r : Row) : Row :=
  {| row_key := row_key r; row_value := row_value r;
     row_cols := <[col := v]> (row_cols r) |}.

(** [UPDATE <store> SET <col> = ? WHERE "key" = ?] *)
Definition sql_update_col (store col : string) (v key : EncodedKey) (db : Database)
    : option Database :=
  t ← db_tables db !! store_table store;
  if decide (col ∈ tbl_columns t)
  then Some (db_set_tables
    (<[store_table store :=
         {| tbl_autoIncrement := tbl_autoIncrement t;
            tbl_columns := tbl_columns t;
            tbl_rows := (fun r => if decide (row_key r = key)
                                  then row_set_col col v r else r)
                        <$> tbl_rows t |}]> (db_tables db)) db)
  else None.

(** *** Compiled fetch queries *)

(** The [WHERE] clause that [buildFetchIndexDataSQL] appends to
    [<index column> NOT NULL]. *)
Inductive Condition : Type :=
| CondNone
| CondAnyLike (patterns : list EncodedKey)
| CondLike (pattern : EncodedKey)
| CondRange (r : IDBKeyRange).

(** The [sql] / [sqlValues] pair: [SELECT <col>[, <index col>] FROM <store>
    WHERE <index col> NOT NULL [AND ...] [ORDER BY <index col>] [LIMIT n]]. *)
Record SelectQuery := mkSelect {
  sel_col : OpType;
  sel_withIndexCol : bool;
  sel_store : string;
  sel_index : string;
  sel_cond : Condition;
  sel_orderBy : bool;
  sel_limit : option N
}.

#[global] Instance Condition_eq_dec : EqDecision Condition.
Proof. solve_decision. Defined.

Definition condition_holds (c : Condition) (v : EncodedKey) : bool :=
  match c with
  | CondNone => true
  | CondAnyLike ps => existsb (fun p => sql_like p v) ps
  | CondLike p => sql_like p v
  | CondRange r => sql_in_range r v
  end.

Definition row_index_leb (col : string) (a b : Row) : Prop :=
  match row_cols a !! col, row_cols b !! col with
  | Some x, Some y => sql_leb x y = true
  | _, _ => True
  end.

#[global] Instance row_index_leb_dec col a b : Decision (row_index_leb col a b).
Proof.
  unfold row_index_leb.
  destruct (row_cols a !! col), (row_cols b !! col); apply _.
Defined.

Definition row_selected (q : SelectQuery) (r : Row) : bool :=
  match row_cols r !! sel_index q with
  | Some v => condition_holds (sel_cond q) v
  | None => false
  end.

(** The rows a compiled query returns: [data.rows].  An unknown table or
    column is an error, and so is the empty disjunction [AND ( )]. *)
Definition sql_select (q : SelectQuery) (db : Database) : option (list Row) :=
  t ← db_tables db !! store_table (sel_store q);
  if decide (sel_index q ∈ tbl_columns t ∧ sel_cond q ≠ CondAnyLike []) then
    let matching :=
      filter (fun r => row_selected q r = true) (tbl_rows t) in
    let ordered :=
      if sel_orderBy q then merge_sort (row_index_leb (sel_index q)) matching
      else matching in
    Some (match sel_limit q with
          | Some n => take (N.to_nat n) ordered
          | None => ordered
          end)
  else None.

(** *** What a queued step reports *)

Inductive Fetched : Type :=
| FUndefined
| FKey (k : Key)
| FValue (v : Value).

(** The argument of [success]. *)
Inductive TaskResult : Type :=
| ResStore (store : loc)
| ResCount (n : nat)
| ResUndefined
| ResRecord (r : Fetched)
| ResRecords (l : list Fetched).

(** A step calls [success], calls [failure], or throws. *)
Inductive TaskOutcome : Type :=
| TaskSuccess (r : TaskResult)
| TaskFailure (e : JSError)
| TaskThrew (e : JSError).

(** *** Queued closures *)

Inductive Task : Type :=
| createIndex (store index indexHandle : loc) (indexName storeName : string)
    (idx : option loc)
| deleteIndex (store index : loc) (indexHandle : option loc)
| renameIndex (storeName oldName newName : string) (autoIncrement : bool)
    (indexColsToPreserve : list string) (cb : option (loc * loc))
| fetchIndexData (count : option N) (unboundedDisallowed : bool) (index : loc)
    (hasKey : bool) (range : Query) (opType : OpType) (multiChecks : bool)
    (sql : SelectQuery).

Inductive QueueKind : Type := Request | NonRequest.

Record IDBTransactionObj := mkTransaction {
  tx_versionchange : bool;
  tx_active : bool;
  tx_errored : bool;
  tx_storeHandles : gmap string loc;
  tx_queue : list (QueueKind * Task)
}.

(** *** The world: the three heaps and the database *)

Record World := mkWorld {
  w_indexes : gmap loc IDBIndexObj;
  w_stores : gmap loc IDBObjectStoreObj;
  w_transactions : gmap loc IDBTransactionObj;
  w_db : Database
}.

Definition w_set_indexes (m : gmap loc IDBIndexObj) (w : World) : World :=
  {| w_indexes := m; w_stores := w_stores w;
     w_transactions := w_transactions w; w_db := w_db w |}.
Definition w_set_stores (m : gmap loc IDBObjectStoreObj) (w : World) : World :=
  {| w_indexes := w_indexes w; w_stores := m;
     w_transactions := w_transactions w; w_db := w_db w |}.
Definition w_set_transactions (m : gmap loc IDBTransactionObj) (w : World) : World :=
  {| w_indexes := w_indexes w; w_stores := w_stores w;
     w_transactions := m; w_db := w_db w |}.
Definition w_set_db (d : Database) (w : World) : World :=
  {| w_indexes := w_indexes w; w_stores := w_stores w;
     w_transactions := w_transactions w; w_db := d |}.

(** *** Synchronous code: state and exceptions *)

Definition M (A : Type) : Type := World -> (JSError + A) * World.

Definition ret {A} (a : A) : M A := fun w => (inr a, w).
Definition throw {A} (e : JSError) : M A := fun w => (inl e, w).
Definition bind {A B} (m : M A) (k : A -> M B) : M B :=
  fun w => match m w with
           | (inr a, w') => k a w'
           | (inl e, w') => (inl e, w')
           end.
Definition modify (f : World -> World) : M unit := fun w => (inr tt, f w).

(** Dereferencing [undefined] is a [TypeError]. *)
Definition deref {A} (o : option A) : M A :=
  match o with
  | Some a => ret a
  | None => throw TypeError
  end.

Notation "x <- m ;; k" := (bind m (fun x => k))
  (at level 100, m at next level, right associativity).
Notation "m ;;; k" := (bind m (fun _ => k))
  (at level 100, right associativity).

Definition get_index (l : loc) : M IDBIndexObj :=
  fun w => deref (w_indexes w !! l) w.
Definition get_store (l : loc) : M IDBObjectStoreObj :=
  fun w => deref (w_stores w !! l) w.
Definition get_transaction (l : loc) : M IDBTransactionObj :=
  fun w => deref (w_transactions w !! l) w.

Definition update_index (l : loc) (f : IDBIndexObj -> IDBIndexObj) : M unit :=
  modify (fun w => w_set_indexes (alter f l (w_indexes w)) w).
Definition update_store (l : loc) (f : IDBObjectStoreObj -> IDBObjectStoreObj) : M unit :=
  modify (fun w => w_set_stores (alter f l (w_stores w)) w).
Definition update_transaction (l : loc) (f : IDBTransactionObj -> IDBTransactionObj)
    : M unit :=
  modify (fun w => w_set_transactions (alter f l (w_transactions w)) w).

(** Field assignments. *)
Definition ix_set_name (n : string) (ix : IDBIndexObj) : IDBIndexObj :=
  mkIndex (ix_objectStore ix) n (ix_originalName ix) (ix_keyPath ix)
    (ix_multiEntry ix) (ix_unique ix) (ix_deleted ix) (ix_pendingDelete ix)
    (ix_pendingCreate ix) (ix_recreated ix) (ix_pendingName ix).
Definition ix_set_deleted (b : bool) (ix : IDBIndexObj) : IDBIndexObj :=
  mkIndex (ix_objectStore ix) (ix_name ix) (ix_originalName ix) (ix_keyPath ix)
    (ix_multiEntry ix) (ix_unique ix) b (ix_pendingDelete ix)
    (ix_pendingCreate ix) (ix_recreated ix) (ix_pendingName ix).
Definition ix_set_pendingDelete (b : bool) (ix : IDBIndexObj) : IDBIndexObj :=
  mkIndex (ix_objectStore ix) (ix_name ix) (ix_originalName ix) (ix_keyPath ix)
    (ix_multiEntry ix) (ix_unique ix) (ix_deleted ix) b
    (ix_pendingCreate ix) (ix_recreated ix) (ix_pendingName ix).
Definition ix_set_pendingCreate (b : bool) (ix : IDBIndexObj) : IDBIndexObj :=
  mkIndex (ix_objectStore ix) (ix_name ix) (ix_originalName ix) (ix_keyPath ix)
    (ix_multiEntry ix) (ix_unique ix) (ix_deleted ix) (ix_pendingDelete ix)
    b (ix_recreated ix) (ix_pendingName ix).
Definition ix_set_recreated (b : bool) (ix : IDBIndexObj) : IDBIndexObj :=
  mkIndex (ix_objectStore ix) (ix_name ix) (ix_originalName ix) (ix_keyPath ix)
    (ix_multiEntry ix) (ix_unique ix) (ix_deleted ix) (ix_pendingDelete ix)
    (ix_pendingCreate ix) b (ix_pendingName ix).
Definition ix_set_pendingName (p : option string) (ix : IDBIndexObj) : IDBIndexObj :=
  mkIndex (ix_objectStore ix) (ix_name ix) (ix_originalName ix) (ix_keyPath ix)
    (ix_multiEntry ix) (ix_unique ix) (ix_deleted ix) (ix_pendingDelete ix)
    (ix_pendingCreate ix) (ix_recreated ix) p.

Definition os_set_pendingName (p : option string) (o : IDBObjectStoreObj)
    : IDBObjectStoreObj :=
  mkStore (os_name o) p (os_autoIncrement o) (os_indexNames o) (os_indexes o)
    (os_indexHandles o) (os_deleted o) (os_pendingDelete o) (os_pendingCreate o)
    (os_transaction o).
Definition os_set_indexNames (l : list string) (o : IDBObjectStoreObj)
    : IDBObjectStoreObj :=
  mkStore (os_name o) (os_pendingName o) (os_autoIncrement o) l (os_indexes o)
    (os_indexHandles o) (os_deleted o) (os_pendingDelete o) (os_pendingCreate o)
    (os_transaction o).
Definition os_set_indexes (m : gmap string loc) (o : IDBObjectStoreObj)
    : IDBObjectStoreObj :=
  mkStore (os_name o) (os_pendingName o) (os_autoIncrement o) (os_indexNames o) m
    (os_indexHandles o) (os_deleted o) (os_pendingDelete o) (os_pendingCreate o)
    (os_transaction o).
Definition os_set_indexHandles (m : gmap string loc) (o : IDBObjectStoreObj)
    : IDBObjectStoreObj :=
  mkStore (os_name o) (os_pendingName o) (os_autoIncrement o) (os_indexNames o)
    (os_indexes o) m (os_deleted o) (os_pendingDelete o) (os_pendingCreate o)
    (os_transaction o).

Definition tx_set_queue (q : list (QueueKind * Task)) (t : IDBTransactionObj)
    : IDBTransactionObj :=
  mkTransaction (tx_versionchange t) (tx_active t) (tx_errored t)
    (tx_storeHandles t) q.

(** [transaction.__addToTransactionQueue] and
    [transaction.__addNonRequestToTransactionQueue]: the closure is appended
    to the queue of the transaction. *)
Definition addToTransactionQueue (kind : QueueKind) (transaction : option loc)
    (t : Task) : M unit :=
  l <- deref transaction ;;
  _ <- get_transaction l ;;
  update_transaction l (fun o => tx_set_queue (tx_queue o ++ [(kind, t)]) o).

(** *** The transaction's reaction to a failed step *)


(** *** State guards *)

(** Modelled from the spec: [IDBTransaction.__assertVersionChange]
    (IDBTransaction.js is not among the sources).  Section 4.2: a rename
    "fails with InvalidStateError ... if not inside an active structural
    (version-change) transaction". *)
Definition IDBTransaction__assertVersionChange (tx : option loc) : M unit :=
  fun w =>
    match tx ≫= (fun l => w_transactions w !! l) with
    | Some t => if tx_versionchange t then ret tt w
                else throw (DOMException InvalidStateError) w
    | None => throw (DOMException InvalidStateError) w
    end.

(** Modelled from the spec: [IDBTransaction.__assertActive]
    (IDBTransaction.js is not among the sources).  Sections 4.2 and 7:
    [InvalidStateError] "if the owning transaction is not in the active
    phase"; the error surface of section 6 has no other kind for it. *)
Definition IDBTransaction__assertActive (tx : option loc) : M unit :=
  fun w =>
    match tx ≫= (fun l => w_transactions w !! l) with
    | Some t => if tx_active t then ret tt w
                else throw (DOMException InvalidStateError) w
    | None => throw (DOMException InvalidStateError) w
    end.

(** [obj.transaction && obj.transaction.__errored] *)
Definition transaction_errored (tx : option loc) : M bool :=
  match tx with
  | None => ret false
  | Some l => t <- get_transaction l ;; ret (tx_errored t)
  end.

(** Modelled from the spec: [IDBObjectStore.__invalidStateIfDeleted]
    (IDBObjectStore.js is not among the sources).  Section 4.2: an operation
    "against a descriptor that is deleted, pendingDelete, or pendingCreate
    on an errored transaction fails with InvalidStateError".  The guard
    reads the flags of whatever object it is handed. *)
Definition IDBObjectStore__invalidStateIfDeleted {A} `{Lifecycle A} (store : A)
    : M unit :=
  if js_deleted store || js_pendingDelete store
  then throw (DOMException InvalidStateError)
  else if js_pendingCreate store
  then errored <- transaction_errored (js_transaction store) ;;
       if (errored : bool) then throw (DOMException InvalidStateError) else ret tt
  else ret tt.

(** [IDBIndex.__invalidStateIfDeleted] (lines 101-107). *)
Definition IDBIndex__invalidStateIfDeleted (index : loc) : M unit :=
  ix <- get_index index ;;
  if ix_deleted ix || ix_pendingDelete ix
  then throw (DOMException InvalidStateError)
  else if ix_pendingCreate ix
  then os <- get_store (ix_objectStore ix) ;;
       errored <- transaction_errored (os_transaction os) ;;
       if (errored : bool) then throw (DOMException InvalidStateError) else ret tt
  else ret tt.

(** *** Renaming: the [name] setter and [__renameIndex] *)

(** [IDBIndex.prototype.__renameIndex] (lines 443-532), the part that runs
    at call time.  [colInfoToPreserveArr] is the [key] column (typed after
    [autoIncrement]), the [value] column and one column per index name;
    [cb], when given, is the continuation of lines 88-93 with the [store]
    and [storeHandle] it closes over. *)
Definition IDBIndex__renameIndex (store : loc) (oldName newName : string)
    (autoIncrement : bool) (indexColsToPreserve : list string)
    (cb : option (loc * loc)) : M unit :=
  os <- get_store store ;;
  let storeName := IDBObjectStore_currentName os in
  addToTransactionQueue NonRequest (os_transaction os)
    (renameIndex storeName oldName newName autoIncrement indexColsToPreserve cb).

(** [me.objectStore.__indexes[newName] && !...__deleted && !...__pendingDelete] *)
Definition live_index_named (os : IDBObjectStoreObj) (newName : string) : M bool :=
  match os_indexes os !! newName with
  | None => ret false
  | Some l => other <- get_index l ;;
              ret (negb (ix_deleted other) && negb (ix_pendingDelete other))
  end.

(** Lines 57-93 of the setter: what runs once the guards have passed. *)
Definition set_name_checked (me : loc) (oldName newName : string)
    (objectStore : loc) (os : IDBObjectStoreObj) : M unit :=
  if decide (newName = oldName) then ret tt
  else
    collides <- live_index_named os newName ;;
    if (collides : bool) then throw (DOMException ConstraintError)
    else
      update_index me (ix_set_name newName) ;;;
      update_store objectStore (fun o =>
        os_set_indexNames (splice_replace oldName newName (os_indexNames o))
          (os_set_indexes (<[newName := me]> (delete oldName (os_indexes o))) o)) ;;;
      os <- get_store objectStore ;;
      l <- deref (os_transaction os) ;;
      tx <- get_transaction l ;;
      storeHandle <- deref (tx_storeHandles tx !! os_name os) ;;
      sh <- get_store storeHandle ;;
      oldIndexHandle <- deref (os_indexHandles sh !! oldName) ;;
      update_index oldIndexHandle (ix_set_name newName) ;;;
      update_store storeHandle (fun o =>
        os_set_indexHandles (<[newName := oldIndexHandle]> (os_indexHandles o)) o) ;;;
      update_index me (ix_set_pendingName (Some oldName)) ;;;
      os <- get_store objectStore ;;
      IDBIndex__renameIndex objectStore oldName newName (os_autoIncrement os)
        (filter (fun indexName => indexName <> newName) (os_indexNames os))
        (Some (objectStore, storeHandle)).

(** The setter of [name] (lines 49-94).  Line 56 hands the index itself,
    [me], to the guard of the store. *)
Definition IDBIndex_set_name (me : loc) (newName : string) : M unit :=
  ix <- get_index me ;;
  let oldName := ix_name ix in
  os <- get_store (ix_objectStore ix) ;;
  IDBTransaction__assertVersionChange (os_transaction os) ;;;
  IDBTransaction__assertActive (os_transaction os) ;;;
  IDBIndex__invalidStateIfDeleted me ;;;
  IDBObjectStore__invalidStateIfDeleted ix ;;;
  set_name_checked me oldName newName (ix_objectStore ix) os.

(** *** [__updateIndexList] (lines 322-342) *)

Definition index_properties (idx : IDBIndexObj) : IDBIndexProperties :=
  {| columnName := ix_name idx;
     keyPath := ix_keyPath idx;
     unique := ix_unique idx;
     multiEntry := ix_multiEntry idx;
     deleted := false |}.

(** The loop of lines 324-336; [None] when [store.__indexes] has no object
    for one of the names ([idx.name] on [undefined] throws). *)
Fixpoint build_indexList (indexes : gmap loc IDBIndexObj) (os : IDBObjectStoreObj)
    (names : list string) (indexList : gmap string IDBIndexProperties)
    : option (gmap string IDBIndexProperties) :=
  match names with
  | [] => Some indexList
  | n :: names' =>
      l ← os_indexes os !! n;
      idx ← indexes !! l;
      build_indexList indexes os names'
        (<[ix_name idx := index_properties idx]> indexList)
  end.

(** [None]: the function threw before the statement was issued. *)
Definition IDBIndex__updateIndexList (store : loc) (w : World) : option World :=
  os ← w_stores w !! store;
  indexList ← build_indexList (w_indexes w) os (os_indexNames os) ∅;
  Some (w_set_db (sql_update_indexList (IDBObjectStore_currentName os) indexList
                    (w_db w)) w).

(** *** The queued body of [__renameIndex] (lines 456-531) *)

(** [CREATE TABLE tmp (...)], [INSERT INTO tmp (...) SELECT ... FROM store],
    [DROP TABLE store], [ALTER TABLE tmp RENAME TO store].  The shadow table
    must not exist, and every projected column must exist in the store's
    table.  Dropping the table drops its storage-level indexes. *)
Definition sql_create_table (id : TableId) (autoIncrement : bool)
    (cols : list string) (db : Database) : option Database :=
  match db_tables db !! id with
  | Some _ => None
  | None => if decide (NoDup cols)
            then Some (db_set_tables
                   (<[id := mkTable autoIncrement cols []]> (db_tables db)) db)
            else None
  end.

Definition project_row (kept : list string) (oldName newName : string) (r : Row) : Row :=
  {| row_key := row_key r;
     row_value := row_value r;
     row_cols :=
       let preserved := filter (fun kv => kv.1 ∈ kept) (row_cols r) in
       match row_cols r !! oldName with
       | Some v => <[newName := v]> preserved
       | None => preserved
       end |}.

Definition sql_insert_select (dst src : TableId) (kept : list string)
    (oldName newName : string) (db : Database) : option Database :=
  t ← db_tables db !! src;
  d ← db_tables db !! dst;
  if decide (Forall (fun c => c ∈ tbl_columns t) (oldName :: kept))
  then Some (db_set_tables
         (<[dst := mkTable (tbl_autoIncrement d) (tbl_columns d)
                     (tbl_rows d ++ (project_row kept oldName newName <$> tbl_rows t))]>
            (db_tables db)) db)
  else None.

Definition sql_drop_table (store : string) (db : Database) : option Database :=
  _ ← db_tables db !! store_table store;
  Some (db_set_sqlIndexes
          (filter (fun i => i.1 <> store) (db_sqlIndexes db))
          (db_set_tables (delete (store_table store) (db_tables db)) db)).

Definition sql_rename_tmp_table (store : string) (db : Database) : option Database :=
  t ← db_tables db !! tmp_table store;
  match db_tables db !! store_table store with
  | Some _ => None
  | None => Some (db_set_tables
              (<[store_table store := t]> (delete (tmp_table store) (db_tables db))) db)
  end.

(** [CREATE INDEX "<store>^5<col>" ON <store>(<col>)], without
    [IF NOT EXISTS]. *)
Definition sql_create_index (store : string) (col : option string) (db : Database)
    : option Database :=
  t ← db_tables db !! store_table store;
  if decide ((store, col) ∈ db_sqlIndexes db) then None
  else if match col with
          | Some c => bool_decide (c ∈ tbl_columns t)
          | None => true
          end
  then Some (db_set_sqlIndexes ({[ (store, col) ]} ∪ db_sqlIndexes db) db)
  else None.

(** [DROP INDEX IF EXISTS "sk_<store>"] *)
Definition sql_drop_key_index (store : string) (db : Database) : Database :=
  db_set_sqlIndexes (db_sqlIndexes db ∖ {[ (store, None) ]}) db.

(** Statements issued one from the callback of the other: the first that
    fails ends the chain with the error callback, and what the earlier ones
    did stays done (undoing it is the rollback of the transaction). *)
Fixpoint run_statements (statements : list (Database -> option Database))
    (db : Database) : bool * Database :=
  match statements with
  | [] => (true, db)
  | statement :: statements' =>
      match statement db with
      | Some db' => run_statements statements' db'
      | None => (false, db)
      end
  end.

(** The four statements of the rebuild, then, when [CFG.useSQLiteIndexes],
    the storage-level indexes of the preserved index columns and of the
    [key] column. *)
Definition sql_rebuild (storeName oldName newName : string) (autoIncrement : bool)
    (indexColsToPreserve : list string) (db : Database) : bool * Database :=
  run_statements
    ([ sql_create_table (tmp_table storeName) autoIncrement
         (indexColsToPreserve ++ [newName]);
       sql_insert_select (tmp_table storeName) (store_table storeName)
         indexColsToPreserve oldName newName;
       sql_drop_table storeName;
       sql_rename_tmp_table storeName ]
     ++ (if CFG_useSQLiteIndexes
         then ((fun c => sql_create_index storeName (Some c)) <$> indexColsToPreserve)
              ++ [ fun db => Some (sql_drop_key_index storeName db);
                   sql_create_index storeName None ]
         else []))
    db.

(** The task, then [finish]: with [cb], lines 88-93 run, which update the
    index list and [delete storeHandle.__pendingName] before [success]. *)
Definition run_renameIndex (storeName oldName newName : string)
    (autoIncrement : bool) (indexColsToPreserve : list string)
    (cb : option (loc * loc)) (w : World) : TaskOutcome * World :=
  match sql_rebuild storeName oldName newName autoIncrement indexColsToPreserve
          (w_db w) with
  | (false, db) => (TaskFailure SQLError, w_set_db db w)
  | (true, db) =>
      let w1 := w_set_db db w in
      match cb with
      | None => (TaskSuccess ResUndefined, w1)
      | Some (store, storeHandle) =>
          match IDBIndex__updateIndexList store w1 with
          | None => (TaskThrew TypeError, w1)
          | Some w2 =>
              (TaskSuccess (ResStore store),
               w_set_stores (alter (os_set_pendingName None) storeHandle (w_stores w2)) w2)
          end
      end
  end.

(** *** Creating an index: [__clone] and [__createIndex] *)

(** [IDBIndex.__createInstance] (lines 25-99): a new descriptor.  The
    properties it is given here, those [__clone] builds and those
    [__updateIndexList] persists, have no [__deleted] property, so
    [!!indexProperties.__deleted] is [false].  (The constructor also resets
    [store.__cursors]; cursors belong to IDBCursor.js and are not part of
    this model.) *)
Definition IDBIndex__createInstance (store : loc)
    (indexProperties : IDBIndexProperties) : M loc :=
  fun w =>
    let l := fresh (dom (w_indexes w)) in
    let me :=
      {| ix_objectStore := store;
         ix_name := columnName indexProperties;
         ix_originalName := columnName indexProperties;
         ix_keyPath := keyPath indexProperties;
         ix_multiEntry := multiEntry indexProperties;
         ix_unique := unique indexProperties;
         ix_deleted := false;
         ix_pendingDelete := false;
         ix_pendingCreate := false;
         ix_recreated := false;
         ix_pendingName := None |} in
    (inr l, w_set_indexes (<[l := me]> (w_indexes w)) w).

(** [IDBIndex.__clone] (lines 115-128): a new instance for [store], onto
    which [__pendingCreate], [__pendingDelete], [__deleted],
    [__originalName] and [__recreated] are copied. *)
Definition IDBIndex__clone (index : IDBIndexObj) (store : loc) : M loc :=
  idx <- IDBIndex__createInstance store
           {| columnName := ix_name index;
              keyPath := ix_keyPath index;
              unique := ix_unique index;
              multiEntry := ix_multiEntry index;
              deleted := false |} ;;
  update_index idx (fun o =>
    mkIndex (ix_objectStore o) (ix_name o) (ix_originalName index) (ix_keyPath o)
      (ix_multiEntry o) (ix_unique o) (ix_deleted index) (ix_pendingDelete index)
      (ix_pendingCreate index) (ix_recreated index) (ix_pendingName o)) ;;;
  ret idx.

(** [IDBIndex.__createIndex] (lines 137-259), the part that runs at call
    time: the index is registered on the store before any SQL is issued. *)
Definition IDBIndex__createIndex (store index : loc) : M unit :=
  ix <- get_index index ;;
  let indexName := ix_name ix in
  os <- get_store store ;;
  let storeName := IDBObjectStore_currentName os in
  let idx := os_indexes os !! indexName in
  update_index index (ix_set_pendingCreate true) ;;;
  update_store store (fun o =>
    os_set_indexes (<[indexName := index]> (os_indexes o))
      (os_set_indexNames (os_indexNames o ++ [indexName]) o)) ;;;
  ix <- get_index index ;;
  os <- get_store store ;;
  indexHandle <-
    (let fresh_handle :=
       h <- IDBIndex__clone ix store ;;
       update_store store (fun o =>
         os_set_indexHandles (<[indexName := h]> (os_indexHandles o)) o) ;;;
       ret h in
     match os_indexHandles os !! indexName with
     | None => fresh_handle
     | Some h =>
         ho <- get_index h ;;
         if ix_pendingDelete ix || ix_deleted ix
            || ix_pendingDelete ho || ix_deleted ho
         then fresh_handle
         else ret h
     end) ;;
  os <- get_store store ;;
  addToTransactionQueue NonRequest (os_transaction os)
    (createIndex store index indexHandle indexName storeName idx).

(** *** The queued body of [__createIndex] (lines 160-258) *)

(** The [try] block of lines 179-184 for one row: the encoded index key, or
    [None] when control goes to the [catch]. *)
Definition row_indexKey (index : IDBIndexObj) (r : Row) : option EncodedKey :=
  value ← Sca_decode (row_value r);
  indexKey ← Key_extractKeyValueDecodedFromValueUsingKeyPath value
               (ix_keyPath index) (ix_multiEntry index);
  match indexKey with
  | ExtractValue k =>
      match Key_encode (QKey k) (ix_multiEntry index) with
      | inr e => Some e
      | inl _ => None
      end
  | ExtractFailure | ExtractInvalid => None
  end.

(** How the backfill ends: [success] is due, or [failure] was called. *)
Inductive Backfill : Type :=
| BackfillDone
| BackfillFailed (e : JSError).

(** [addIndexEntry (i)] of lines 176-221 over the rows from [i] on.
    [indexValues] is the object used as a set of the keys seen so far (no
    encoded key is the name of a property an empty object inherits). *)
Fixpoint addIndexEntry (index : IDBIndexObj) (storeName indexName : string)
    (rows : list Row) (indexValues : list EncodedKey) (db : Database)
    : Backfill * Database :=
  match rows with
  | [] => (BackfillDone, db)
  | r :: rows' =>
      match row_indexKey index r with
      | None => addIndexEntry index storeName indexName rows' indexValues db
      | Some indexKey =>
          if ix_unique index && bool_decide (indexKey ∈ indexValues)
          then (BackfillFailed (DOMException ConstraintError), db)
          else
            let indexValues' :=
              if ix_unique index then indexKey :: indexValues else indexValues in
            match sql_update_col storeName indexName indexKey (row_key r) db with
            | None => (BackfillFailed (DOMException UnknownError), db)
            | Some db' =>
                addIndexEntry index storeName indexName rows' indexValues' db'
            end
      end
  end.

(** The [else] branch of lines 209-220. *)
Definition finish_createIndex (index indexHandle : loc) (w : World) : World :=
  let clear := alter (ix_set_pendingCreate false) in
  let w1 := w_set_indexes (clear indexHandle (clear index (w_indexes w))) w in
  match w_indexes w1 !! index with
  | Some ix =>
      if ix_deleted ix
      then
        let recreate :=
          alter (fun o => ix_set_recreated true (ix_set_deleted false o)) in
        w_set_indexes (recreate indexHandle (recreate index (w_indexes w1))) w1
      else w1
  | None => w1
  end.

(** [applyIndex] (lines 168-224). *)
Definition applyIndex (store index indexHandle : loc) (indexName storeName : string)
    (w : World) : TaskOutcome * World :=
  match IDBIndex__updateIndexList store w with
  | None => (TaskThrew TypeError, w)
  | Some w1 =>
      match sql_select_all storeName (w_db w1), w_indexes w1 !! index with
      | None, _ => (TaskFailure (DOMException UnknownError), w1)
      | Some _, None => (TaskThrew TypeError, w1)
      | Some rows, Some ix =>
          match addIndexEntry ix storeName indexName rows [] (w_db w1) with
          | (BackfillFailed e, db) => (TaskFailure e, w_set_db db w1)
          | (BackfillDone, db) =>
              (TaskSuccess (ResStore store),
               finish_createIndex index indexHandle (w_set_db db w1))
          end
      end
  end.

(** [addIndexSQL] (lines 229-246). *)
Definition addIndexSQL (store index indexHandle : loc) (indexName storeName : string)
    (escapedIndexName : string) (w : World) : TaskOutcome * World :=
  if CFG_useSQLiteIndexes
  then match sql_create_index_if_not_exists storeName escapedIndexName (w_db w) with
       | None => (TaskFailure (DOMException UnknownError), w)
       | Some db => applyIndex store index indexHandle indexName storeName
                      (w_set_db db w)
       end
  else applyIndex store index indexHandle indexName storeName w.

(** The closure [createIndex] (lines 160-258).  [columnExists] is read when
    the closure runs; the column added is named after [index.name] as it is
    then. *)
Definition columnExists (idx : option loc) (w : World) : bool :=
  match idx ≫= (fun l => w_indexes w !! l) with
  | Some o => ix_deleted o || ix_recreated o
  | None => false
  end.

Definition run_createIndex (store index indexHandle : loc)
    (indexName storeName : string) (idx : option loc) (w : World)
    : TaskOutcome * World :=
  match w_indexes w !! index with
  | None => (TaskThrew TypeError, w)
  | Some ix =>
      if columnExists idx w
      then applyIndex store index indexHandle indexName storeName w
      else match sql_add_column storeName (ix_name ix) (w_db w) with
           | None => (TaskFailure (DOMException UnknownError), w)
           | Some db => addIndexSQL store index indexHandle indexName storeName
                          (ix_name ix) (w_set_db db w)
           end
  end.

(** *** Deleting an index: [__deleteIndex] (lines 267-313) *)

(** The part that runs at call time. *)
Definition IDBIndex__deleteIndex (store index : loc) : M unit :=
  update_index index (ix_set_pendingDelete true) ;;;
  ix <- get_index index ;;
  os <- get_store store ;;
  let indexHandle := os_indexHandles os !! ix_name ix in
  match indexHandle with
  | Some h => update_index h (ix_set_pendingDelete true)
  | None => ret tt
  end ;;;
  update_store store (fun o =>
    os_set_indexNames (splice_remove (ix_name ix) (os_indexNames o)) o) ;;;
  addToTransactionQueue NonRequest (os_transaction os)
    (deleteIndex store index indexHandle).

(** [DROP INDEX IF EXISTS "<store>^5<col>"] *)
Definition sql_drop_index (store col : string) (db : Database) : Database :=
  db_set_sqlIndexes (db_sqlIndexes db ∖ {[ (store, Some col) ]}) db.

(** [finishDeleteIndex] (lines 284-296). *)
Definition finishDeleteIndex (store index : loc) (indexHandle : option loc)
    (w : World) : TaskOutcome * World :=
  match IDBIndex__updateIndexList store w with
  | None => (TaskThrew TypeError, w)
  | Some w1 =>
      let indexes :=
        alter (fun o => ix_set_deleted true
                          (ix_set_recreated false (ix_set_pendingDelete false o)))
          index (w_indexes w1) in
      let indexes :=
        match indexHandle with
        | Some h =>
            alter (fun o => ix_set_pendingDelete false (ix_set_deleted true o))
              h indexes
        | None => indexes
        end in
      (TaskSuccess (ResStore store), w_set_indexes indexes w1)
  end.

(** The closure [deleteIndex] (lines 279-312); the storage-level index is
    named after [store.name] and [index.name] as they are when it runs. *)
Definition run_deleteIndex (store index : loc) (indexHandle : option loc)
    (w : World) : TaskOutcome * World :=
  if CFG_useSQLiteIndexes
  then match w_stores w !! store, w_indexes w !! index with
       | Some os, Some ix =>
           finishDeleteIndex store index indexHandle
             (w_set_db (sql_drop_index (os_name os) (ix_name ix) (w_db w)) w)
       | _, _ => (TaskThrew TypeError, w)
       end
  else finishDeleteIndex store index indexHandle w.

(** *** Bulk fetch: [buildFetchIndexDataSQL] (lines 626-658) *)

Definition lift {A} (r : JSError + A) : M A :=
  match r with
  | inl e => throw e
  | inr a => ret a
  end.

Fixpoint encode_all (keys : list Key) (multiEntry : bool) : JSError + list EncodedKey :=
  match keys with
  | [] => inr []
  | k :: keys' =>
      match Key_encode (QKey k) multiEntry with
      | inl e => inl e
      | inr e => match encode_all keys' multiEntry with
                 | inl err => inl err
                 | inr es => inr (e :: es)
                 end
      end
  end.

(** The value returned is the array
    [[nullDisallowed, index, hasRange, range, opType, multiChecks, sql, sqlValues]];
    here the components that are not arguments: [hasRange] and the query. *)
Definition buildFetchIndexDataSQL (nullDisallowed : bool) (index : loc)
    (range : Query) (opType : OpType) (multiChecks : bool)
    : M (bool * SelectQuery) :=
  ix <- get_index index ;;
  os <- get_store (ix_objectStore ix) ;;
  let hasRange := nullDisallowed || negb (is_nullish range) in
  let col := match opType with OpCount => OpKey | _ => opType end in
  cond <-
    (if hasRange then
       if multiChecks then
         match range with
         | QKey (KArray innerKeys) =>
             ps <- lift (encode_all innerKeys (ix_multiEntry ix)) ;;
             ret (CondAnyLike ps)
         | _ => throw TypeError
         end
       else if ix_multiEntry ix then
         p <- lift (Key_encode range (ix_multiEntry ix)) ;;
         ret (CondLike p)
       else
         convertedRange <- lift (convertValueToKeyRange range nullDisallowed) ;;
         ret (CondRange convertedRange)
     else ret CondNone) ;;
  ret (hasRange,
       {| sel_col := col;
          sel_withIndexCol := ix_multiEntry ix;
          sel_store := IDBObjectStore_currentName os;
          sel_index := ix_name ix;
          sel_cond := cond;
          sel_orderBy := negb (bool_decide (opType = OpCount));
          sel_limit := None |}).

(** *** [IDBIndex.prototype.__fetchIndexData] (lines 353-374) *)

Definition IDBIndex__fetchIndexData (me : loc) (range : Query) (opType : OpType)
    (nullDisallowed : bool) (count : option Z) : M unit :=
  count <- match count with
           | Some c => n <- lift (util_enforceRange c) ;; ret (Some n)
           | None => ret None
           end ;;
  IDBIndex__invalidStateIfDeleted me ;;;
  ix <- get_index me ;;
  os <- get_store (ix_objectStore ix) ;;
  IDBObjectStore__invalidStateIfDeleted os ;;;
  (if os_deleted os then throw (DOMException InvalidStateError) else ret tt) ;;;
  IDBTransaction__assertActive (os_transaction os) ;;;
  if nullDisallowed && is_nullish range
  then throw (DOMException DataError)
  else
    fetchArgs <- buildFetchIndexDataSQL nullDisallowed me range opType false ;;
    addToTransactionQueue Request (os_transaction os)
      (fetchIndexData count nullDisallowed me (fst fetchArgs) range opType false
         (snd fetchArgs)).

(** [get], [getKey], [getAll], [getAllKeys] (lines 404-426).  [arguments]
    is the list of the arguments actually passed. *)
Definition IDBIndex_get (me : loc) (arguments : list Query) : M unit :=
  match arguments with
  | [] => throw TypeError
  | query :: _ => IDBIndex__fetchIndexData me query OpValue true None
  end.

Definition IDBIndex_getKey (me : loc) (arguments : list Query) : M unit :=
  match arguments with
  | [] => throw TypeError
  | query :: _ => IDBIndex__fetchIndexData me query OpKey true None
  end.

Definition IDBIndex_getAll (me : loc) (query : Query) (count : option Z) : M unit :=
  IDBIndex__fetchIndexData me query OpValue false count.

Definition IDBIndex_getAllKeys (me : loc) (query : Query) (count : option Z) : M unit :=
  IDBIndex__fetchIndexData me query OpKey false count.

(** [count] (lines 428-441).  A query that is an [IDBKeyRange] instance is
    served by a cursor of IDBCursor.js and is not part of this file: [None]. *)
Definition IDBIndex_count (me : loc) (query : Query) : option (M unit) :=
  match query with
  | QKeyRange _ => None
  | _ => Some (IDBIndex__fetchIndexData me query OpCount false None)
  end.

(** *** [executeFetchIndexData] (lines 563-624) *)

(** [SameValueZero] on keys that were decoded apart: primitives compare by
    value, objects (dates, buffers, arrays) are never the same object. *)
Definition SameValueZero (a b : Key) : bool :=
  match a, b with
  | KNumber x, KNumber y => Z.eqb x y
  | KString x, KString y => String.eqb x y
  | _, _ => false
  end.

(** [rowKey.includes(check)]; [undefined], numbers, dates and buffers have no
    such method. *)
Definition includes (rowKey : option Key) (check : Key) : JSError + bool :=
  match rowKey with
  | Some (KArray elements) => inr (existsb (fun e => SameValueZero e check) elements)
  | Some (KString s) => inr (String_includes s check)
  | _ => inl TypeError
  end.

(** [checks.some((check) => rowKey.includes(check))] *)
Fixpoint some_includes (checks : list Key) (rowKey : option Key) : JSError + bool :=
  match checks with
  | [] => inr false
  | check :: checks' =>
      match includes rowKey check with
      | inl e => inl e
      | inr true => inr true
      | inr false => some_includes checks' rowKey
      end
  end.

(** [range.some(...)]: only an array has the method. *)
Definition range_some (range : Query) (rowKey : option Key) : JSError + bool :=
  match range with
  | QKey (KArray checks) => some_includes checks rowKey
  | _ => inl TypeError
  end.

(** The [decode] closure of lines 575-580. *)
Definition decode_record (opType : OpType) (record : Row) : JSError + Fetched :=
  match opType with
  | OpCount => inr FUndefined
  | OpKey => inr (match Key_decode (Some (row_key record)) with
                  | Some k => FKey k
                  | None => FUndefined
                  end)
  | OpValue => match Sca_decode (row_value record) with
               | Some v => inr (FValue v)
               | None => inl CodecError
               end
  end.

(** The condition of lines 588-591. *)
Definition row_matches (hasKey multiChecks : bool) (range : Query)
    (encodedKey : EncodedKey) (rowCol : option EncodedKey) (rowKey : option Key)
    : JSError + bool :=
  if hasKey then
    match (if multiChecks then range_some range rowKey else inr false) with
    | inl e => inl e
    | inr true => inr true
    | inr false => inr (Key_isMultiEntryMatch encodedKey rowCol)
    end
  else inr false.

(** What one row adds to [recordCount] on lines 594-598. *)
Definition rowKey_count (rowKey : Key) : nat :=
  match rowKey with
  | KArray elements => length elements
  | _ => 1%nat
  end.

(** The loop of lines 584-606; the result is [recordCount] and [records]. *)
Fixpoint multiEntry_loop (unboundedDisallowed hasKey multiChecks : bool)
    (range : Query) (opType : OpType) (indexName : string)
    (encodedKey : EncodedKey) (rows : list Row)
    (recordCount : nat) (records : list Fetched) : JSError + (nat * list Fetched) :=
  match rows with
  | [] => inr (recordCount, records)
  | row :: rows' =>
      let rowCol := row_cols row !! indexName in
      let rowKey := Key_decode rowCol in
      match row_matches hasKey multiChecks range encodedKey rowCol rowKey with
      | inl e => inl e
      | inr matched =>
          let '(recordCount', record) :=
            if matched then (S recordCount, true)
            else if negb hasKey && negb multiChecks then
              match rowKey with
              | Some k => ((recordCount + rowKey_count k)%nat, true)
              | None => (recordCount, false)
              end
            else (recordCount, false) in
          if record then
            match decode_record opType row with
            | inl e => inl e
            | inr d =>
                if unboundedDisallowed then inr (recordCount', records ++ [d])
                else multiEntry_loop unboundedDisallowed hasKey multiChecks range
                       opType indexName encodedKey rows' recordCount' (records ++ [d])
            end
          else multiEntry_loop unboundedDisallowed hasKey multiChecks range
                 opType indexName encodedKey rows' recordCount' records
      end
  end.

(** The loop of lines 608-613. *)
Fixpoint plain_loop (opType : OpType) (rows : list Row) (records : list Fetched)
    : JSError + list Fetched :=
  match rows with
  | [] => inr records
  | record :: rows' =>
      match decode_record opType record with
      | inl e => inl e
      | inr d => plain_loop opType rows' (records ++ [d])
      end
  end.

(** Lines 616-622: the argument of [success]. *)
Definition fetch_result (unboundedDisallowed : bool) (opType : OpType)
    (recordCount : nat) (records : list Fetched) : TaskResult :=
  if bool_decide (opType = OpCount) then ResCount recordCount
  else if Nat.eqb recordCount 0
  then (if unboundedDisallowed then ResUndefined else ResRecords [])
  else if unboundedDisallowed
  then match records with
       | r :: _ => ResRecord r
       | [] => ResUndefined
       end
  else ResRecords records.

(** The callback of [tx.executeSql] (lines 572-623) on [data.rows]. *)
Definition fetch_callback (unboundedDisallowed : bool) (index : IDBIndexObj)
    (hasKey : bool) (range : Query) (opType : OpType) (multiChecks : bool)
    (rows : list Row) : TaskOutcome :=
  if ix_multiEntry index then
    match Key_encode range (ix_multiEntry index) with
    | inl e => TaskThrew e
    | inr encodedKey =>
        match multiEntry_loop unboundedDisallowed hasKey multiChecks range opType
                (ix_name index) encodedKey rows 0 [] with
        | inl e => TaskThrew e
        | inr (recordCount, records) =>
            TaskSuccess (fetch_result unboundedDisallowed opType recordCount records)
        end
    end
  else
    match plain_loop opType rows [] with
    | inl e => TaskThrew e
    | inr records =>
        TaskSuccess (fetch_result unboundedDisallowed opType (length records) records)
    end.

(** Lines 564-569: the effective row limit. *)
Definition with_limit (count : option N) (unboundedDisallowed : bool)
    (sql : SelectQuery) : SelectQuery :=
  let count := if unboundedDisallowed then Some 1%N else count in
  match count with
  | Some n =>
      if N.eqb n 0 then sql
      else mkSelect (sel_col sql) (sel_withIndexCol sql) (sel_store sql)
             (sel_index sql) (sel_cond sql) (sel_orderBy sql) (Some n)
  | None => sql
  end.

Definition executeFetchIndexData (count : option N) (unboundedDisallowed : bool)
    (index : loc) (hasKey : bool) (range : Query) (opType : OpType)
    (multiChecks : bool) (sql : SelectQuery) (w : World) : TaskOutcome :=
  match sql_select (with_limit count unboundedDisallowed sql) (w_db w) with
  | None => TaskFailure SQLError
  | Some rows =>
      match w_indexes w !! index with
      | None => TaskThrew TypeError
      | Some ix =>
          fetch_callback unboundedDisallowed ix hasKey range opType multiChecks rows
      end
  end.

(** *** Running a queued closure *)

Definition run_task (t : Task) (w : World) : TaskOutcome * World :=
  match t with
  | createIndex store index indexHandle indexName storeName idx =>
      run_createIndex store index indexHandle indexName storeName idx w
  | deleteIndex store index indexHandle =>
      run_deleteIndex store index indexHandle w
  | renameIndex storeName oldName newName autoIncrement cols cb =>
      run_renameIndex storeName oldName newName autoIncrement cols cb w
  | fetchIndexData count unboundedDisallowed index hasKey range opType multiChecks sql =>
      (executeFetchIndexData count unboundedDisallowed index hasKey range opType
         multiChecks sql w, w)
  end.

(** *** Notions used to state properties *)

(** The table of [storeName] exists and has the column [col]. *)
Definition has_column (db : Database) (storeName col : string) : Prop :=
  exists t, db_tables db !! store_table storeName = Some t /\ col ∈ tbl_columns t.


(** What [__createIndex] has done to the store and the descriptor by the
    time it returns: the name is listed, mapped to the descriptor, and the
    descriptor is pending creation. *)
Definition registered (w : World) (store index : loc) (indexName : string) : Prop :=
  exists os ix,
    w_stores w !! store = Some os /\ w_indexes w !! index = Some ix
    /\ indexName ∈ os_indexNames os /\ os_indexes os !! indexName = Some index
    /\ ix_name ix = indexName /\ ix_pendingCreate ix = true.

(** The index list persisted for [store] names [indexName]. *)
Definition persisted (w : World) (store : loc) (indexName : string) : Prop :=
  exists os indexList,
    w_stores w !! store = Some os
    /\ db_sys (w_db w) !! IDBObjectStore_currentName os = Some indexList
    /\ is_Some (indexList !! indexName).

(** The queued [createIndex] closure finds what it needs: the store and
    the descriptor, every listed name resolved to a descriptor, the table,
    and the column present exactly when the closure takes it to be. *)
Record creation_ready (w : World) (store index : loc)
    (indexName storeName : string) (idx : option loc)
    (os : IDBObjectStoreObj) (ix : IDBIndexObj) (t : Table)
    (indexList : gmap string IDBIndexProperties) : Prop := {
  cr_store : w_stores w !! store = Some os;
  cr_index : w_indexes w !! index = Some ix;
  cr_name : ix_name ix = indexName;
  cr_indexList :
    build_indexList (w_indexes w) os (os_indexNames os) ∅ = Some indexList;
  cr_table : db_tables (w_db w) !! store_table storeName = Some t;
  cr_column : columnExists idx w = bool_decide (indexName ∈ tbl_columns t)
}.

(** What a row adds to [recordCount] in a count without filter (lines
    594-598). *)
Definition row_count (indexName : string) (r : Row) : nat :=
  match Key_decode (row_cols r !! indexName) with
  | Some k => rowKey_count k
  | None => 0
  end.

(** *** States in which the guards pass *)

(** The guards of the [name] setter (lines 53-56) let the call through. *)
Record rename_guards_pass (w : World) (me : loc) (ix : IDBIndexObj)
    (os : IDBObjectStoreObj) (tx : IDBTransactionObj) : Prop := {
  rg_index : w_indexes w !! me = Some ix;
  rg_store : w_stores w !! ix_objectStore ix = Some os;
  rg_transaction :
    exists l, os_transaction os = Some l /\ w_transactions w !! l = Some tx;
  rg_versionchange : tx_versionchange tx = true;
  rg_active : tx_active tx = true;
  rg_deleted : ix_deleted ix = false;
  rg_pendingDelete : ix_pendingDelete ix = false;
  rg_errored : ix_pendingCreate ix = true -> tx_errored tx = false
}.

(** The guards of [__fetchIndexData] (lines 359-364) let the call through. *)
Record fetch_guards_pass (w : World) (me : loc) (ix : IDBIndexObj)
    (os : IDBObjectStoreObj) (tx : IDBTransactionObj) : Prop := {
  fg_index : w_indexes w !! me = Some ix;
  fg_store : w_stores w !! ix_objectStore ix = Some os;
  fg_transaction :
    exists l, os_transaction os = Some l /\ w_transactions w !! l = Some tx;
  fg_active : tx_active tx = true;
  fg_deleted : ix_deleted ix = false;
  fg_pendingDelete : ix_pendingDelete ix = false;
  fg_errored : ix_pendingCreate ix = true -> tx_errored tx = false;
  fg_store_deleted : os_deleted os = false;
  fg_store_pendingDelete : os_pendingDelete os = false;
  fg_store_errored : os_pendingCreate os = true -> tx_errored tx = false
}.

(** *** Notions used to state further properties *)

(** What [decode] (lines 575-577) makes of a row for [opType = 'key']. *)
Definition fetched_key (r : Row) : Fetched :=
  match Key_decode (Some (row_key r)) with
  | Some k => FKey k
  | None => FUndefined
  end.

(** The exact re-check of line 590 on the index column of a row. *)
Definition multiEntry_match (encodedKey : EncodedKey) (indexName : string)
    (r : Row) : bool :=
  Key_isMultiEntryMatch encodedKey (row_cols r !! indexName).

(** The index column of a row decodes to a key (line 595). *)
Definition has_rowKey (indexName : string) (r : Row) : bool :=
  match Key_decode (row_cols r !! indexName) with
  | Some _ => true
  | None => false
  end.

(** Every listed index name of the store resolves, through
    [store.__indexes], to a descriptor that carries that name. *)
Definition names_resolved (indexes : gmap loc IDBIndexObj)
    (os : IDBObjectStoreObj) : Prop :=
  forall n, n ∈ os_indexNames os ->
    exists l idx, os_indexes os !! n = Some l /\ indexes !! l = Some idx
                  /\ ix_name idx = n.

(** Two lists of rows hold the same records in the same order and agree
    on every column but [col]. *)
Definition rows_agree_off (col : string) (rows rows' : list Row) : Prop :=
  Forall2 (fun r r' => row_key r' = row_key r /\ row_value r' = row_value r
                       /\ forall c, c <> col -> row_cols r' !! c = row_cols r !! c)
    rows rows'.

(** What a step working on the column [indexName] of [storeName] may do to
    the tables: no table comes or goes, every table but the store's is
    left as it is, and the store's table can only gain columns and have
    the entries of [indexName] written. *)
Definition only_writes_column (storeName indexName : string)
    (db db' : Database) : Prop :=
  forall id,
    match db_tables db !! id with
    | None => db_tables db' !! id = None
    | Some t =>
        exists t',
          db_tables db' !! id = Some t'
          /\ tbl_autoIncrement t' = tbl_autoIncrement t
          /\ tbl_columns t ⊆ tbl_columns t'
          /\ (id <> store_table storeName -> t' = t)
          /\ rows_agree_off indexName (tbl_rows t) (tbl_rows t')
    end.

(** What the backfill writes into a row: the encoded index key of the
    record, when it has one. *)
Definition backfilled (index : IDBIndexObj) (indexName : string) (r : Row) : Row :=
  match row_indexKey index r with
  | Some indexKey => row_set_col indexName indexKey r
  | None => r
  end.

End Engine.

(** ** A reference instance of the collaborators *)

Module Reference.

(** What an index column holds: the encoding of a key, or the encoding of
    an absent query. *)
Inductive Encoded : Type :=
| EncNull
| Enc (k : Key).

Global Instance Encoded_eq_dec : EqDecision Encoded.
Proof. solve_decision. Defined.

(** A stored record: an object whose properties hold keys. *)
Definition Record_ : Type := list (string * Key).

Definition category (k : Key) : nat :=
  match k with
  | KNumber _ => 0
  | KDate _ => 1
  | KBinary _ => 2
  | KString _ => 3
  | KArray _ => 4
  end.

(** Modelled from the spec: the ordering of keys that Key.js (not among the
    sources) encodes.  Section 4.1: "numbers ..., dates ..., binary blobs,
    strings (ordered by code-point sequence), arrays (ordered
    lexicographically by element, shorter-is-smaller on common prefix)". *)
Fixpoint Key_compare (a b : Key) {struct a} : comparison :=
  match a, b with
  | KNumber x, KNumber y => Z.compare x y
  | KDate x, KDate y => Z.compare x y
  | KBinary x, KBinary y => String.compare x y
  | KString x, KString y => String.compare x y
  | KArray l, KArray m =>
      (fix go (l m : list Key) {struct l} : comparison :=
         match l, m with
         | [], [] => Eq
         | [], _ :: _ => Lt
         | _ :: _, [] => Gt
         | x :: l', y :: m' =>
             match Key_compare x y with
             | Eq => go l' m'
             | c => c
             end
         end) l m
  | _, _ => Nat.compare (category a) (category b)
  end.

(** Modelled from the spec: [Key.encode] of Key.js (not among the sources).
    Section 4.1: "When multiEntry is true and the input is a sequence,
    produces a structure decodable into the distinct element set ...; if the
    input is not a sequence, behaves as the non-multi-entry case"; "encode
    fails ... for unsupported types".  An absent query has the null
    encoding. *)
Definition encode (q : Query) (multiEntry : bool) : JSError + Encoded :=
  match q with
  | QUndefined | QNull => inr EncNull
  | QKey (KArray l) => inr (Enc (KArray (if multiEntry then remove_dups l else l)))
  | QKey k => inr (Enc k)
  | QKeyRange _ => inl CodecError
  end.

(** Modelled from the spec: [Key.decode] of Key.js (not among the sources),
    the inverse of [encode] (section 8: "decode(encode(k)) == k");
    anything that is not an encoded key decodes to [undefined]. *)
Definition decode (e : option Encoded) : option Key :=
  match e with
  | Some (Enc k) => Some k
  | _ => None
  end.

(** Modelled from the spec: [Key.isMultiEntryMatch] of Key.js (not among the
    sources), the "does this encoded set contain element X" test of section
    4.1, which is equality on a column that holds a single key. *)
Definition isMultiEntryMatch (e : Encoded) (col : option Encoded) : bool :=
  match e, col with
  | Enc k, Some (Enc (KArray l)) => bool_decide (k ∈ l) || bool_decide (k = KArray l)
  | Enc k, Some (Enc k') => bool_decide (k = k')
  | _, _ => false
  end.

(** Modelled from the spec: [Key.extractKeyValueDecodedFromValueUsingKeyPath]
    of Key.js (not among the sources): the key path names the property that
    supplies the key (glossary); a record without it has no key. *)
Definition extract (value : Record_) (kp : KeyPath) (multiEntry : bool)
    : option KeyExtraction :=
  let property p :=
    snd <$> List.find (fun kv => String.eqb (fst kv) p) value in
  match kp with
  | KPString p =>
      Some (match property p with
            | Some k => ExtractValue k
            | None => ExtractFailure
            end)
  | KPArray ps =>
      Some (match mapM property ps with
            | Some ks => ExtractValue (KArray ks)
            | None => ExtractFailure
            end)
  end.

(** Modelled from the spec: [convertValueToKeyRange] of IDBKeyRange.js (not
    among the sources).  Section 3: "A bare key value is sugar for
    {lower=upper=key, lowerOpen=upperOpen=false}"; "a null bound means
    unbounded". *)
Definition toKeyRange (q : Query) (nullDisallowed : bool) : JSError + IDBKeyRange :=
  match q with
  | QKey k => inr (mkKeyRange (Some k) (Some k) false false)
  | QKeyRange r => inr r
  | QUndefined | QNull =>
      if nullDisallowed then inl (DOMException DataError)
      else inr (mkKeyRange None None false false)
  end.

Definition in_range (r : IDBKeyRange) (e : Encoded) : bool :=
  match e with
  | EncNull => false
  | Enc k =>
      match lower r with
      | None => true
      | Some lo => match Key_compare lo k with
                   | Lt => true
                   | Eq => negb (lowerOpen r)
                   | Gt => false
                   end
      end &&
      match upper r with
      | None => true
      | Some hi => match Key_compare k hi with
                   | Lt => true
                   | Eq => negb (upperOpen r)
                   | Gt => false
                   end
      end
  end.

Definition leb (a b : Encoded) : bool :=
  match a, b with
  | Enc x, Enc y => match Key_compare x y with Gt => false | _ => true end
  | EncNull, _ => true
  | Enc _, EncNull => false
  end.

(** [unsigned long] with [EnforceRange]. *)
Definition enforceRange (z : Z) : JSError + N :=
  if (0 <=? z)%Z && (z <=? 4294967295)%Z then inr (Z.to_N z) else inl TypeError.

(** [ToString] of the host on a key, where the model determines it: an
    integer below 10^21 in magnitude prints in plain decimal, a string is
    itself, an array prints its elements joined by commas.  How a date
    prints depends on the host and its time zone, and how a decoded buffer
    prints on the object [Key.decode] builds for it (Key.js is not among
    the sources): [None]. *)
Fixpoint toString (k : Key) : option string :=
  match k with
  | KNumber z =>
      if (Z.abs z <? 10 ^ 21)%Z
      then Some (DecimalString.NilZero.string_of_int (Z.to_int z))
      else None
  | KString s => Some s
  | KArray elements =>
      (fix join (l : list Key) : option string :=
         match l with
         | [] => Some EmptyString
         | [x] => toString x
         | x :: l' =>
             match toString x, join l' with
             | Some s, Some rest => Some (s ++ "," ++ rest)%string
             | _, _ => None
             end
         end) elements
  | KDate _ | KBinary _ => None
  end.

(** [s.includes(k)] of the host: [k] is converted to a string and looked
    for in [s].  For a key whose conversion the model does not determine
    the reference instance answers [false]. *)
Definition string_includes (s : string) (k : Key) : bool :=
  match toString k with
  | Some c => match String.index 0 c s with Some _ => true | None => false end
  | None => false
  end.

(** [__currentName] of a store reads like the getter of an index (lines
    38-42). *)
Definition currentName (o : IDBObjectStoreObj) : string :=
  match os_pendingName o with
  | Some p => p
  | None => os_name o
  end.

Global Instance collaborators : @Collaborators Encoded Record_ Record_ := {|
  CFG_useSQLiteIndexes := true;
  Sca_decode := Some;
  Key_extractKeyValueDecodedFromValueUsingKeyPath := extract;
  Key_encode := encode;
  Key_decode := decode;
  Key_isMultiEntryMatch := isMultiEntryMatch;
  String_includes := string_includes;
  convertValueToKeyRange := toKeyRange;
  util_enforceRange := enforceRange;
  IDBObjectStore_currentName := currentName;
  sql_like := fun p v => isMultiEntryMatch p (Some v);
  sql_in_range := in_range;
  sql_leb := leb
|}.

End Reference.

(** ** Example worlds *)

Module Examples.
Import Reference.

#[local] Abbreviation Row := (@Row Encoded Record_).
#[local] Abbreviation Table := (@Table Encoded Record_).
#[local] Abbreviation Database := (@Database Encoded Record_).
#[local] Abbreviation Task := (@Task Encoded).
#[local] Abbreviation IDBTransactionObj := (@IDBTransactionObj Encoded).
#[local] Abbreviation World := (@World Encoded Record_).
#[local] Abbreviation SelectQuery := (@SelectQuery Encoded).

Definition num (z : Z) : Key := KNumber z.

(** Records of a store [people]. *)
Definition ann : Row :=
  mkRow (Enc (num 1)) [("name", KString "Ann"); ("tags", KArray [KString "x"; KString "y"])] ∅.
Definition bob : Row :=
  mkRow (Enc (num 2)) [("name", KString "Bob")] ∅.
Definition ann2 : Row :=
  mkRow (Enc (num 3)) [("name", KString "Ann"); ("tags", KArray [num 1; num 2; num 2; num 3])] ∅.

(** The same records once the indexes [a] on [name] and [b] on [tags]
    (multi-entry) are populated. *)
Definition ann_indexed : Row :=
  mkRow (row_key ann) (row_value ann)
    {[ "a" := Enc (KString "Ann"); "b" := Enc (KArray [KString "x"; KString "y"]) ]}.
Definition bob_indexed : Row :=
  mkRow (row_key bob) (row_value bob) {[ "a" := Enc (KString "Bob") ]}.

Definition people_table (cols : list string) (rows : list Row) : Table :=
  mkTable false cols rows.

Definition database (cols : list string) (rows : list Row)
    (indexList : gmap string IDBIndexProperties) : Database :=
  {| db_tables := {[ store_table "people" := people_table cols rows ]};
     db_sys := {[ "people" := indexList ]};
     db_sqlIndexes := {[ ("people", None) ]} |}.

Definition transaction (versionchange active errored : bool) : IDBTransactionObj :=
  {| tx_versionchange := versionchange; tx_active := active; tx_errored := errored;
     tx_storeHandles := {[ "people" := 1%positive ]}; tx_queue := [] |}.

Definition people (names : list string) (indexes handles : gmap string loc)
    (deleted : bool) : IDBObjectStoreObj :=
  {| os_name := "people"; os_pendingName := None; os_autoIncrement := false;
     os_indexNames := names; os_indexes := indexes; os_indexHandles := handles;
     os_deleted := deleted; os_pendingDelete := false; os_pendingCreate := false;
     os_transaction := Some 1%positive |}.

Definition index (name : string) (path : string) (multi uniq del : bool) : IDBIndexObj :=
  {| ix_objectStore := 1%positive; ix_name := name; ix_originalName := name;
     ix_keyPath := KPString path; ix_multiEntry := multi; ix_unique := uniq;
     ix_deleted := del; ix_pendingDelete := false; ix_pendingCreate := false;
     ix_recreated := false; ix_pendingName := None |}.

Definition props (name path : string) (multi uniq : bool) : IDBIndexProperties :=
  mkProps name (KPString path) uniq multi false.

(** A store with no index yet and a fresh descriptor (location 10) about to
    be created on it, inside an active version-change transaction. *)
Definition before_create (ix : IDBIndexObj) (rows : list Row) : World :=
  {| w_indexes := {[ 10%positive := ix ]};
     w_stores := {[ 1%positive := people [] ∅ ∅ false ]};
     w_transactions := {[ 1%positive := transaction true true false ]};
     w_db := database [] rows ∅ |}.

(** A store with the indexes [a] (location 10, handle 11) and [b]
    (location 20, handle 21). *)
Definition two_indexes (a b : IDBIndexObj) (storeDeleted : bool)
    (tx : IDBTransactionObj) : World :=
  {| w_indexes := {[ 10%positive := a; 11%positive := a;
                     20%positive := b; 21%positive := b ]};
     w_stores := {[ 1%positive :=
                      people ["a"; "b"]
                        {[ "a" := 10%positive; "b" := 20%positive ]}
                        {[ "a" := 11%positive; "b" := 21%positive ]} storeDeleted ]};
     w_transactions := {[ 1%positive := tx ]};
     w_db := database ["a"; "b"] [ann_indexed; bob_indexed]
               {[ "a" := props "a" "name" false false;
                  "b" := props "b" "tags" true false ]} |}.

(** The same store where [a] has been deleted: the descriptor is a
    tombstone, no longer listed. *)
Definition deleted_a : World :=
  {| w_indexes := {[ 10%positive := index "a" "name" false false true;
                     20%positive := index "b" "tags" true false false;
                     21%positive := index "b" "tags" true false false ]};
     w_stores := {[ 1%positive :=
                      people ["b"]
                        {[ "a" := 10%positive; "b" := 20%positive ]}
                        {[ "b" := 21%positive ]} false ]};
     w_transactions := {[ 1%positive := transaction true true false ]};
     w_db := database ["a"; "b"] [ann_indexed; bob_indexed]
               {[ "b" := props "b" "tags" true false ]} |}.

(** The closures queued on transaction 1. *)
Definition queued (w : World) : list (QueueKind * Task) :=
  from_option tx_queue [] (w_transactions w !! 1%positive).

(** Runs the first queued closure. *)
Definition run_first (w : World) : option (TaskOutcome * World) :=
  match queued w with
  | (_, t) :: _ => Some (run_task t w)
  | [] => None
  end.

(** Runs every queued closure in turn, whatever each reports, and gives
    the outcomes with the last world. *)
Fixpoint run_all (tasks : list (QueueKind * Task)) (w : World)
    : list TaskOutcome * World :=
  match tasks with
  | [] => ([], w)
  | (_, t) :: tasks' =>
      let '(o, w1) := run_task t w in
      let '(os, w2) := run_all tasks' w1 in
      (o :: os, w2)
  end.

(** Creating a unique index on [name] over a store where two records are
    named Ann. *)
Definition unique_byName : World :=
  before_create (index "byName" "name" false true false) [ann; bob; ann2].
Definition unique_byName_called : (JSError + unit) * World :=
  IDBIndex__createIndex 1%positive 10%positive unique_byName.
Definition unique_byName_ran : option (TaskOutcome * World) :=
  run_first (snd unique_byName_called).
Definition unique_byName_after : World :=
  from_option snd (snd unique_byName_called) unique_byName_ran.

(** Creating a multi-entry index on [tags], then counting without filter. *)
Definition multi_byTag : World :=
  before_create (index "byTag" "tags" true false false) [ann; bob; ann2].
Definition multi_byTag_counted : option (list TaskOutcome) :=
  let w1 := snd (IDBIndex__createIndex 1%positive 10%positive multi_byTag) in
  match IDBIndex_count 10%positive QUndefined with
  | Some count => Some (fst (run_all (queued (snd (count w1))) (snd (count w1))))
  | None => None
  end.

(** Renaming [a] to [c]. *)
Definition index_a : IDBIndexObj := index "a" "name" false false false.
Definition index_b : IDBIndexObj := index "b" "tags" true false false.
Definition people_ab (storeDeleted : bool) : IDBObjectStoreObj :=
  people ["a"; "b"] {[ "a" := 10%positive; "b" := 20%positive ]}
    {[ "a" := 11%positive; "b" := 21%positive ]} storeDeleted.
Definition renaming (storeDeleted : bool) : World :=
  two_indexes index_a index_b storeDeleted (transaction true true false).
Definition renamed (storeDeleted : bool) : (JSError + unit) * World :=
  IDBIndex_set_name 10%positive "c" (renaming storeDeleted).
Definition renamed_ran (storeDeleted : bool) : option (TaskOutcome * World) :=
  run_first (snd (renamed storeDeleted)).
Definition renamed_after (storeDeleted : bool) : World :=
  from_option snd (snd (renamed storeDeleted)) (renamed_ran storeDeleted).

(** Deleting [a], then creating an index of the same name and options with
    a fresh descriptor (location 30), in one version-change transaction. *)
Definition recreated : list TaskOutcome * World :=
  let w0 :=
    w_set_indexes (<[30%positive := index_a]> (w_indexes (renaming false)))
      (renaming false) in
  let w1 := snd (IDBIndex__deleteIndex 1%positive 10%positive w0) in
  let w2 := snd (IDBIndex__createIndex 1%positive 30%positive w1) in
  run_all (queued w2) w2.

(** A query on [a] for a name no record has. *)
Definition select_zed : SelectQuery :=
  {| sel_col := OpValue; sel_withIndexCol := false; sel_store := "people";
     sel_index := "a";
     sel_cond := CondRange (mkKeyRange (Some (KString "Zed")) (Some (KString "Zed"))
                              false false);
     sel_orderBy := true; sel_limit := None |}.

(** Rows of a multi-entry index [byTag]: Ann with tags x and y, and a
    record whose tags were 1, 2, 2, 3. *)
Definition byTag : IDBIndexObj := index "byTag" "tags" true false false.
Definition ann_tagged : Row :=
  mkRow (row_key ann) (row_value ann)
    {[ "byTag" := Enc (KArray [KString "x"; KString "y"]) ]}.
Definition ann2_tagged : Row :=
  mkRow (row_key ann2) (row_value ann2)
    {[ "byTag" := Enc (KArray [num 1; num 2; num 3]) ]}.

(** The store once [__deleteIndex] has been called on [a]. *)
Definition deleting_a : World :=
  snd (IDBIndex__deleteIndex 1%positive 10%positive (renaming false)).

(** Deleting [a], an index on [name], and creating an index of the same
    name on [tags] with a fresh descriptor (location 30): the state in
    which the queued deletion has run and the queued creation is next. *)
Definition index_a_tags : IDBIndexObj := index "a" "tags" true false false.
Definition recreating_called : World :=
  let w0 :=
    w_set_indexes (<[30%positive := index_a_tags]> (w_indexes (renaming false)))
      (renaming false) in
  let w1 := snd (IDBIndex__deleteIndex 1%positive 10%positive w0) in
  snd (IDBIndex__createIndex 1%positive 30%positive w1).
Definition recreating : World :=
  from_option snd recreating_called (run_first recreating_called).

(** A query on the column [a] without condition. *)
Definition select_a : SelectQuery :=
  {| sel_col := OpKey; sel_withIndexCol := false; sel_store := "people";
     sel_index := "a"; sel_cond := CondNone; sel_orderBy := true;
     sel_limit := None |}.


End Examples.

(** ** Properties of the engine *)

Section EngineFacts.

Context {EncodedKey Stored Value : Type} `{EqDecision EncodedKey}.
Context {C : @Collaborators EncodedKey Stored Value}.

#[local] Abbreviation World := (@World EncodedKey Stored).
#[local] Abbreviation Row := (@Row EncodedKey Stored).
#[local] Abbreviation Database := (@Database EncodedKey Stored).
#[local] Abbreviation Table := (@Table EncodedKey Stored).
#[local] Abbreviation SelectQuery := (@SelectQuery EncodedKey).
#[local] Abbreviation IDBTransactionObj := (@IDBTransactionObj EncodedKey).

(** Unfolds the monad of the synchronous code. *)
Ltac step_m :=
  unfold bind, get_index, get_store, get_transaction, update_index,
    update_store, update_transaction, modify, deref, ret, throw, lift;
  simpl.

(** Reads through the updates made to the heaps, with the lookups known from
    the context. *)
Ltac heap_step :=
  first
    [ rewrite lookup_alter_eq
    | rewrite lookup_alter_ne by congruence
    | rewrite lookup_insert_eq
    | match goal with
      | H : _ !! _ = Some _ |- _ => rewrite H
      | H : os_transaction _ = Some _ |- _ => rewrite H
      end
    | progress simpl ].

(** *** The guards *)

Lemma assertVersionChange_pass (w : World) l tx :
  w_transactions w !! l = Some tx -> tx_versionchange tx = true ->
  IDBTransaction__assertVersionChange (Some l) w = (inr tt, w).
Proof.
  intros Hl Hv. unfold IDBTransaction__assertVersionChange. simpl.
  rewrite Hl. simpl. rewrite Hv. reflexivity.
Qed.

Lemma assertActive_pass (w : World) l tx :
  w_transactions w !! l = Some tx -> tx_active tx = true ->
  IDBTransaction__assertActive (Some l) w = (inr tt, w).
Proof.
  intros Hl Hv. unfold IDBTransaction__assertActive. simpl.
  rewrite Hl. simpl. rewrite Hv. reflexivity.
Qed.

Lemma index_invalidStateIfDeleted_pass (w : World) me ix os l tx :
  w_indexes w !! me = Some ix ->
  w_stores w !! ix_objectStore ix = Some os ->
  os_transaction os = Some l -> w_transactions w !! l = Some tx ->
  ix_deleted ix = false -> ix_pendingDelete ix = false ->
  (ix_pendingCreate ix = true -> tx_errored tx = false) ->
  IDBIndex__invalidStateIfDeleted me w = (inr tt, w).
Proof.
  intros Hix Hos Hl Htx Hd Hp He.
  unfold IDBIndex__invalidStateIfDeleted. step_m. rewrite Hix. simpl.
  rewrite Hd, Hp. simpl.
  destruct (ix_pendingCreate ix) eqn:Hc; [|reflexivity].
  rewrite Hos. simpl. unfold transaction_errored. rewrite Hl. step_m.
  rewrite Htx. simpl. rewrite He; reflexivity.
Qed.

Lemma index_invalidStateIfDeleted_deleted (w : World) me ix :
  w_indexes w !! me = Some ix ->
  ix_deleted ix = true \/ ix_pendingDelete ix = true ->
  IDBIndex__invalidStateIfDeleted me w = (inl (DOMException InvalidStateError), w).
Proof.
  intros Hix Hd.
  unfold IDBIndex__invalidStateIfDeleted. step_m. rewrite Hix. simpl.
  destruct Hd as [-> | ->]; [reflexivity|].
  rewrite orb_true_r. reflexivity.
Qed.


(** The store guard handed an index reads the flags of the index, and finds
    no transaction on it. *)
Lemma store_guard_on_index (w : World) (ix : IDBIndexObj) :
  ix_deleted ix = false -> ix_pendingDelete ix = false ->
  IDBObjectStore__invalidStateIfDeleted ix w = (inr tt, w).
Proof.
  intros Hd Hp. unfold IDBObjectStore__invalidStateIfDeleted. simpl.
  rewrite Hd, Hp. simpl. destruct (ix_pendingCreate ix); reflexivity.
Qed.

Lemma store_guard_on_store (w : World) (os : IDBObjectStoreObj) l tx :
  os_transaction os = Some l -> w_transactions w !! l = Some tx ->
  os_deleted os = false -> os_pendingDelete os = false ->
  (os_pendingCreate os = true -> tx_errored tx = false) ->
  IDBObjectStore__invalidStateIfDeleted os w = (inr tt, w).
Proof.
  intros Hl Htx Hd Hp He. unfold IDBObjectStore__invalidStateIfDeleted. simpl.
  rewrite Hd, Hp. simpl. destruct (os_pendingCreate os) eqn:Hc; [|reflexivity].
  rewrite Hl. unfold transaction_errored. step_m. rewrite Htx. simpl.
  rewrite He; reflexivity.
Qed.

(** The four guards of the setter, then the code after them. *)
Lemma set_name_guarded (w : World) me ix os tx newName :
  rename_guards_pass w me ix os tx ->
  IDBIndex_set_name me newName w =
  set_name_checked me (ix_name ix) newName (ix_objectStore ix) os w.
Proof.
  intros [Hix Hos (l & Hl & Htx) Hv Ha Hd Hp He].
  unfold IDBIndex_set_name. step_m. rewrite Hix. simpl. rewrite Hos. simpl.
  rewrite Hl.
  rewrite (assertVersionChange_pass w l tx Htx Hv).
  rewrite (assertActive_pass w l tx Htx Ha).
  rewrite (index_invalidStateIfDeleted_pass w me ix os l tx Hix Hos Hl Htx Hd Hp He).
  rewrite (store_guard_on_index w ix Hd Hp).
  reflexivity.
Qed.

(** C9: setting the name of an index to the name it has, in a state where
    the version-change, active and deleted-state guards pass, returns
    normally and leaves the whole world as it was: the index map and
    [indexNames] of the store, [__pendingName], the database and the queue
    of the transaction. *)
Theorem set_name_same_name_noop (w : World) me ix os tx :
  rename_guards_pass w me ix os tx ->
  IDBIndex_set_name me (ix_name ix) w = (inr tt, w).
Proof.
  intros Hg. rewrite (set_name_guarded w me ix os tx _ Hg).
  unfold set_name_checked. rewrite decide_True by reflexivity. reflexivity.
Qed.

(** C6, as amended: when the guards of the setter pass and the store maps
    [newName], a name other than the index's own, to a descriptor that is
    neither deleted nor pending deletion, the setter throws
    [ConstraintError] and the world, the name of the index included, is
    unchanged. *)
Theorem set_name_collision (w : World) me ix os tx newName l other :
  rename_guards_pass w me ix os tx ->
  newName <> ix_name ix ->
  os_indexes os !! newName = Some l ->
  w_indexes w !! l = Some other ->
  ix_deleted other = false -> ix_pendingDelete other = false ->
  IDBIndex_set_name me newName w = (inl (DOMException ConstraintError), w)
  /\ ix_name <$> w_indexes (snd (IDBIndex_set_name me newName w)) !! me
     = Some (ix_name ix).
Proof.
  intros Hg Hne Hl Hother Hd Hp.
  assert (Hthrow : IDBIndex_set_name me newName w
                   = (inl (DOMException ConstraintError), w)).
  { rewrite (set_name_guarded w me ix os tx _ Hg).
    unfold set_name_checked. rewrite decide_False by assumption.
    unfold live_index_named. rewrite Hl. step_m. rewrite Hother. simpl.
    rewrite Hd, Hp. reflexivity. }
  split; [exact Hthrow|].
  rewrite Hthrow. simpl. rewrite (rg_index _ _ _ _ _ Hg). reflexivity.
Qed.

(** What a successful rename has done by the time the setter returns: the
    descriptor and the open handle carry the new name, the store lists and
    maps it in place of the old one, the handle is reachable under it,
    [__pendingName] is the old name and the rebuild is the last closure on
    the queue.  The store handle of the transaction may be the store itself
    and the open handle may be the descriptor itself. *)
Lemma set_name_renames (w : World) me ix os tx l newName storeHandle sh h ho :
  rename_guards_pass w me ix os tx ->
  os_transaction os = Some l ->
  newName <> ix_name ix ->
  os_indexes os !! newName = None ->
  tx_storeHandles tx !! os_name os = Some storeHandle ->
  w_stores w !! storeHandle = Some sh ->
  os_indexHandles sh !! ix_name ix = Some h ->
  w_indexes w !! h = Some ho ->
  exists w' os',
    IDBIndex_set_name me newName w = (inr tt, w')
    /\ ix_name <$> w_indexes w' !! me = Some newName
    /\ ix_pendingName <$> w_indexes w' !! me = Some (Some (ix_name ix))
    /\ ix_name <$> w_indexes w' !! h = Some newName
    /\ w_stores w' !! ix_objectStore ix = Some os'
    /\ os_indexNames os' = splice_replace (ix_name ix) newName (os_indexNames os)
    /\ os_indexes os' = <[newName := me]> (delete (ix_name ix) (os_indexes os))
    /\ (w_stores w' !! storeHandle ≫= fun o => os_indexHandles o !! newName) = Some h
    /\ tx_queue <$> w_transactions w' !! l
       = Some (tx_queue tx ++
               [(NonRequest,
                 renameIndex (IDBObjectStore_currentName os')
                   (ix_name ix) newName (os_autoIncrement os)
                   (filter (fun n => n <> newName)
                      (splice_replace (ix_name ix) newName (os_indexNames os)))
                   (Some (ix_objectStore ix, storeHandle)))]).
Proof.
  intros Hg Hl Hne Hfree Hsh Hshobj Hh Hho.
  rewrite (set_name_guarded w me ix os tx _ Hg).
  destruct Hg as [Hix Hos (l' & Hl' & Htx) Hv Ha Hd Hp He].
  rewrite Hl in Hl'. injection Hl' as <-.
  unfold set_name_checked. rewrite decide_False by assumption.
  unfold live_index_named. rewrite Hfree.
  unfold IDBIndex__renameIndex, addToTransactionQueue. step_m.
  destruct (decide (storeHandle = ix_objectStore ix)) as [->|Hneq];
    destruct (decide (h = me)) as [->|Hhme];
    try (rewrite Hos in Hshobj; injection Hshobj as <-);
    repeat heap_step;
    eexists _, _; (split; [reflexivity|]);
    repeat heap_step;
    repeat split; reflexivity.
Qed.

(** Whatever it is run on, the queued body of [__renameIndex] leaves every
    index descriptor as it was, its [__pendingName] included. *)
Lemma run_renameIndex_keeps_indexes storeName oldName newName autoIncrement
    cols cb (w : World) :
  w_indexes (snd (run_renameIndex storeName oldName newName autoIncrement cols cb w))
  = w_indexes w.
Proof.
  unfold run_renameIndex, IDBIndex__updateIndexList.
  destruct (sql_rebuild _ _ _ _ _ _) as [[|] db]; [|reflexivity].
  destruct cb as [[store storeHandle]|]; [|reflexivity]. simpl.
  destruct (w_stores w !! store); [|reflexivity]. simpl.
  destruct (build_indexList _ _ _ _); reflexivity.
Qed.

(** Outside a version-change transaction, outside its active phase, or on
    an index that is deleted or pending deletion, the setter throws
    [InvalidStateError] and changes nothing. *)
Lemma set_name_invalid_state (w : World) me ix os l tx newName :
  w_indexes w !! me = Some ix ->
  w_stores w !! ix_objectStore ix = Some os ->
  os_transaction os = Some l -> w_transactions w !! l = Some tx ->
  tx_versionchange tx = false \/ tx_active tx = false
  \/ ix_deleted ix = true \/ ix_pendingDelete ix = true ->
  IDBIndex_set_name me newName w = (inl (DOMException InvalidStateError), w).
Proof.
  intros Hix Hos Hl Htx Hbad.
  unfold IDBIndex_set_name. step_m. rewrite Hix. simpl. rewrite Hos. simpl.
  rewrite Hl. unfold IDBTransaction__assertVersionChange. simpl. rewrite Htx.
  destruct (tx_versionchange tx) eqn:Hv; [|reflexivity]. simpl.
  unfold IDBTransaction__assertActive. simpl. rewrite Htx.
  destruct (tx_active tx) eqn:Ha; [|reflexivity]. simpl.
  destruct Hbad as [Hbad|[Hbad|Hbad]]; try discriminate.
  rewrite (index_invalidStateIfDeleted_deleted w me ix Hix Hbad). reflexivity.
Qed.

(** *** Fetching *)

Lemma fetch_guarded (w : World) me ix os tx range opType :
  fetch_guards_pass w me ix os tx ->
  is_nullish range = true ->
  IDBIndex__fetchIndexData me range opType true None w
  = (inl (DOMException DataError), w).
Proof.
  intros [Hix Hos (l & Hl & Htx) Ha Hd Hp He Hsd Hsp Hse] Hn.
  unfold IDBIndex__fetchIndexData. step_m.
  rewrite (index_invalidStateIfDeleted_pass w me ix os l tx Hix Hos Hl Htx Hd Hp He).
  rewrite Hix. simpl. rewrite Hos. simpl.
  rewrite (store_guard_on_store w os l tx Hl Htx Hsd Hsp Hse).
  rewrite Hsd. rewrite Hl.
  rewrite (assertActive_pass w l tx Htx Ha).
  rewrite Hn. reflexivity.
Qed.

(** C5, as amended: when the guards of [__fetchIndexData] pass (index and
    store neither deleted nor pending deletion, transaction active), a fetch
    with [nullDisallowed], as [get] and [getKey] issue it, whose key or
    range is [null] or [undefined] throws [DataError]; the world is as
    before, so nothing was put on the queue of the transaction. *)
Theorem fetch_missing_key_DataError (w : World) me ix os tx range opType :
  fetch_guards_pass w me ix os tx ->
  is_nullish range = true ->
  IDBIndex__fetchIndexData me range opType true None w
  = (inl (DOMException DataError), w).
Proof.
  intros Hg Hn. exact (fetch_guarded w me ix os tx range opType Hg Hn).
Qed.

(** C10, as amended: [get] and [getKey] called without any argument throw
    [TypeError] in every state, whatever the index and whatever the guards
    would say; called with an explicit [undefined] or [null] in a state
    where the guards of [__fetchIndexData] pass, they throw [DataError].
    Neither changes the world. *)
Theorem get_missing_argument_errors :
  (forall (w : World) me,
     IDBIndex_get me [] w = (inl TypeError, w)
     /\ IDBIndex_getKey me [] w = (inl TypeError, w))
  /\ (forall (w : World) me ix os tx query rest,
        fetch_guards_pass w me ix os tx ->
        is_nullish query = true ->
        IDBIndex_get me (query :: rest) w = (inl (DOMException DataError), w)
        /\ IDBIndex_getKey me (query :: rest) w
           = (inl (DOMException DataError), w)).
Proof.
  split.
  - intros w me. split; reflexivity.
  - intros w me ix os tx query rest Hg Hn.
    unfold IDBIndex_get, IDBIndex_getKey.
    rewrite !(fetch_guarded w me ix os tx query _ Hg Hn). split; reflexivity.
Qed.

Lemma with_limit_cond count unb (q : SelectQuery) :
  sel_store (with_limit count unb q) = sel_store q
  /\ sel_index (with_limit count unb q) = sel_index q
  /\ sel_cond (with_limit count unb q) = sel_cond q.
Proof.
  unfold with_limit.
  destruct (if unb then Some 1%N else count) as [n|]; [|done].
  destruct (N.eqb n 0); done.
Qed.

(** A compiled query that selects no row of the table returns no row. *)
Lemma sql_select_nothing (db : Database) (q : SelectQuery) t count unb :
  db_tables db !! store_table (sel_store q) = Some t ->
  sel_index q ∈ tbl_columns t ->
  sel_cond q <> CondAnyLike [] ->
  Forall (fun r => row_selected q r = false) (tbl_rows t) ->
  sql_select (with_limit count unb q) db = Some [].
Proof.
  intros Ht Hcol Hcond Hnone.
  destruct (with_limit_cond count unb q) as (Hs & Hi & Hc).
  unfold sql_select. rewrite Hs, Ht. simpl. rewrite Hi, Hc.
  rewrite decide_True by (split; assumption).
  assert (Hf : filter (fun r => row_selected (with_limit count unb q) r = true)
                 (tbl_rows t) = []).
  { induction Hnone as [|r rows Hr _ IH]; [reflexivity|].
    rewrite filter_cons. rewrite decide_False; [exact IH|].
    unfold row_selected in *. rewrite Hi, Hc. rewrite Hr. discriminate. }
  rewrite Hf.
  assert (Hsort : merge_sort (row_index_leb (sel_index q)) [] = []) by reflexivity.
  destruct (sel_orderBy _), (sel_limit _); rewrite ?Hsort, ?take_nil; reflexivity.
Qed.

(** C4: a query whose compiled predicate selects no row of the table
    resolves to [undefined] for [get] and [getKey] (which run with
    [unboundedDisallowed]), to the empty sequence for [getAll] and
    [getAllKeys], and to [0] for [count]. *)
Theorem fetch_no_match (w : World) index ix t count hasKey range multiChecks
    (sql : SelectQuery) :
  w_indexes w !! index = Some ix ->
  (ix_multiEntry ix = true -> exists e, Key_encode range true = inr e) ->
  db_tables (w_db w) !! store_table (sel_store sql) = Some t ->
  sel_index sql ∈ tbl_columns t ->
  sel_cond sql <> CondAnyLike [] ->
  Forall (fun r => row_selected sql r = false) (tbl_rows t) ->
  executeFetchIndexData count true index hasKey range OpValue multiChecks sql w
    = TaskSuccess ResUndefined
  /\ executeFetchIndexData count true index hasKey range OpKey multiChecks sql w
    = TaskSuccess ResUndefined
  /\ executeFetchIndexData count false index hasKey range OpValue multiChecks sql w
    = TaskSuccess (ResRecords [])
  /\ executeFetchIndexData count false index hasKey range OpKey multiChecks sql w
    = TaskSuccess (ResRecords [])
  /\ executeFetchIndexData count false index hasKey range OpCount multiChecks sql w
    = TaskSuccess (ResCount 0).
Proof.
  intros Hix Henc Ht Hcol Hcond Hnone.
  unfold executeFetchIndexData.
  rewrite !(sql_select_nothing (w_db w) sql t count _ Ht Hcol Hcond Hnone), Hix.
  unfold fetch_callback.
  destruct (ix_multiEntry ix) eqn:Hm.
  - destruct (Henc eq_refl) as [e He]. rewrite He. simpl. repeat split.
  - simpl. repeat split.
Qed.

(** In a count without filter every row adds [row_count]. *)
Lemma multiEntry_loop_count range indexName encodedKey (rows : list Row) c recs :
  exists recs',
    multiEntry_loop false false false range OpCount indexName encodedKey rows c recs
    = inr ((c + sum_list (row_count indexName <$> rows))%nat, recs').
Proof.
  revert c recs. induction rows as [|r rows IH]; intros c recs.
  - exists recs. simpl. rewrite Nat.add_0_r. reflexivity.
  - simpl. unfold row_count at 1.
    destruct (Key_decode (row_cols r !! indexName)) as [k|]; simpl.
    + destruct (IH (c + rowKey_count k)%nat (recs ++ [FUndefined])) as [recs' ->].
      exists recs'. rewrite Nat.add_assoc. reflexivity.
    + destruct (IH c recs) as [recs' ->]. exists recs'. reflexivity.
Qed.

Lemma count_without_filter (ix : IDBIndexObj) range encodedKey (rows : list Row) :
  ix_multiEntry ix = true ->
  Key_encode range true = inr encodedKey ->
  fetch_callback false ix false range OpCount false rows
  = TaskSuccess (ResCount (sum_list (row_count (ix_name ix) <$> rows))).
Proof.
  intros Hm He. unfold fetch_callback. rewrite Hm, He.
  destruct (multiEntry_loop_count range (ix_name ix) encodedKey rows 0 [])
    as [recs' ->].
  reflexivity.
Qed.

(** *** Backfill *)

Lemma sql_update_col_has_column (db : Database) s n v k :
  has_column db s n ->
  exists db', sql_update_col s n v k db = Some db'
    /\ has_column db' s n
    /\ db_sys db' = db_sys db /\ db_sqlIndexes db' = db_sqlIndexes db.
Proof.
  intros (t & Ht & Hcol). unfold sql_update_col. rewrite Ht. simpl.
  rewrite decide_True by assumption.
  eexists. split; [reflexivity|]. split; [|split; reflexivity].
  eexists. split; [apply lookup_insert_eq|]. exact Hcol.
Qed.

Lemma addIndexEntry_keeps_sys index s n (rows : list Row) seen (db : Database) :
  db_sys (snd (addIndexEntry index s n rows seen db)) = db_sys db.
Proof.
  revert seen db. induction rows as [|r rows IH]; intros seen db; simpl; [reflexivity|].
  destruct (row_indexKey index r) as [e|]; [|apply IH].
  destruct (ix_unique index && bool_decide (e ∈ seen)); [reflexivity|].
  unfold sql_update_col.
  destruct (db_tables db !! store_table s) as [t|]; simpl; [|reflexivity].
  destruct (decide (n ∈ tbl_columns t)); [|reflexivity].
  rewrite IH. reflexivity.
Qed.



Lemma backfill_done index s n (rows : list Row) seen (db : Database) :
  has_column db s n ->
  (ix_unique index = true -> NoDup (omap (row_indexKey index) rows ++ seen)) ->
  fst (addIndexEntry index s n rows seen db) = BackfillDone.
Proof.
  revert seen db. induction rows as [|r rows IH]; intros seen db Hcol Hnd.
  - reflexivity.
  - simpl in *. destruct (row_indexKey index r) as [k|] eqn:Hk.
    + destruct (ix_unique index) eqn:Hu; simpl.
      * specialize (Hnd eq_refl). simpl in Hnd. apply NoDup_cons in Hnd as [Hnotin Hnd].
        rewrite bool_decide_eq_false_2
          by (intros Hin; apply Hnotin, elem_of_app; right; exact Hin).
        destruct (sql_update_col_has_column db s n k (row_key r) Hcol)
          as (db' & -> & Hcol' & _).
        apply IH; [exact Hcol'|]. intros _.
        apply NoDup_app. apply NoDup_app in Hnd as (Hk1 & Hk2 & Hk3).
        split; [exact Hk1|]. split.
        -- intros x Hx Hx'. apply elem_of_cons in Hx' as [->|Hx'].
           ++ apply Hnotin, elem_of_app. left. exact Hx.
           ++ exact (Hk2 x Hx Hx').
        -- apply NoDup_cons. split; [|exact Hk3].
           intros Hin. apply Hnotin, elem_of_app. right. exact Hin.
      * destruct (sql_update_col_has_column db s n k (row_key r) Hcol)
          as (db' & -> & Hcol' & _).
        apply IH; [exact Hcol'|]. intros Hf. discriminate.
    + apply IH; assumption.
Qed.

(** The closure reaches the backfill with the column in place and the index
    list persisted, and ends as the backfill ends. *)
Lemma run_createIndex_backfill (w : World) store index indexHandle indexName
    storeName idx os ix t indexList :
  creation_ready w store index indexName storeName idx os ix t indexList ->
  exists (db1 : Database) cols,
    db_tables db1 !! store_table storeName
      = Some (mkTable (tbl_autoIncrement t) cols (tbl_rows t))
    /\ indexName ∈ cols
    /\ db_sys db1
       = alter (fun _ => indexList) (IDBObjectStore_currentName os) (db_sys (w_db w))
    /\ run_createIndex store index indexHandle indexName storeName idx w
       = match addIndexEntry ix storeName indexName (tbl_rows t) [] db1 with
         | (BackfillFailed e, db) => (TaskFailure e, w_set_db db w)
         | (BackfillDone, db) =>
             (TaskSuccess (ResStore store),
              finish_createIndex index indexHandle (w_set_db db w))
         end.
Proof.
  intros [Hos Hix Hname Hil Ht Hcol].
  assert (Happly : forall (db0 : Database) cols,
    db_tables db0 !! store_table storeName
      = Some (mkTable (tbl_autoIncrement t) cols (tbl_rows t)) ->
    let db1 := sql_update_indexList (IDBObjectStore_currentName os) indexList db0 in
    applyIndex store index indexHandle indexName storeName (w_set_db db0 w)
    = match addIndexEntry ix storeName indexName (tbl_rows t) [] db1 with
      | (BackfillFailed e, db) => (TaskFailure e, w_set_db db w)
      | (BackfillDone, db) =>
          (TaskSuccess (ResStore store),
           finish_createIndex index indexHandle (w_set_db db w))
      end).
  { intros db0 cols Ht0 db1. unfold applyIndex, IDBIndex__updateIndexList. simpl.
    rewrite Hos. simpl. rewrite Hil. simpl.
    unfold sql_select_all. simpl. rewrite Ht0. simpl. rewrite Hix.
    fold db1. destruct (addIndexEntry ix storeName indexName (tbl_rows t) [] db1)
      as [[|e] db]; reflexivity. }
  assert (Hlast : indexName ∈ tbl_columns t ++ [indexName])
    by (apply elem_of_app; right; apply list_elem_of_singleton; reflexivity).
  unfold run_createIndex. rewrite Hix, Hcol.
  case_bool_decide as Hin.
  - assert (Ht0 : db_tables (w_db w) !! store_table storeName
      = Some (mkTable (tbl_autoIncrement t) (tbl_columns t) (tbl_rows t)))
      by (rewrite Ht; destruct t; reflexivity).
    exists (sql_update_indexList (IDBObjectStore_currentName os) indexList (w_db w)),
      (tbl_columns t).
    split; [exact Ht0|]. split; [exact Hin|]. split; [reflexivity|].
    rewrite <- (Happly (w_db w) _ Ht0). destruct w; reflexivity.
  - unfold sql_add_column. rewrite Ht. simpl. rewrite Hname.
    rewrite decide_False by assumption.
    remember (db_set_tables _ (w_db w)) as db0 eqn:Hdb0.
    assert (Ht0 : db_tables db0 !! store_table storeName
      = Some (mkTable (tbl_autoIncrement t) (tbl_columns t ++ [indexName])
                (tbl_rows t)))
      by (rewrite Hdb0; simpl; apply lookup_insert_eq).
    assert (Hsys0 : db_sys db0 = db_sys (w_db w)) by (rewrite Hdb0; reflexivity).
    clear Hdb0.
    unfold addIndexSQL. destruct CFG_useSQLiteIndexes.
    + unfold sql_create_index_if_not_exists. simpl. rewrite Ht0. simpl.
      rewrite decide_True by exact Hlast.
      remember (db_set_sqlIndexes _ db0) as db0' eqn:Hdb0'.
      assert (Ht0' : db_tables db0' !! store_table storeName
        = Some (mkTable (tbl_autoIncrement t) (tbl_columns t ++ [indexName])
                  (tbl_rows t)))
        by (rewrite Hdb0'; exact Ht0).
      assert (Hsys0' : db_sys db0' = db_sys (w_db w))
        by (rewrite Hdb0'; exact Hsys0).
      clear Hdb0'.
      exists (sql_update_indexList (IDBObjectStore_currentName os) indexList db0'),
        (tbl_columns t ++ [indexName]).
      split; [exact Ht0'|]. split; [exact Hlast|].
      split; [simpl; rewrite Hsys0'; reflexivity|].
      exact (Happly db0' _ Ht0').
    + exists (sql_update_indexList (IDBObjectStore_currentName os) indexList db0),
        (tbl_columns t ++ [indexName]).
      split; [exact Ht0|]. split; [exact Hlast|].
      split; [simpl; rewrite Hsys0; reflexivity|].
      exact (Happly db0 _ Ht0).
Qed.

Lemma build_indexList_lookup indexes (os : IDBObjectStoreObj) names acc il k :
  build_indexList indexes os names acc = Some il ->
  is_Some (acc !! k)
  \/ (exists n l ix, n ∈ names /\ os_indexes os !! n = Some l
                     /\ indexes !! l = Some ix /\ ix_name ix = k) ->
  is_Some (il !! k).
Proof.
  revert acc. induction names as [|n names IH]; intros acc Hb Hk; simpl in Hb.
  - injection Hb as <-. destruct Hk as [Hk|(n & l & ix & Hn & _)]; [exact Hk|].
    inversion Hn.
  - destruct (os_indexes os !! n) as [l|] eqn:Hl; [|discriminate]. simpl in Hb.
    destruct (indexes !! l) as [idx|] eqn:Hidx; [|discriminate]. simpl in Hb.
    apply (IH _ Hb).
    destruct Hk as [Hk|(n' & l' & ix' & Hn' & Hl' & Hix' & Hname)].
    + left. destruct (decide (ix_name idx = k)) as [->|Hne].
      * rewrite lookup_insert_eq. eexists. reflexivity.
      * rewrite lookup_insert_ne by assumption. exact Hk.
    + apply elem_of_cons in Hn' as [->|Hn'].
      * left. rewrite Hl in Hl'. injection Hl' as <-.
        rewrite Hidx in Hix'. injection Hix' as <-.
        rewrite Hname, lookup_insert_eq. eexists. reflexivity.
      * right. exists n', l', ix'. repeat split; assumption.
Qed.

Lemma sql_update_col_rows (db : Database) s n v k t :
  db_tables db !! store_table s = Some t -> n ∈ tbl_columns t ->
  exists db',
    sql_update_col s n v k db = Some db'
    /\ db_tables db' !! store_table s
       = Some (mkTable (tbl_autoIncrement t) (tbl_columns t)
                 ((fun r => if decide (row_key r = k) then row_set_col n v r else r)
                  <$> tbl_rows t)).
Proof.
  intros Ht Hcol. unfold sql_update_col. rewrite Ht. simpl.
  rewrite decide_True by assumption.
  eexists. split; [reflexivity|]. apply lookup_insert_eq.
Qed.




End EngineFacts.

(** ** The engine on the reference collaborators *)

Section ReferenceFacts.
Import Reference Examples.

#[local] Abbreviation Row := (@Row Encoded Record_).
#[local] Abbreviation World := (@World Encoded Record_).

(** C2: on a multi-entry index, [count] without a filter counts, for a
    stored record whose extracted key is an array [l], as many entries as
    [l] has distinct elements, not as many as [l] has elements.  The column
    of the record holds [Key.encode (l, true)], as the backfill writes it
    (lines 184 and 197-200); the count of the other rows is [n]. *)
Theorem count_adds_distinct_elements (ix : IDBIndexObj) (rows1 rows2 : list Row)
    (row : Row) (l : list Key) e :
  ix_multiEntry ix = true ->
  encode (QKey (KArray l)) true = inr e ->
  row_cols row !! ix_name ix = Some e ->
  exists n,
    fetch_callback false ix false QUndefined OpCount false (rows1 ++ rows2)
    = TaskSuccess (ResCount n)
    /\ fetch_callback false ix false QUndefined OpCount false (rows1 ++ row :: rows2)
       = TaskSuccess (ResCount (n + length (remove_dups l))).
Proof.
  intros Hm He Hcol.
  exists (sum_list (row_count (ix_name ix) <$> (rows1 ++ rows2))).
  assert (Hq : Key_encode QUndefined true = inr EncNull) by reflexivity.
  rewrite !(count_without_filter ix QUndefined EncNull _ Hm Hq).
  split; [reflexivity|]. do 2 f_equal.
  rewrite !fmap_app, fmap_cons, !sum_list_with_app. simpl.
  assert (Hrow : row_count (ix_name ix) row = length (remove_dups l)).
  { unfold row_count. rewrite Hcol. simpl in He. injection He as <-. reflexivity. }
  rewrite Hrow. lia.
Qed.

Lemma count_adds_distinct_elements_witness :
  exists n,
    fetch_callback false byTag false QUndefined OpCount false [ann_tagged]
    = TaskSuccess (ResCount n)
    /\ fetch_callback false byTag false QUndefined OpCount false
         [ann_tagged; ann2_tagged]
       = TaskSuccess (ResCount (n + 3)).
Proof.
  exact (count_adds_distinct_elements byTag [ann_tagged] [] ann2_tagged
           [num 1; num 2; num 2; num 3] (Enc (KArray [num 1; num 2; num 3]))
           eq_refl eq_refl eq_refl).
Defined.

(** Creating the multi-entry index over records tagged [x, y], untagged,
    and tagged [1, 2, 2, 3], then counting without filter: 2 + 3. *)
Example count_after_backfill :
  multi_byTag_counted
  = Some [TaskSuccess (ResStore 1%positive); TaskSuccess (ResCount 5)].
Proof. vm_compute. reflexivity. Qed.

(** Deleting an index and creating one of the same name and options again
    finds the column of the tombstone ([columnExists]), adds none, and
    backfills it with the same entries. *)
Example recreate_reuses_column :
  fst recreated
  = [TaskSuccess (ResStore 1%positive); TaskSuccess (ResStore 1%positive)]
  /\ db_tables (w_db (snd recreated)) !! store_table "people"
     = Some (people_table ["a"; "b"] [ann_indexed; bob_indexed])
  /\ os_indexNames <$> w_stores (snd recreated) !! 1%positive = Some ["b"; "a"].
Proof. vm_compute. repeat split; reflexivity. Qed.

(** *** Witnesses of the guarded properties *)

Lemma renaming_guards :
  rename_guards_pass (renaming false) 10%positive index_a (people_ab false)
    (transaction true true false).
Proof.
  constructor; try reflexivity.
  exists 1%positive. split; reflexivity.
Defined.

Lemma renaming_fetch_guards :
  fetch_guards_pass (renaming false) 10%positive index_a (people_ab false)
    (transaction true true false).
Proof.
  constructor; try reflexivity.
  exists 1%positive. split; reflexivity.
Defined.

Lemma set_name_same_name_noop_witness :
  IDBIndex_set_name 10%positive "a" (renaming false) = (inr tt, renaming false).
Proof.
  exact (set_name_same_name_noop (renaming false) 10%positive index_a
           (people_ab false) (transaction true true false) renaming_guards).
Defined.

Lemma set_name_collision_witness :
  IDBIndex_set_name 10%positive "b" (renaming false)
  = (inl (DOMException ConstraintError), renaming false)
  /\ ix_name <$> w_indexes (snd (IDBIndex_set_name 10%positive "b" (renaming false)))
                   !! 10%positive
     = Some "a".
Proof.
  apply (set_name_collision (renaming false) 10%positive index_a (people_ab false)
           (transaction true true false) "b" 20%positive index_b renaming_guards).
  - discriminate.
  - reflexivity.
  - reflexivity.
  - reflexivity.
  - reflexivity.
Defined.

Lemma fetch_missing_key_DataError_witness :
  IDBIndex__fetchIndexData 10%positive QNull OpKey true None (renaming false)
  = (inl (DOMException DataError), renaming false).
Proof.
  exact (fetch_missing_key_DataError (renaming false) 10%positive index_a
           (people_ab false) (transaction true true false) QNull OpKey
           renaming_fetch_guards eq_refl).
Defined.

Lemma get_missing_argument_errors_witness :
  (IDBIndex_get 10%positive [] deleted_a = (inl TypeError, deleted_a)
   /\ IDBIndex_getKey 10%positive [] deleted_a = (inl TypeError, deleted_a))
  /\ (IDBIndex_get 10%positive [] (renaming false) = (inl TypeError, renaming false)
      /\ IDBIndex_getKey 10%positive [] (renaming false)
         = (inl TypeError, renaming false))
  /\ (IDBIndex_get 10%positive [QUndefined] (renaming false)
      = (inl (DOMException DataError), renaming false)
      /\ IDBIndex_getKey 10%positive [QUndefined] (renaming false)
         = (inl (DOMException DataError), renaming false)).
Proof.
  split; [exact (proj1 get_missing_argument_errors deleted_a 10%positive)|].
  split; [exact (proj1 get_missing_argument_errors (renaming false) 10%positive)|].
  exact (proj2 get_missing_argument_errors (renaming false) 10%positive index_a
           (people_ab false) (transaction true true false) QUndefined []
           renaming_fetch_guards eq_refl).
Defined.

Lemma fetch_no_match_witness :
  executeFetchIndexData None true 10%positive true (QKey (KString "Zed")) OpValue
    false select_zed (renaming false) = TaskSuccess ResUndefined
  /\ executeFetchIndexData None false 10%positive true (QKey (KString "Zed")) OpKey
       false select_zed (renaming false) = TaskSuccess (ResRecords [])
  /\ executeFetchIndexData None false 10%positive true (QKey (KString "Zed")) OpCount
       false select_zed (renaming false) = TaskSuccess (ResCount 0).
Proof.
  destruct (fetch_no_match (renaming false) 10%positive index_a
              (people_table ["a"; "b"] [ann_indexed; bob_indexed]) None true
              (QKey (KString "Zed")) false select_zed) as (H1 & _ & _ & H4 & H5).
  - reflexivity.
  - intros Hm. discriminate Hm.
  - reflexivity.
  - constructor.
  - discriminate.
  - repeat constructor.
  - exact (conj H1 (conj H4 H5)).
Defined.

(** The world in which the closure queued by [__createIndex] runs. *)
Lemma unique_byName_ready :
  creation_ready (snd unique_byName_called) 1%positive 10%positive
    "byName" "people" None
    (people ["byName"] {[ "byName" := 10%positive ]} {[ "byName" := 11%positive ]}
       false)
    (ix_set_pendingCreate true (index "byName" "name" false true false))
    (people_table [] [ann; bob; ann2])
    {[ "byName" := props "byName" "name" false true ]}.
Proof. constructor; reflexivity. Defined.


Lemma multi_byTag_ready :
  creation_ready (snd (IDBIndex__createIndex 1%positive 10%positive multi_byTag))
    1%positive 10%positive "byTag" "people" None
    (people ["byTag"] {[ "byTag" := 10%positive ]} {[ "byTag" := 11%positive ]} false)
    (ix_set_pendingCreate true byTag)
    (people_table [] [ann; bob; ann2])
    {[ "byTag" := props "byTag" "tags" true false ]}.
Proof. constructor; reflexivity. Defined.


(** *** Before the rollback *)

(** What the engine itself leaves when the creation of a unique index on
    [name] over two records named Ann has called [failure]: the index is
    still listed and mapped on the store, its descriptor is pending
    creation, the index list persisted before the backfill names it, and
    the records before the duplicate have their column populated.  Nothing
    here undoes that; it is the transaction that does. *)
Example unique_byName_before_rollback :
  fst <$> unique_byName_ran = Some (TaskFailure (DOMException ConstraintError))
  /\ os_indexNames <$> w_stores unique_byName_after !! 1%positive = Some ["byName"]
  /\ (w_stores unique_byName_after !! 1%positive
        ≫= fun o => os_indexes o !! "byName") = Some 10%positive
  /\ ix_pendingCreate <$> w_indexes unique_byName_after !! 10%positive = Some true
  /\ (db_sys (w_db unique_byName_after) !! "people" ≫= fun l => l !! "byName")
     = Some (props "byName" "name" false true)
  /\ tbl_rows <$> db_tables (w_db unique_byName_after) !! store_table "people"
     = Some [row_set_col "byName" (Enc (KString "Ann")) ann;
             row_set_col "byName" (Enc (KString "Bob")) bob;
             ann2].
Proof. vm_compute. repeat split; reflexivity. Qed.

(** *** Where the code departs from the specification *)

(** C5, as stated, fails: [__fetchIndexData] with [nullDisallowed] and a
    [null] range on an index that has been deleted throws
    [InvalidStateError] (line 359), not [DataError]. *)
Lemma fetch_missing_key_counterexample :
  IDBIndex__fetchIndexData 10%positive QNull OpValue true None deleted_a
  = (inl (DOMException InvalidStateError), deleted_a)
  /\ fst (IDBIndex__fetchIndexData 10%positive QNull OpValue true None deleted_a)
     <> inl (DOMException DataError).
Proof. split; [vm_compute; reflexivity|vm_compute; discriminate]. Qed.

(** C6, as stated, fails: renaming a deleted index to the name of a live
    sibling throws [InvalidStateError] (line 55), not [ConstraintError]. *)
Lemma set_name_collision_counterexample :
  ((w_stores deleted_a !! 1%positive ≫= fun o => os_indexes o !! "b")
   = Some 20%positive
   /\ w_indexes deleted_a !! 20%positive = Some index_b
   /\ ix_deleted index_b = false /\ ix_pendingDelete index_b = false)
  /\ IDBIndex_set_name 10%positive "b" deleted_a
     = (inl (DOMException InvalidStateError), deleted_a)
  /\ fst (IDBIndex_set_name 10%positive "b" deleted_a)
     <> inl (DOMException ConstraintError).
Proof.
  split; [repeat split; vm_compute; reflexivity|].
  split; [vm_compute; reflexivity|vm_compute; discriminate].
Qed.

(** C10, as stated, fails: on an index that has been deleted, [get] and
    [getKey] called without any argument do throw [TypeError], but called
    with an explicit [undefined] or [null] they throw [InvalidStateError],
    not the [DataError] of the missing-key path. *)
Lemma get_missing_argument_counterexample :
  (IDBIndex_get 10%positive [] deleted_a = (inl TypeError, deleted_a)
   /\ IDBIndex_getKey 10%positive [] deleted_a = (inl TypeError, deleted_a))
  /\ IDBIndex_get 10%positive [QUndefined] deleted_a
     = (inl (DOMException InvalidStateError), deleted_a)
  /\ IDBIndex_getKey 10%positive [QNull] deleted_a
     = (inl (DOMException InvalidStateError), deleted_a)
  /\ fst (IDBIndex_get 10%positive [QUndefined] deleted_a)
     <> inl (DOMException DataError)
  /\ fst (IDBIndex_getKey 10%positive [QNull] deleted_a)
     <> inl (DOMException DataError).
Proof.
  split; [split; reflexivity|].
  split; [vm_compute; reflexivity|].
  split; [vm_compute; reflexivity|].
  split; vm_compute; discriminate.
Qed.

(** C3, at a failing input: renaming [a] to [c] in an active version-change
    transaction.  When the setter returns, the name of the descriptor and of
    its open handle, the index map and the name list of the store are
    updated and [__pendingName] is [a].  When the queued rebuild and the
    update of the index list have completed, the column is renamed and the
    list persisted, but [__pendingName] of the descriptor is still [a]:
    line 90 deletes the property of the store handle. *)
Theorem rename_leaves_pendingName :
  fst (renamed false) = inr tt
  /\ (ix_name <$> w_indexes (snd (renamed false)) !! 10%positive = Some "c"
      /\ ix_name <$> w_indexes (snd (renamed false)) !! 11%positive = Some "c"
      /\ os_indexNames <$> w_stores (snd (renamed false)) !! 1%positive
         = Some ["c"; "b"]
      /\ os_indexes <$> w_stores (snd (renamed false)) !! 1%positive
         = Some {[ "c" := 10%positive; "b" := 20%positive ]}
      /\ ix_pendingName <$> w_indexes (snd (renamed false)) !! 10%positive
         = Some (Some "a"))
  /\ fst <$> renamed_ran false = Some (TaskSuccess (ResStore 1%positive))
  /\ (tbl_columns <$> db_tables (w_db (renamed_after false)) !! store_table "people"
      = Some ["b"; "c"]
      /\ dom <$> db_sys (w_db (renamed_after false)) !! "people"
         = Some ({[ "b"; "c" ]} : gset string))
  /\ ix_pendingName <$> w_indexes (renamed_after false) !! 10%positive
     = Some (Some "a")
  /\ ix_currentName <$> w_indexes (renamed_after false) !! 10%positive = Some "a".
Proof. vm_compute. repeat split; reflexivity. Qed.

(** C7, at a failing input: the store is deleted, the index is not, the
    transaction is an active version-change transaction.  The setter does
    not throw [InvalidStateError]: line 56 hands the index, not its store,
    to the guard of the store.  It returns, renames the descriptor and
    queues the rebuild. *)
Theorem rename_on_deleted_store :
  os_deleted <$> w_stores (renaming true) !! 1%positive = Some true
  /\ fst (renamed true) = inr tt
  /\ ix_name <$> w_indexes (snd (renamed true)) !! 10%positive = Some "c"
  /\ os_indexNames <$> w_stores (snd (renamed true)) !! 1%positive = Some ["c"; "b"]
  /\ queued (snd (renamed true))
     = [(NonRequest,
         renameIndex "people" "a" "c" false ["b"] (Some (1%positive, 1%positive)))].
Proof. vm_compute. repeat split; reflexivity. Qed.

(** The sibling path: [__fetchIndexData] hands the store to the guard (line
    360) and rejects the same state. *)
Example fetch_on_deleted_store :
  IDBIndex_get 10%positive [QKey (KString "Ann")] (renaming true)
  = (inl (DOMException InvalidStateError), renaming true).
Proof. vm_compute. reflexivity. Qed.

End ReferenceFacts.

(** ** Further properties of the engine *)

Section EngineLaws.

Context {EncodedKey Stored Value : Type} `{EqDecision EncodedKey}.
Context {C : @Collaborators EncodedKey Stored Value}.

#[local] Abbreviation World := (@World EncodedKey Stored).
#[local] Abbreviation Row := (@Row EncodedKey Stored).
#[local] Abbreviation Database := (@Database EncodedKey Stored).
#[local] Abbreviation Table := (@Table EncodedKey Stored).
#[local] Abbreviation SelectQuery := (@SelectQuery EncodedKey).
#[local] Abbreviation IDBTransactionObj := (@IDBTransactionObj EncodedKey).
#[local] Abbreviation Task := (@Task EncodedKey).

Ltac unfold_m :=
  unfold bind, get_index, get_store, get_transaction, update_index,
    update_store, update_transaction, modify, deref, ret, throw, lift;
  simpl.

Ltac heap_read :=
  first
    [ rewrite lookup_alter_eq
    | rewrite lookup_alter_ne by congruence
    | rewrite lookup_insert_eq
    | rewrite lookup_insert_ne by congruence
    | match goal with
      | H : _ !! _ = Some _ |- _ => rewrite H
      | H : _ !! _ = None |- _ => rewrite H
      | H : os_transaction _ = Some _ |- _ => rewrite H
      end
    | progress simpl ].

(** *** The guards only read *)

Lemma assertVersionChange_reads tx (w : World) :
  snd (IDBTransaction__assertVersionChange tx w) = w.
Proof.
  unfold IDBTransaction__assertVersionChange.
  destruct (tx ≫= _) as [t|]; [destruct (tx_versionchange t)|]; reflexivity.
Qed.

Lemma assertActive_reads tx (w : World) :
  snd (IDBTransaction__assertActive tx w) = w.
Proof.
  unfold IDBTransaction__assertActive.
  destruct (tx ≫= _) as [t|]; [destruct (tx_active t)|]; reflexivity.
Qed.

Lemma transaction_errored_reads tx (w : World) :
  snd (transaction_errored tx w) = w.
Proof.
  unfold transaction_errored. destruct tx as [l|]; [|reflexivity].
  unfold_m. destruct (w_transactions w !! l); reflexivity.
Qed.

Lemma store_guard_reads {A} `{Lifecycle A} (o : A) (w : World) :
  snd (IDBObjectStore__invalidStateIfDeleted o w) = w.
Proof.
  unfold IDBObjectStore__invalidStateIfDeleted.
  destruct (js_deleted o || js_pendingDelete o); [reflexivity|].
  destruct (js_pendingCreate o); [|reflexivity].
  unfold bind. pose proof (transaction_errored_reads (js_transaction o) w) as Hr.
  destruct (transaction_errored (js_transaction o) w) as [[e|[|]] w1];
    simpl in Hr; subst w1; reflexivity.
Qed.

Lemma index_guard_reads index (w : World) :
  snd (IDBIndex__invalidStateIfDeleted index w) = w.
Proof.
  unfold IDBIndex__invalidStateIfDeleted. unfold_m.
  destruct (w_indexes w !! index) as [ix|]; [|reflexivity]. simpl.
  destruct (ix_deleted ix || ix_pendingDelete ix); [reflexivity|].
  destruct (ix_pendingCreate ix); [|reflexivity].
  destruct (w_stores w !! ix_objectStore ix) as [os|]; [|reflexivity]. simpl.
  pose proof (transaction_errored_reads (os_transaction os) w) as Hr.
  destruct (transaction_errored (os_transaction os) w) as [[e|[|]] w1];
    simpl in Hr; subst w1; reflexivity.
Qed.

Lemma buildFetchIndexDataSQL_reads nullDisallowed index range opType multiChecks
    (w : World) :
  snd (buildFetchIndexDataSQL nullDisallowed index range opType multiChecks w) = w.
Proof.
  unfold buildFetchIndexDataSQL. unfold_m.
  destruct (w_indexes w !! index) as [ix|]; [|reflexivity]. simpl.
  destruct (w_stores w !! ix_objectStore ix) as [os|]; [|reflexivity]. simpl.
  destruct (nullDisallowed || negb (is_nullish range)); [|reflexivity].
  destruct multiChecks.
  - destruct range as [| |[| | | |innerKeys]|]; try reflexivity.
    destruct (encode_all innerKeys (ix_multiEntry ix)); reflexivity.
  - destruct (ix_multiEntry ix).
    + destruct (Key_encode range true); reflexivity.
    + destruct (convertValueToKeyRange range nullDisallowed); reflexivity.
Qed.

(** *** Fetch requests *)

(** X1: [__fetchIndexData] has no partial effect.  When it throws, the
    world is as before; when it returns, the descriptors, the stores and the
    database are as before and exactly one request closure has been appended
    to the queue of one transaction. *)
Theorem fetchIndexData_only_enqueues me range opType nullDisallowed count (w : World) :
  match IDBIndex__fetchIndexData me range opType nullDisallowed count w with
  | (inl _, w') => w' = w
  | (inr _, w') =>
      w_indexes w' = w_indexes w /\ w_stores w' = w_stores w /\ w_db w' = w_db w
      /\ exists l tx t,
           w_transactions w !! l = Some tx
           /\ w_transactions w'
              = <[l := tx_set_queue (tx_queue tx ++ [(Request, t)]) tx]>
                  (w_transactions w)
  end.
Proof.
  unfold IDBIndex__fetchIndexData. unfold bind at 1.
  assert (Hcount : forall k : option N -> M unit,
    (forall n, match k n w with
               | (inl _, w') => w' = w
               | (inr _, w') =>
                   w_indexes w' = w_indexes w /\ w_stores w' = w_stores w
                   /\ w_db w' = w_db w
                   /\ exists l tx t,
                        w_transactions w !! l = Some tx
                        /\ w_transactions w'
                           = <[l := tx_set_queue (tx_queue tx ++ [(Request, t)]) tx]>
                               (w_transactions w)
               end) ->
    match (let (s, w') := match count with
                          | Some c => bind (lift (util_enforceRange c))
                                        (fun n => ret (Some n))
                          | None => ret None
                          end w in
           match s with
           | inr a => k a w'
           | inl e => (inl e, w')
           end) with
    | (inl _, w') => w' = w
    | (inr _, w') =>
        w_indexes w' = w_indexes w /\ w_stores w' = w_stores w /\ w_db w' = w_db w
        /\ exists l tx t,
             w_transactions w !! l = Some tx
             /\ w_transactions w'
                = <[l := tx_set_queue (tx_queue tx ++ [(Request, t)]) tx]>
                    (w_transactions w)
    end).
  { intros k Hk. destruct count as [c|]; [|apply Hk].
    unfold bind, lift. destruct (util_enforceRange c) as [e|n]; [reflexivity|].
    apply Hk. }
  apply Hcount. clear Hcount. intros n.
  unfold bind.
  pose proof (index_guard_reads me w) as Hg1.
  destruct (IDBIndex__invalidStateIfDeleted me w) as [[e|[]] w1];
    simpl in Hg1; subst w1; [reflexivity|].
  unfold get_index, get_store, deref, ret, throw.
  destruct (w_indexes w !! me) as [ix|]; [|reflexivity].
  destruct (w_stores w !! ix_objectStore ix) as [os|]; [|reflexivity].
  pose proof (store_guard_reads os w) as Hg2.
  destruct (IDBObjectStore__invalidStateIfDeleted os w) as [[e|[]] w1];
    simpl in Hg2; subst w1; [reflexivity|].
  destruct (os_deleted os); [reflexivity|].
  pose proof (assertActive_reads (os_transaction os) w) as Hg3.
  destruct (IDBTransaction__assertActive (os_transaction os) w) as [[e|[]] w1];
    simpl in Hg3; subst w1; [reflexivity|].
  destruct (nullDisallowed && is_nullish range); [reflexivity|].
  pose proof (buildFetchIndexDataSQL_reads nullDisallowed me range opType false w)
    as Hg4.
  destruct (buildFetchIndexDataSQL nullDisallowed me range opType false w)
    as [[e|fetchArgs] w1]; simpl in Hg4; subst w1; [reflexivity|].
  unfold addToTransactionQueue, bind, deref, get_transaction, ret, throw,
    update_transaction, modify.
  destruct (os_transaction os) as [l|]; [|reflexivity].
  destruct (w_transactions w !! l) as [tx|] eqn:Htx; [|reflexivity].
  simpl. repeat split; try reflexivity.
  eexists l, tx, _. split; [exact Htx|].
  apply map_eq. intros l'. destruct (decide (l' = l)) as [->|Hne].
  - rewrite lookup_alter_eq, lookup_insert_eq, Htx. reflexivity.
  - rewrite lookup_alter_ne, lookup_insert_ne by congruence. reflexivity.
Qed.

Lemma fetchIndexData_deleted (w : World) me ix range opType nullDisallowed count :
  w_indexes w !! me = Some ix ->
  ix_deleted ix = true \/ ix_pendingDelete ix = true ->
  match count with
  | Some c => exists n, util_enforceRange c = inr n
  | None => True
  end ->
  IDBIndex__fetchIndexData me range opType nullDisallowed count w
  = (inl (DOMException InvalidStateError), w).
Proof.
  intros Hix Hd Hc. unfold IDBIndex__fetchIndexData. unfold bind at 1.
  assert (Hcount : exists n,
    match count with
    | Some c => bind (lift (util_enforceRange c)) (fun n => ret (Some n))
    | None => ret None
    end w = (inr n, w)).
  { destruct count as [c|]; [|eexists; reflexivity].
    destruct Hc as [n Hn]. exists (Some n). unfold bind, lift. rewrite Hn. reflexivity. }
  destruct Hcount as [n ->]. unfold bind at 1.
  rewrite (index_invalidStateIfDeleted_deleted w me ix Hix Hd). reflexivity.
Qed.

(** X2: on an index that is deleted or pending deletion, [get], [getKey],
    [getAll] and [getAllKeys] throw [InvalidStateError] whatever the query
    is (a missing key included), and so does [count] for every query that
    is not an [IDBKeyRange] instance; they leave the world as it was.
    ([get] and [getKey] are given an argument; a result count, when given,
    is one [enforceRange] accepts.  [count] on an [IDBKeyRange] instance is
    handed to a cursor of IDBCursor.js on lines 436-439 and is not covered
    here.) *)
Theorem fetch_on_deleted_index (w : World) me ix query rest count :
  w_indexes w !! me = Some ix ->
  ix_deleted ix = true \/ ix_pendingDelete ix = true ->
  match count with
  | Some c => exists n, util_enforceRange c = inr n
  | None => True
  end ->
  IDBIndex_get me (query :: rest) w = (inl (DOMException InvalidStateError), w)
  /\ IDBIndex_getKey me (query :: rest) w = (inl (DOMException InvalidStateError), w)
  /\ IDBIndex_getAll me query count w = (inl (DOMException InvalidStateError), w)
  /\ IDBIndex_getAllKeys me query count w = (inl (DOMException InvalidStateError), w)
  /\ ((forall r, query <> QKeyRange r) ->
      exists request,
        IDBIndex_count me query = Some request
        /\ request w = (inl (DOMException InvalidStateError), w)).
Proof.
  intros Hix Hd Hc.
  unfold IDBIndex_get, IDBIndex_getKey, IDBIndex_getAll, IDBIndex_getAllKeys,
    IDBIndex_count.
  rewrite !(fetchIndexData_deleted w me ix query _ _ None Hix Hd I).
  rewrite !(fetchIndexData_deleted w me ix query _ _ count Hix Hd Hc).
  repeat split.
  intros Hrange.
  exists (IDBIndex__fetchIndexData me query OpCount false None).
  split; [|apply (fetchIndexData_deleted w me ix _ _ _ None Hix Hd I)].
  destruct query as [| |k|r]; try reflexivity.
  exfalso. exact (Hrange r eq_refl).
Qed.

(** *** The callback of a fetch *)

Lemma plain_loop_length opType (rows : list Row) recs l :
  plain_loop opType rows recs = inr l ->
  length l = (length recs + length rows)%nat.
Proof.
  revert recs. induction rows as [|r rows IH]; intros recs Hl; simpl in *.
  - injection Hl as <-. lia.
  - destruct (decode_record opType r) as [e|d]; [discriminate|].
    rewrite (IH _ Hl), length_app. simpl. lia.
Qed.

Lemma multiEntry_loop_length unb hasKey mc range opType name enc
    (rows : list Row) c recs c' l :
  multiEntry_loop unb hasKey mc range opType name enc rows c recs = inr (c', l) ->
  (length l <= length recs + length rows)%nat.
Proof.
  revert c recs. induction rows as [|r rows IH]; intros c recs Hl; simpl in *.
  - injection Hl as <- <-. lia.
  - destruct (row_matches hasKey mc range enc (row_cols r !! name)
                (Key_decode (row_cols r !! name))) as [e|matched]; [discriminate|].
    destruct (if matched then (S c, true)
              else if negb hasKey && negb mc
                   then match Key_decode (row_cols r !! name) with
                        | Some k => ((c + rowKey_count k)%nat, true)
                        | None => (c, false)
                        end
                   else (c, false)) as [c1 [|]].
    + destruct (decode_record opType r) as [e|d]; [discriminate|].
      destruct unb.
      * injection Hl as <- <-. rewrite length_app. simpl. lia.
      * apply IH in Hl. rewrite length_app in Hl. simpl in Hl. lia.
    + apply IH in Hl. lia.
Qed.

(** X3: [getAll] and [getAllKeys] with a result count [n] other than 0
    resolve to at most [n] records; with the count 0 they behave as without
    a count, since line 567 tests [count] for truth. *)
Theorem getAll_respects_count index hasKey range opType multiChecks
    (sql : SelectQuery) (w : World) :
  executeFetchIndexData (Some 0%N) false index hasKey range opType multiChecks sql w
  = executeFetchIndexData None false index hasKey range opType multiChecks sql w
  /\ forall n l,
       n <> 0%N ->
       executeFetchIndexData (Some n) false index hasKey range opType multiChecks
         sql w = TaskSuccess (ResRecords l) ->
       (length l <= N.to_nat n)%nat.
Proof.
  split; [reflexivity|]. intros n l Hn.
  unfold executeFetchIndexData, with_limit.
  rewrite (proj2 (N.eqb_neq n 0) Hn).
  unfold sql_select. simpl.
  destruct (db_tables (w_db w) !! store_table (sel_store sql)) as [t|];
    [|discriminate]. simpl.
  destruct (decide _) as [_|_]; [|discriminate].
  match goal with
  | |- context [take (N.to_nat n) ?o] =>
      assert (Hlen : (length (take (N.to_nat n) o) <= N.to_nat n)%nat)
        by (rewrite length_take; lia);
      generalize dependent (take (N.to_nat n) o)
  end.
  intros rows Hlen. destruct (w_indexes w !! index) as [ix|]; [|discriminate].
  unfold fetch_callback, fetch_result.
  destruct (ix_multiEntry ix).
  - destruct (Key_encode range true) as [e|enc]; [discriminate|].
    destruct (multiEntry_loop false hasKey multiChecks range opType (ix_name ix)
                enc rows 0 []) as [e|[c recs]] eqn:Hloop; [discriminate|].
    apply multiEntry_loop_length in Hloop. simpl in Hloop.
    destruct (bool_decide (opType = OpCount)); [discriminate|].
    destruct (Nat.eqb c 0); intros Hres; injection Hres as <-; simpl; lia.
  - destruct (plain_loop opType rows []) as [e|recs] eqn:Hloop; [discriminate|].
    apply plain_loop_length in Hloop. simpl in Hloop.
    destruct (bool_decide (opType = OpCount)); [discriminate|].
    destruct (Nat.eqb (length recs) 0); intros Hres; injection Hres as <-;
      simpl; lia.
Qed.

Lemma multiEntry_loop_key range opType name enc (d : Row -> Fetched)
    (rows : list Row) c recs :
  (forall r, decode_record opType r = inr (d r)) ->
  multiEntry_loop false true false range opType name enc rows c recs
  = inr ((c + length (filter (fun r => multiEntry_match enc name r = true) rows))%nat,
         recs ++ (d <$> filter (fun r => multiEntry_match enc name r = true) rows)).
Proof.
  intros Hd. revert c recs. induction rows as [|r rows IH]; intros c recs.
  - simpl. rewrite Nat.add_0_r, app_nil_r. reflexivity.
  - simpl. rewrite filter_cons. fold (multiEntry_match enc name r).
    destruct (multiEntry_match enc name r) eqn:Hm.
    + rewrite decide_True by reflexivity. simpl. rewrite Hd, IH. simpl.
      rewrite <- app_assoc. simpl. f_equal. f_equal. lia.
    + rewrite decide_False by discriminate. simpl. apply IH.
Qed.

Lemma multiEntry_loop_first range opType name enc (d : Row -> Fetched)
    (rows : list Row) c recs :
  (forall r, decode_record opType r = inr (d r)) ->
  multiEntry_loop true true false range opType name enc rows c recs
  = inr (match filter (fun r => multiEntry_match enc name r = true) rows with
         | [] => (c, recs)
         | r :: _ => (S c, recs ++ [d r])
         end).
Proof.
  intros Hd. revert c recs. induction rows as [|r rows IH]; intros c recs.
  - reflexivity.
  - simpl. rewrite filter_cons. fold (multiEntry_match enc name r).
    destruct (multiEntry_match enc name r) eqn:Hm.
    + rewrite decide_True by reflexivity. simpl. rewrite Hd. reflexivity.
    + rewrite decide_False by discriminate. simpl. apply IH.
Qed.

(** X4: on a multi-entry index queried with one key, the callback keeps the
    rows whose index column passes [Key.isMultiEntryMatch] (line 590), in
    the order SQL gave them: [count] answers their number, each row counting
    once, [getAllKeys] their primary keys, and [getKey] the primary key of
    the first of them, or undefined when there is none. *)
Theorem multiEntry_key_fetch (ix : IDBIndexObj) range enc (rows : list Row) :
  ix_multiEntry ix = true ->
  Key_encode range true = inr enc ->
  let matched := filter (fun r => multiEntry_match enc (ix_name ix) r = true) rows in
  fetch_callback false ix true range OpCount false rows
  = TaskSuccess (ResCount (length matched))
  /\ fetch_callback false ix true range OpKey false rows
     = TaskSuccess (ResRecords (fetched_key <$> matched))
  /\ fetch_callback true ix true range OpKey false rows
     = TaskSuccess (match matched with
                    | [] => ResUndefined
                    | r :: _ => ResRecord (fetched_key r)
                    end).
Proof.
  intros Hm He matched. unfold fetch_callback. rewrite Hm, He.
  rewrite (multiEntry_loop_key range OpCount _ enc (fun _ => FUndefined))
    by reflexivity.
  rewrite (multiEntry_loop_key range OpKey _ enc fetched_key) by reflexivity.
  rewrite (multiEntry_loop_first range OpKey _ enc fetched_key) by reflexivity.
  fold matched. simpl. repeat split.
  - unfold fetch_result. simpl. destruct matched; reflexivity.
  - destruct matched; reflexivity.
Qed.

Lemma multiEntry_loop_unfiltered range opType name enc (d : Row -> Fetched)
    (rows : list Row) c recs :
  (forall r, decode_record opType r = inr (d r)) ->
  multiEntry_loop false false false range opType name enc rows c recs
  = inr ((c + sum_list (row_count name <$> rows))%nat,
         recs ++ (d <$> filter (fun r => has_rowKey name r = true) rows)).
Proof.
  intros Hd. revert c recs. induction rows as [|r rows IH]; intros c recs.
  - simpl. rewrite Nat.add_0_r, app_nil_r. reflexivity.
  - simpl. rewrite filter_cons.
    assert (Hk : has_rowKey name r
                 = match Key_decode (row_cols r !! name) with
                   | Some _ => true
                   | None => false
                   end) by reflexivity.
    unfold row_count at 1.
    destruct (Key_decode (row_cols r !! name)) as [k|];
      [rewrite decide_True by exact Hk
      |rewrite decide_False by (rewrite Hk; discriminate)]; simpl.
    + rewrite Hd, IH. rewrite <- app_assoc. simpl. f_equal. f_equal.
      symmetry; apply Nat.add_assoc.
    + apply IH.
Qed.

(** X5: on a multi-entry index queried without a key, [count] adds up the
    elements of every row's decoded index key (lines 594-598) while
    [getAllKeys] answers one primary key per row with a decodable index
    key, so the two differ as soon as a row holds several elements; and as
    the emptiness test of line 618 reads that same sum, [getAllKeys] answers
    [[]] whenever all the index keys are empty arrays. *)
Theorem multiEntry_unfiltered_fetch (ix : IDBIndexObj) range enc (rows : list Row) :
  ix_multiEntry ix = true ->
  Key_encode range true = inr enc ->
  let total := sum_list (row_count (ix_name ix) <$> rows) in
  fetch_callback false ix false range OpCount false rows
  = TaskSuccess (ResCount total)
  /\ fetch_callback false ix false range OpKey false rows
     = TaskSuccess
         (ResRecords
            (if Nat.eqb total 0 then []
             else fetched_key <$> filter (fun r => has_rowKey (ix_name ix) r = true) rows)).
Proof.
  intros Hm He total. unfold fetch_callback. rewrite Hm, He.
  rewrite (multiEntry_loop_unfiltered range OpCount _ enc (fun _ => FUndefined))
    by reflexivity.
  rewrite (multiEntry_loop_unfiltered range OpKey _ enc fetched_key)
    by reflexivity.
  fold total. simpl. split; [reflexivity|].
  unfold fetch_result. simpl. destruct (Nat.eqb total 0); reflexivity.
Qed.



Lemma plain_loop_count (rows : list Row) recs :
  exists l, plain_loop OpCount rows recs = inr l.
Proof.
  revert recs. induction rows as [|r rows IH]; intros recs; simpl.
  - exists recs. reflexivity.
  - apply IH.
Qed.

(** X7: on an index that is not multi-entry, [count] answers the number of
    rows of the store's table that the statement selects: every selected
    row is one record (lines 608-614). *)
Theorem plain_count_selected index (ix : IDBIndexObj) hasKey range multiChecks
    (sql : SelectQuery) (w : World) (t : Table) :
  w_indexes w !! index = Some ix ->
  ix_multiEntry ix = false ->
  sel_limit sql = None ->
  sql_select sql (w_db w) <> None ->
  db_tables (w_db w) !! store_table (sel_store sql) = Some t ->
  executeFetchIndexData None false index hasKey range OpCount multiChecks sql w
  = TaskSuccess
      (ResCount (length (filter (fun r => row_selected sql r = true) (tbl_rows t)))).
Proof.
  intros Hix Hm Hl Hs Ht. unfold executeFetchIndexData, with_limit.
  revert Hs. unfold sql_select. rewrite Ht, Hl. simpl.
  destruct (decide _) as [_|_]; [|intros []; reflexivity]. intros _.
  rewrite Hix. unfold fetch_callback. rewrite Hm.
  match goal with
  | |- context [plain_loop OpCount ?rows []] =>
      destruct (plain_loop_count rows []) as [recs Hloop]
  end.
  rewrite Hloop. apply plain_loop_length in Hloop.
  unfold fetch_result. simpl. rewrite Hloop. simpl.
  destruct (sel_orderBy sql); [|reflexivity].
  f_equal. f_equal. apply Permutation_length, merge_sort_Permutation.
Qed.

(** *** The persisted index list *)

Lemma build_indexList_resolved indexes (os : IDBObjectStoreObj) names acc :
  (forall n, n ∈ names ->
     exists l idx, os_indexes os !! n = Some l /\ indexes !! l = Some idx
                   /\ ix_name idx = n) ->
  exists il,
    build_indexList indexes os names acc = Some il
    /\ forall k, il !! k
         = if decide (k ∈ names)
           then index_properties <$> (os_indexes os !! k ≫= fun l => indexes !! l)
           else acc !! k.
Proof.
  revert acc. induction names as [|n names IH]; intros acc Hres.
  - exists acc. split; [reflexivity|]. intros k.
    rewrite decide_False by (apply not_elem_of_nil). reflexivity.
  - destruct (Hres n) as (l & idx & Hl & Hidx & Hn); [left|].
    simpl. rewrite Hl. simpl. rewrite Hidx. simpl.
    destruct (IH (<[ix_name idx := index_properties idx]> acc)) as (il & -> & Hil).
    { intros n' Hn'. apply Hres. right. exact Hn'. }
    exists il. split; [reflexivity|]. intros k. rewrite Hil.
    destruct (decide (k ∈ names)) as [Hk|Hk].
    + rewrite decide_True by (right; exact Hk). reflexivity.
    + destruct (decide (k = n)) as [->|Hkn].
      * rewrite decide_True by left. rewrite Hl. simpl. rewrite Hidx. simpl.
        rewrite Hn. apply lookup_insert_eq.
      * rewrite decide_False by (rewrite elem_of_cons; tauto).
        rewrite Hn. apply lookup_insert_ne. congruence.
Qed.

(** X8: for a store whose listed index names all resolve to descriptors
    of that name, [__updateIndexList] succeeds and replaces the store's row
    of [__sys__] by a list holding exactly the listed names, each with the
    name, key path, unique and multiEntry flags of its descriptor; an index
    that is registered in [store.__indexes] but not listed is left out.
    Other rows of [__sys__], the tables and the objects are untouched. *)
Theorem updateIndexList_persists_listed (w : World) store os :
  w_stores w !! store = Some os ->
  is_Some (db_sys (w_db w) !! IDBObjectStore_currentName os) ->
  names_resolved (w_indexes w) os ->
  exists w' indexList,
    IDBIndex__updateIndexList store w = Some w'
    /\ db_sys (w_db w') !! IDBObjectStore_currentName os = Some indexList
    /\ (forall k, indexList !! k
          = if decide (k ∈ os_indexNames os)
            then index_properties
                   <$> (os_indexes os !! k ≫= fun l => w_indexes w !! l)
            else None)
    /\ (forall s, s <> IDBObjectStore_currentName os ->
          db_sys (w_db w') !! s = db_sys (w_db w) !! s)
    /\ db_tables (w_db w') = db_tables (w_db w)
    /\ w_indexes w' = w_indexes w /\ w_stores w' = w_stores w
    /\ w_transactions w' = w_transactions w.
Proof.
  intros Hos [old Hold] Hres.
  destruct (build_indexList_resolved (w_indexes w) os (os_indexNames os) ∅ Hres)
    as (il & Hil & Hlook).
  unfold IDBIndex__updateIndexList. rewrite Hos. simpl. rewrite Hil. simpl.
  eexists _, il. split; [reflexivity|]. simpl. repeat split.
  - rewrite lookup_alter_eq, Hold. reflexivity.
  - intros k. rewrite Hlook. destruct (decide _); [reflexivity|].
    apply lookup_empty.
  - intros s Hs. apply lookup_alter_ne. congruence.
Qed.

(** *** Deleting an index *)

Lemma indexOf_listed x (l : list string) : x ∈ l -> exists i, indexOf x l = Some i.
Proof.
  induction l as [|y l IH]; intros Hx.
  - apply elem_of_nil in Hx as [].
  - simpl. destruct (decide (y = x)) as [_|Hne]; [eexists; reflexivity|].
    apply elem_of_cons in Hx as [->|Hx]; [congruence|].
    destruct (IH Hx) as [i ->]. eexists. reflexivity.
Qed.

Lemma filter_other_names (x : string) (l : list string) :
  x ∉ l -> filter (fun y => y <> x) l = l.
Proof.
  induction l as [|y l IH]; intros Hx; [reflexivity|].
  rewrite not_elem_of_cons in Hx. destruct Hx as [Hne Hx].
  rewrite filter_cons_True by congruence. f_equal. exact (IH Hx).
Qed.

Lemma splice_remove_listed x (l : list string) :
  NoDup l -> x ∈ l -> splice_remove x l = filter (fun y => y <> x) l.
Proof.
  unfold splice_remove. induction l as [|y l IH]; intros Hnd Hx.
  - apply elem_of_nil in Hx as [].
  - apply NoDup_cons in Hnd as [Hy Hnd]. simpl. rewrite filter_cons.
    destruct (decide (y = x)) as [->|Hne].
    + rewrite decide_False by tauto. simpl. rewrite drop_0.
      symmetry. apply filter_other_names. exact Hy.
    + rewrite decide_True by exact Hne.
      apply elem_of_cons in Hx as [->|Hx]; [congruence|].
      specialize (IH Hnd Hx). destruct (indexOf_listed x l Hx) as [i Hi].
      rewrite Hi in *. simpl. f_equal. exact IH.
Qed.

(** X9: [__deleteIndex] on a listed index of a store with distinct index
    names marks the index and its handle pending-delete, takes the name,
    and only that name, off [indexNames] while the descriptor stays in
    [store.__indexes], leaves the database alone, and appends one
    [deleteIndex] step to the transaction's queue.  From then on every
    fetch on the index throws InvalidStateError. *)
Theorem deleteIndex_synchronous (w : World) store index ix os l tx :
  w_indexes w !! index = Some ix ->
  w_stores w !! store = Some os ->
  os_transaction os = Some l ->
  w_transactions w !! l = Some tx ->
  NoDup (os_indexNames os) ->
  ix_name ix ∈ os_indexNames os ->
  exists w' os',
    IDBIndex__deleteIndex store index w = (inr tt, w')
    /\ ix_pendingDelete <$> w_indexes w' !! index = Some true
    /\ (forall h, os_indexHandles os !! ix_name ix = Some h ->
          is_Some (w_indexes w !! h) ->
          ix_pendingDelete <$> w_indexes w' !! h = Some true)
    /\ w_stores w' !! store = Some os'
    /\ os_indexNames os' = filter (fun n => n <> ix_name ix) (os_indexNames os)
    /\ os_indexes os' = os_indexes os
    /\ w_db w' = w_db w
    /\ tx_queue <$> w_transactions w' !! l
       = Some (tx_queue tx
               ++ [(NonRequest,
                    deleteIndex store index (os_indexHandles os !! ix_name ix))])
    /\ forall range opType nullDisallowed,
         IDBIndex__fetchIndexData index range opType nullDisallowed None w'
         = (inl (DOMException InvalidStateError), w').
Proof.
  intros Hix Hos Hl Htx Hnd Hin.
  unfold IDBIndex__deleteIndex, addToTransactionQueue. unfold_m.
  rewrite lookup_alter_eq, Hix. simpl. rewrite Hos.
  destruct (os_indexHandles os !! ix_name ix) as [h|] eqn:Hh; unfold_m;
    rewrite Hl; simpl; rewrite Htx; simpl;
    eexists _, (os_set_indexNames (splice_remove (ix_name ix) (os_indexNames os)) os);
    (split; [reflexivity|]); simpl.
  - repeat split.
    + destruct (decide (h = index)) as [->|Hne].
      * rewrite !lookup_alter_eq, Hix. reflexivity.
      * rewrite lookup_alter_ne, lookup_alter_eq, Hix by congruence. reflexivity.
    + intros h' Hh' [ho Hho]. injection Hh' as <-.
      destruct (decide (h = index)) as [->|Hne].
      * rewrite !lookup_alter_eq, Hix. reflexivity.
      * rewrite lookup_alter_eq, lookup_alter_ne, Hho by congruence. reflexivity.
    + rewrite lookup_alter_eq, Hos. reflexivity.
    + simpl. apply splice_remove_listed; assumption.
    + rewrite lookup_alter_eq, Htx. reflexivity.
    + intros range opType nd.
      eapply fetchIndexData_deleted with
        (ix := ix_set_pendingDelete true
                 (if decide (h = index) then ix_set_pendingDelete true ix else ix));
        [|right; reflexivity|exact I].
      simpl. destruct (decide (h = index)) as [->|Hne].
      * rewrite !lookup_alter_eq, Hix. reflexivity.
      * rewrite lookup_alter_ne, lookup_alter_eq, Hix by congruence.
        destruct ix; reflexivity.
  - repeat split.
    + rewrite lookup_alter_eq, Hix. reflexivity.
    + intros h' Hh'. discriminate.
    + rewrite lookup_alter_eq, Hos. reflexivity.
    + simpl. apply splice_remove_listed; assumption.
    + rewrite lookup_alter_eq, Htx. reflexivity.
    + intros range opType nd.
      eapply fetchIndexData_deleted with (ix := ix_set_pendingDelete true ix);
        [|right; reflexivity|exact I].
      simpl. rewrite lookup_alter_eq, Hix. reflexivity.
Qed.

(** X10: the queued [deleteIndex] step, run on a store whose listed names
    resolve, succeeds: the index ends deleted, no longer pending-delete and
    not recreated, and so does its handle, except that the handle's
    [__recreated] is left as it was.  The statement it issues drops the
    storage-level index only: the table keeps the index column and what
    the rows hold in it.  The index list it persists is built from the
    listed names, so it has no entry for a name that was taken off
    [indexNames]. *)
Theorem deleteIndex_task (w : World) store index indexHandle os ix :
  w_stores w !! store = Some os ->
  w_indexes w !! index = Some ix ->
  names_resolved (w_indexes w) os ->
  exists w',
    run_deleteIndex store index indexHandle w = (TaskSuccess (ResStore store), w')
    /\ (exists ix', w_indexes w' !! index = Some ix'
          /\ ix_deleted ix' = true /\ ix_pendingDelete ix' = false
          /\ ix_recreated ix' = false /\ ix_name ix' = ix_name ix)
    /\ (forall h ho, indexHandle = Some h -> w_indexes w !! h = Some ho ->
          exists ho', w_indexes w' !! h = Some ho'
            /\ ix_deleted ho' = true /\ ix_pendingDelete ho' = false
            /\ (h <> index -> ix_recreated ho' = ix_recreated ho))
    /\ db_tables (w_db w') = db_tables (w_db w)
    /\ db_sqlIndexes (w_db w')
       = (if CFG_useSQLiteIndexes
          then db_sqlIndexes (w_db w) ∖ {[ (os_name os, Some (ix_name ix)) ]}
          else db_sqlIndexes (w_db w))
    /\ (forall indexList k,
          db_sys (w_db w') !! IDBObjectStore_currentName os = Some indexList ->
          is_Some (indexList !! k) -> k ∈ os_indexNames os)
    /\ w_stores w' = w_stores w /\ w_transactions w' = w_transactions w.
Proof.
  intros Hos Hix Hres.
  destruct (build_indexList_resolved (w_indexes w) os (os_indexNames os) ∅ Hres)
    as (il & Hil & Hlook).
  assert (Hfinish : forall db : Database,
    db_tables db = db_tables (w_db w) ->
    exists w',
      finishDeleteIndex store index indexHandle (w_set_db db w)
      = (TaskSuccess (ResStore store), w')
      /\ (exists ix', w_indexes w' !! index = Some ix'
            /\ ix_deleted ix' = true /\ ix_pendingDelete ix' = false
            /\ ix_recreated ix' = false /\ ix_name ix' = ix_name ix)
      /\ (forall h ho, indexHandle = Some h -> w_indexes w !! h = Some ho ->
            exists ho', w_indexes w' !! h = Some ho'
              /\ ix_deleted ho' = true /\ ix_pendingDelete ho' = false
              /\ (h <> index -> ix_recreated ho' = ix_recreated ho))
      /\ db_tables (w_db w') = db_tables (w_db w)
      /\ db_sqlIndexes (w_db w') = db_sqlIndexes db
      /\ (forall indexList k,
            db_sys (w_db w') !! IDBObjectStore_currentName os = Some indexList ->
            is_Some (indexList !! k) -> k ∈ os_indexNames os)
      /\ w_stores w' = w_stores w /\ w_transactions w' = w_transactions w).
  { intros db Hdb. unfold finishDeleteIndex, IDBIndex__updateIndexList. simpl.
    rewrite Hos. simpl. rewrite Hil. simpl.
    eexists. split; [reflexivity|]. simpl.
    split; [|split; [|split; [exact Hdb|split; [reflexivity|split;
      [|split; reflexivity]]]]].
    - destruct indexHandle as [h|]; [destruct (decide (h = index)) as [->|Hne]|].
      + rewrite !lookup_alter_eq, Hix. simpl. eexists. split; [reflexivity|].
        repeat split.
      + rewrite lookup_alter_ne, lookup_alter_eq, Hix by congruence. simpl.
        eexists. split; [reflexivity|]. repeat split.
      + rewrite lookup_alter_eq, Hix. simpl.
        eexists. split; [reflexivity|]. repeat split.
    - intros h ho -> Hho. destruct (decide (h = index)) as [->|Hne].
      + rewrite !lookup_alter_eq, Hix. simpl. eexists. split; [reflexivity|].
        repeat split. intros []. reflexivity.
      + rewrite lookup_alter_eq, lookup_alter_ne, Hho by congruence. simpl.
        eexists. split; [reflexivity|]. repeat split.
    - intros indexList k Hsys [p Hp].
      destruct (db_sys db !! IDBObjectStore_currentName os) as [old|] eqn:Hold.
      + rewrite lookup_alter_eq, Hold in Hsys. injection Hsys as <-.
        rewrite Hlook in Hp. destruct (decide (k ∈ os_indexNames os)); [assumption|].
        rewrite lookup_empty in Hp. discriminate.
      + rewrite lookup_alter_eq, Hold in Hsys. discriminate. }
  unfold run_deleteIndex. destruct CFG_useSQLiteIndexes.
  - rewrite Hos, Hix.
    exact (Hfinish (sql_drop_index (os_name os) (ix_name ix) (w_db w)) eq_refl).
  - specialize (Hfinish (w_db w) eq_refl).
    replace (w_set_db (w_db w) w) with w in Hfinish by (destruct w; reflexivity).
    exact Hfinish.
Qed.

(** *** Creating an index *)

Lemma fresh_index_unallocated (m : gmap loc IDBIndexObj) :
  m !! fresh (dom m) = None.
Proof. apply not_elem_of_dom, is_fresh. Qed.

(** X11: [__createIndex] registers the index before any SQL runs: it marks
    the index pending-create, appends its name to [indexNames], maps the
    name to it in [store.__indexes], leaves the database alone and appends
    one [createIndex] step, which carries the descriptor the name mapped to
    before.  The handle under that name is the one already there when it
    and the index are neither deleted nor pending-delete; otherwise it is a
    clone at a new location, with the name, key path, flags and pending
    state of the index. *)
Theorem createIndex_registers (w : World) store index ix os l tx :
  w_indexes w !! index = Some ix ->
  w_stores w !! store = Some os ->
  os_transaction os = Some l ->
  w_transactions w !! l = Some tx ->
  (forall h, os_indexHandles os !! ix_name ix = Some h -> is_Some (w_indexes w !! h)) ->
  exists w' os' h ho,
    IDBIndex__createIndex store index w = (inr tt, w')
    /\ w_indexes w' !! index = Some (ix_set_pendingCreate true ix)
    /\ w_stores w' !! store = Some os'
    /\ os_indexNames os' = os_indexNames os ++ [ix_name ix]
    /\ os_indexes os' = <[ix_name ix := index]> (os_indexes os)
    /\ os_indexHandles os' = <[ix_name ix := h]> (os_indexHandles os)
    /\ w_indexes w' !! h = Some ho
    /\ ((os_indexHandles os !! ix_name ix = Some h
         /\ ix_pendingDelete ix || ix_deleted ix
            || ix_pendingDelete ho || ix_deleted ho = false)
        \/ (w_indexes w !! h = None
            /\ ho = mkIndex store (ix_name ix) (ix_originalName ix) (ix_keyPath ix)
                      (ix_multiEntry ix) (ix_unique ix) (ix_deleted ix)
                      (ix_pendingDelete ix) true (ix_recreated ix) None))
    /\ w_db w' = w_db w
    /\ tx_queue <$> w_transactions w' !! l
       = Some (tx_queue tx
               ++ [(NonRequest,
                    createIndex store index h (ix_name ix)
                      (IDBObjectStore_currentName os)
                      (os_indexes os !! ix_name ix))]).
Proof.
  intros Hix Hos Hl Htx Hh.
  unfold IDBIndex__createIndex, IDBIndex__clone, IDBIndex__createInstance,
    addToTransactionQueue.
  unfold_m. rewrite Hix. simpl. rewrite Hos. simpl.
  rewrite lookup_alter_eq, Hix. simpl. rewrite lookup_alter_eq, Hos. simpl.
  remember (alter (ix_set_pendingCreate true) index (w_indexes w)) as idxs
    eqn:Hidxs.
  assert (Hme : idxs !! index = Some (ix_set_pendingCreate true ix))
    by (rewrite Hidxs, lookup_alter_eq, Hix; reflexivity).
  assert (Hother : forall k, k <> index -> idxs !! k = w_indexes w !! k)
    by (intros k Hk; rewrite Hidxs; apply lookup_alter_ne; congruence).
  clear Hidxs.
  assert (Hnew : idxs !! fresh (dom idxs) = None) by apply fresh_index_unallocated.
  assert (Hne : fresh (dom idxs) <> index).
  { intros Heq. rewrite Heq, Hme in Hnew. discriminate. }
  assert (Hold : w_indexes w !! fresh (dom idxs) = None).
  { rewrite <- Hother by exact Hne. exact Hnew. }
  assert (Hclone : forall wc,
    wc = w_set_stores
           (alter (fun o => os_set_indexHandles
                              (<[ix_name ix := fresh (dom idxs)]> (os_indexHandles o)) o)
              store
              (alter (fun o => os_set_indexes (<[ix_name ix := index]> (os_indexes o))
                                 (os_set_indexNames (os_indexNames o ++ [ix_name ix]) o))
                 store (w_stores w)))
           (w_set_indexes
              (alter (fun o =>
                 mkIndex (ix_objectStore o) (ix_name o) (ix_originalName ix)
                   (ix_keyPath o) (ix_multiEntry o) (ix_unique o) (ix_deleted ix)
                   (ix_pendingDelete ix) true (ix_recreated ix) (ix_pendingName o))
                 (fresh (dom idxs))
                 (<[fresh (dom idxs)
                    := mkIndex store (ix_name ix) (ix_name ix) (ix_keyPath ix)
                         (ix_multiEntry ix) (ix_unique ix) false false false false
                         None]> idxs))
              w) ->
    exists os',
      w_indexes wc !! index = Some (ix_set_pendingCreate true ix)
      /\ w_stores wc !! store = Some os'
      /\ os_indexNames os' = os_indexNames os ++ [ix_name ix]
      /\ os_indexes os' = <[ix_name ix := index]> (os_indexes os)
      /\ os_indexHandles os' = <[ix_name ix := fresh (dom idxs)]> (os_indexHandles os)
      /\ w_indexes wc !! fresh (dom idxs)
         = Some (mkIndex store (ix_name ix) (ix_originalName ix) (ix_keyPath ix)
                   (ix_multiEntry ix) (ix_unique ix) (ix_deleted ix)
                   (ix_pendingDelete ix) true (ix_recreated ix) None)
      /\ w_indexes w !! fresh (dom idxs) = None
      /\ w_db wc = w_db w
      /\ w_transactions wc = w_transactions w).
  { intros wc ->. eexists. simpl.
    split; [rewrite lookup_alter_ne, lookup_insert_ne by congruence; exact Hme|].
    split; [rewrite !lookup_alter_eq, Hos; reflexivity|]. simpl.
    split; [reflexivity|]. split; [reflexivity|]. split; [reflexivity|].
    split; [rewrite lookup_alter_eq, lookup_insert_eq; reflexivity|].
    split; [exact Hold|].
    split; reflexivity. }
  assert (Hreuse : forall h0 ho0,
    os_indexHandles os !! ix_name ix = Some h0 ->
    idxs !! h0 = Some ho0 ->
    ix_pendingDelete ix || ix_deleted ix || ix_pendingDelete ho0 || ix_deleted ho0
    = false ->
    exists os',
      idxs !! index = Some (ix_set_pendingCreate true ix)
      /\ alter (fun o => os_set_indexes (<[ix_name ix := index]> (os_indexes o))
                           (os_set_indexNames (os_indexNames o ++ [ix_name ix]) o))
           store (w_stores w) !! store = Some os'
      /\ os_indexNames os' = os_indexNames os ++ [ix_name ix]
      /\ os_indexes os' = <[ix_name ix := index]> (os_indexes os)
      /\ os_indexHandles os' = <[ix_name ix := h0]> (os_indexHandles os)
      /\ idxs !! h0 = Some ho0
      /\ (os_indexHandles os !! ix_name ix = Some h0
          /\ ix_pendingDelete ix || ix_deleted ix
             || ix_pendingDelete ho0 || ix_deleted ho0 = false)).
  { intros h0 ho0 Hh0 Hho0 Hflags. eexists.
    split; [exact Hme|].
    split; [rewrite lookup_alter_eq, Hos; reflexivity|]. simpl.
    split; [reflexivity|]. split; [reflexivity|].
    split; [symmetry; apply insert_id; exact Hh0|].
    split; [exact Hho0|]. split; assumption. }
  destruct (os_indexHandles os !! ix_name ix) as [h0|] eqn:Hh0.
  - destruct (Hh h0 eq_refl) as [ho1 Hho1].
    assert (Hho0 : exists ho0, idxs !! h0 = Some ho0
                               /\ ix_pendingDelete ho0 = ix_pendingDelete ho1
                               /\ ix_deleted ho0 = ix_deleted ho1).
    { destruct (decide (h0 = index)) as [->|Hne0].
      - rewrite Hme. rewrite Hix in Hho1. injection Hho1 as <-.
        eexists. repeat split.
      - rewrite Hother, Hho1 by exact Hne0. eexists. repeat split. }
    destruct Hho0 as (ho0 & Hho0 & _ & _). simpl. rewrite Hho0. simpl.
    destruct (ix_pendingDelete ix || ix_deleted ix || ix_pendingDelete ho0
              || ix_deleted ho0) eqn:Hflags.
    + simpl. rewrite !lookup_alter_eq, Hos. simpl. rewrite Hl. simpl.
      rewrite Htx. simpl.
      edestruct Hclone as (osc & Hc1 & Hc2 & Hc3 & Hc4 & Hc5 & Hc6 & Hc7 & Hc8 & Hc9);
        [reflexivity|].
      eexists _, osc, (fresh (dom idxs)), _. split; [reflexivity|]. simpl.
      split; [exact Hc1|]. split; [exact Hc2|]. split; [exact Hc3|].
      split; [exact Hc4|]. split; [exact Hc5|]. split; [exact Hc6|].
      split; [right; split; [exact Hc7|reflexivity]|]. split; [reflexivity|].
      rewrite lookup_alter_eq, Htx. reflexivity.
    + simpl. rewrite lookup_alter_eq, Hos. simpl. rewrite Hl. simpl.
      rewrite Htx. simpl.
      destruct (Hreuse h0 ho0 eq_refl Hho0 Hflags)
        as (osr & Hr1 & Hr2 & Hr3 & Hr4 & Hr5 & Hr6 & Hr7).
      eexists _, osr, h0, ho0. split; [reflexivity|]. simpl.
      split; [exact Hr1|]. split; [exact Hr2|]. split; [exact Hr3|].
      split; [exact Hr4|]. split; [exact Hr5|]. split; [exact Hr6|].
      split; [left; exact Hr7|]. split; [reflexivity|].
      rewrite lookup_alter_eq, Htx. reflexivity.
  - simpl. rewrite !lookup_alter_eq, Hos. simpl. rewrite Hl. simpl.
    rewrite Htx. simpl.
    edestruct Hclone as (osc & Hc1 & Hc2 & Hc3 & Hc4 & Hc5 & Hc6 & Hc7 & Hc8 & Hc9);
      [reflexivity|].
    eexists _, osc, (fresh (dom idxs)), _. split; [reflexivity|]. simpl.
    split; [exact Hc1|]. split; [exact Hc2|]. split; [exact Hc3|].
    split; [exact Hc4|]. split; [exact Hc5|]. split; [exact Hc6|].
    split; [right; split; [exact Hc7|reflexivity]|]. split; [reflexivity|].
    rewrite lookup_alter_eq, Htx. reflexivity.
Qed.

(** *** The backfill *)

Lemma rows_agree_off_refl n (rows : list Row) : rows_agree_off n rows rows.
Proof. apply Forall2_same_length_lookup. split; [reflexivity|].
  intros i r r' Hr Hr'. rewrite Hr in Hr'. injection Hr' as <-. auto.
Qed.

Lemma rows_agree_off_trans n (rows1 rows2 rows3 : list Row) :
  rows_agree_off n rows1 rows2 -> rows_agree_off n rows2 rows3 ->
  rows_agree_off n rows1 rows3.
Proof.
  unfold rows_agree_off. intros H12. revert rows3.
  induction H12 as [|r1 r2 l1 l2 (Hk & Hv & Hc) _ IH]; intros rows3 H23.
  - inversion H23. constructor.
  - inversion H23 as [|? r3 ? l3 (Hk' & Hv' & Hc') H23']; subst.
    constructor; [|apply IH; exact H23'].
    repeat split; [congruence..|].
    intros c Hne. rewrite Hc', Hc by exact Hne. reflexivity.
Qed.

Lemma only_writes_column_refl s n (db : Database) : only_writes_column s n db db.
Proof.
  intros id. destruct (db_tables db !! id) as [t|]; [|reflexivity].
  exists t. repeat split; auto using rows_agree_off_refl.
Qed.

Lemma only_writes_column_trans s n (db1 db2 db3 : Database) :
  only_writes_column s n db1 db2 -> only_writes_column s n db2 db3 ->
  only_writes_column s n db1 db3.
Proof.
  intros H12 H23 id. specialize (H12 id). specialize (H23 id).
  destruct (db_tables db1 !! id) as [t1|].
  - destruct H12 as (t2 & Ht2 & Ha & Hc & Hid & Hr). rewrite Ht2 in H23.
    destruct H23 as (t3 & Ht3 & Ha' & Hc' & Hid' & Hr').
    exists t3. split; [exact Ht3|]. split; [congruence|].
    split; [etrans; eassumption|].
    split; [intros Hne; rewrite (Hid' Hne); exact (Hid Hne)|].
    eapply rows_agree_off_trans; eassumption.
  - rewrite H12 in H23. exact H23.
Qed.

Lemma only_writes_column_tables s n (db db' : Database) :
  db_tables db' = db_tables db -> only_writes_column s n db db'.
Proof.
  intros Heq id. rewrite Heq. destruct (db_tables db !! id) as [t|]; [|reflexivity].
  exists t. repeat split; auto using rows_agree_off_refl.
Qed.

Lemma sql_add_column_frame s n c (db db' : Database) :
  sql_add_column s c db = Some db' -> only_writes_column s n db db'.
Proof.
  unfold sql_add_column. intros Hadd id.
  destruct (db_tables db !! store_table s) as [t|] eqn:Ht; [|discriminate].
  simpl in Hadd. destruct (decide _); [discriminate|]. injection Hadd as <-.
  simpl. destruct (decide (id = store_table s)) as [->|Hne].
  - rewrite Ht, lookup_insert_eq. eexists. split; [reflexivity|]. simpl.
    repeat split; [set_solver|congruence|apply rows_agree_off_refl].
  - rewrite lookup_insert_ne by congruence.
    destruct (db_tables db !! id) as [t0|]; [|reflexivity].
    exists t0. repeat split; auto using rows_agree_off_refl.
Qed.

Lemma sql_update_col_frame s n v k (db db' : Database) :
  sql_update_col s n v k db = Some db' -> only_writes_column s n db db'.
Proof.
  unfold sql_update_col. intros Hupd id.
  destruct (db_tables db !! store_table s) as [t|] eqn:Ht; [|discriminate].
  simpl in Hupd. destruct (decide _); [|discriminate]. injection Hupd as <-.
  simpl. destruct (decide (id = store_table s)) as [->|Hne].
  - rewrite Ht, lookup_insert_eq. eexists. split; [reflexivity|]. simpl.
    repeat split; [set_solver|congruence|].
    unfold rows_agree_off. apply Forall2_fmap_r, Forall_Forall2_diag, Forall_forall.
    intros r _. unfold compose. destruct (decide (row_key r = k)); [|auto].
    simpl. repeat split. intros c Hc. apply lookup_insert_ne. congruence.
  - rewrite lookup_insert_ne by congruence.
    destruct (db_tables db !! id) as [t0|]; [|reflexivity].
    exists t0. repeat split; auto using rows_agree_off_refl.
Qed.

Lemma addIndexEntry_frame index s n (rows : list Row) seen (db : Database) :
  only_writes_column s n db (snd (addIndexEntry index s n rows seen db)).
Proof.
  revert seen db. induction rows as [|r rows IH]; intros seen db; simpl.
  - apply only_writes_column_refl.
  - destruct (row_indexKey index r) as [e|]; [|apply IH].
    destruct (ix_unique index && bool_decide (e ∈ seen));
      [apply only_writes_column_refl|].
    destruct (sql_update_col s n e (row_key r) db) as [db'|] eqn:Hupd;
      [|apply only_writes_column_refl].
    eapply only_writes_column_trans;
      [eapply sql_update_col_frame; exact Hupd|apply IH].
Qed.

Lemma updateIndexList_frame store (w w' : World) :
  IDBIndex__updateIndexList store w = Some w' ->
  db_tables (w_db w') = db_tables (w_db w)
  /\ w_indexes w' = w_indexes w /\ w_stores w' = w_stores w
  /\ w_transactions w' = w_transactions w.
Proof.
  unfold IDBIndex__updateIndexList. intros Hupd.
  destruct (w_stores w !! store) as [os|]; [|discriminate]. simpl in Hupd.
  destruct (build_indexList _ _ _ _) as [il|]; [|discriminate].
  injection Hupd as <-. repeat split.
Qed.

Lemma finish_createIndex_frame index indexHandle (w : World) :
  w_db (finish_createIndex index indexHandle w) = w_db w
  /\ w_stores (finish_createIndex index indexHandle w) = w_stores w
  /\ w_transactions (finish_createIndex index indexHandle w) = w_transactions w.
Proof.
  unfold finish_createIndex.
  destruct (w_indexes _ !! index) as [ix|]; [destruct (ix_deleted ix)|];
    repeat split.
Qed.

Lemma applyIndex_frame store index indexHandle n s (w : World) :
  only_writes_column s n (w_db w)
    (w_db (snd (applyIndex store index indexHandle n s w)))
  /\ w_stores (snd (applyIndex store index indexHandle n s w)) = w_stores w
  /\ w_transactions (snd (applyIndex store index indexHandle n s w))
     = w_transactions w.
Proof.
  unfold applyIndex.
  destruct (IDBIndex__updateIndexList store w) as [w1|] eqn:Hupd;
    [|split; [apply only_writes_column_refl|split; reflexivity]].
  apply updateIndexList_frame in Hupd as (Htab & Hidx & Hst & Htx).
  destruct (sql_select_all s (w_db w1)) as [rows|];
    [|split; [apply only_writes_column_tables; exact Htab|split; assumption]].
  destruct (w_indexes w1 !! index) as [ix|];
    [|split; [apply only_writes_column_tables; exact Htab|split; assumption]].
  pose proof (addIndexEntry_frame ix s n rows [] (w_db w1)) as Hfr.
  destruct (addIndexEntry ix s n rows [] (w_db w1)) as [[|e] db]; simpl in *.
  - destruct (finish_createIndex_frame index indexHandle (w_set_db db w1))
      as (-> & -> & ->).
    simpl. split; [|split; assumption].
    eapply only_writes_column_trans; [|exact Hfr].
    apply only_writes_column_tables; exact Htab.
  - split; [|split; assumption].
    eapply only_writes_column_trans; [|exact Hfr].
    apply only_writes_column_tables; exact Htab.
Qed.

Lemma addIndexEntry_keeps_sqlIndexes index s n (rows : list Row) seen
    (db : Database) :
  db_sqlIndexes (snd (addIndexEntry index s n rows seen db)) = db_sqlIndexes db.
Proof.
  revert seen db. induction rows as [|r rows IH]; intros seen db; simpl;
    [reflexivity|].
  destruct (row_indexKey index r) as [e|]; [|apply IH].
  destruct (ix_unique index && bool_decide (e ∈ seen)); [reflexivity|].
  destruct (sql_update_col s n e (row_key r) db) as [db'|] eqn:Hupd;
    [|reflexivity].
  rewrite IH. revert Hupd. unfold sql_update_col.
  destruct (db_tables db !! store_table s) as [t|]; [|discriminate]. simpl.
  destruct (decide _); [|discriminate].
  intros Hupd. injection Hupd as <-. reflexivity.
Qed.

Lemma finish_createIndex_others index indexHandle (w : World) k :
  k <> index -> k <> indexHandle ->
  w_indexes (finish_createIndex index indexHandle w) !! k = w_indexes w !! k.
Proof.
  intros Hk Hh. unfold finish_createIndex.
  destruct (w_indexes _ !! index) as [ix|]; [destruct (ix_deleted ix)|]; simpl;
    rewrite ?lookup_alter_ne by congruence; reflexivity.
Qed.

Lemma applyIndex_rest store index indexHandle n s (w : World) :
  (forall s',
     (forall os, w_stores w !! store = Some os ->
                 s' <> IDBObjectStore_currentName os) ->
     db_sys (w_db (snd (applyIndex store index indexHandle n s w))) !! s'
     = db_sys (w_db w) !! s')
  /\ db_sqlIndexes (w_db (snd (applyIndex store index indexHandle n s w)))
     = db_sqlIndexes (w_db w)
  /\ (forall k, k <> index -> k <> indexHandle ->
        w_indexes (snd (applyIndex store index indexHandle n s w)) !! k
        = w_indexes w !! k).
Proof.
  unfold applyIndex, IDBIndex__updateIndexList.
  destruct (w_stores w !! store) as [os|]; [|repeat split]. simpl.
  destruct (build_indexList (w_indexes w) os (os_indexNames os) ∅) as [il|];
    [|repeat split]. simpl.
  assert (Hsys : forall s',
    (forall os0, Some os = Some os0 -> s' <> IDBObjectStore_currentName os0) ->
    alter (fun _ => il) (IDBObjectStore_currentName os) (db_sys (w_db w)) !! s'
    = db_sys (w_db w) !! s').
  { intros s' Hs'. apply lookup_alter_ne. intros Heq.
    apply (Hs' os eq_refl). symmetry. exact Heq. }
  destruct (sql_select_all s _) as [rows|]; [|split; [exact Hsys|repeat split]].
  destruct (w_indexes w !! index) as [ix|]; [|split; [exact Hsys|repeat split]].
  pose proof (addIndexEntry_keeps_sys ix s n rows []
                (sql_update_indexList (IDBObjectStore_currentName os) il (w_db w)))
    as Hkeep.
  pose proof (addIndexEntry_keeps_sqlIndexes ix s n rows []
                (sql_update_indexList (IDBObjectStore_currentName os) il (w_db w)))
    as Hkeepi.
  destruct (addIndexEntry ix s n rows [] _) as [[|e] db]; simpl in *.
  - destruct (finish_createIndex_frame index indexHandle
                (w_set_db db
                   (w_set_db (sql_update_indexList (IDBObjectStore_currentName os)
                                il (w_db w)) w))) as (-> & _ & _).
    simpl. rewrite Hkeep, Hkeepi. split; [exact Hsys|]. split; [reflexivity|].
    intros k Hk Hh. rewrite finish_createIndex_others by assumption. reflexivity.
  - rewrite Hkeep, Hkeepi. split; [exact Hsys|]. repeat split.
Qed.

(** X12: whatever its outcome, the queued [createIndex] step changes
    nothing beyond this.  Among the record tables it touches the store's
    only, creating and dropping none: there it can add columns and write
    entries of the index column, every record keeping its place, its key,
    its value and its entries in all other columns.  In [__sys__] it can
    rewrite the row of the store and no other.  It removes no storage-level
    index and can add one only, that of the store and the name the index
    has when the step runs.  It changes no descriptor but the index and
    its handle, no object store and no transaction. *)
Theorem createIndex_task_frame store index indexHandle indexName storeName idx
    (w : World) :
  only_writes_column storeName indexName (w_db w)
    (w_db (snd (run_createIndex store index indexHandle indexName storeName idx w)))
  /\ (forall s,
        (forall os, w_stores w !! store = Some os ->
                    s <> IDBObjectStore_currentName os) ->
        db_sys (w_db (snd (run_createIndex store index indexHandle indexName
                             storeName idx w))) !! s
        = db_sys (w_db w) !! s)
  /\ (forall i, i ∈ db_sqlIndexes (w_db w) ->
        i ∈ db_sqlIndexes
              (w_db (snd (run_createIndex store index indexHandle indexName
                            storeName idx w))))
  /\ (forall i,
        i ∈ db_sqlIndexes
              (w_db (snd (run_createIndex store index indexHandle indexName
                            storeName idx w))) ->
        i ∈ db_sqlIndexes (w_db w)
        \/ exists ix, w_indexes w !! index = Some ix
                      /\ i = (storeName, Some (ix_name ix)))
  /\ (forall k, k <> index -> k <> indexHandle ->
        w_indexes (snd (run_createIndex store index indexHandle indexName
                          storeName idx w)) !! k
        = w_indexes w !! k)
  /\ w_stores (snd (run_createIndex store index indexHandle indexName storeName idx w))
     = w_stores w
  /\ w_transactions
       (snd (run_createIndex store index indexHandle indexName storeName idx w))
     = w_transactions w.
Proof.
  unfold run_createIndex.
  destruct (w_indexes w !! index) as [ix|];
    [|split; [apply only_writes_column_refl|repeat split; auto]].
  destruct (columnExists idx w).
  { destruct (applyIndex_frame store index indexHandle indexName storeName w)
      as (Hfr & Hst & Htx).
    destruct (applyIndex_rest store index indexHandle indexName storeName w)
      as (Hsys & Hidx & Hoth).
    split; [exact Hfr|]. split; [exact Hsys|]. rewrite Hidx.
    split; [auto|]. split; [auto|]. split; [exact Hoth|]. split; assumption. }
  destruct (sql_add_column storeName (ix_name ix) (w_db w)) as [db|] eqn:Hadd;
    [|split; [apply only_writes_column_refl|repeat split; auto]].
  assert (Hsys0 : db_sys db = db_sys (w_db w) /\ db_sqlIndexes db = db_sqlIndexes (w_db w)).
  { revert Hadd. unfold sql_add_column.
    destruct (db_tables (w_db w) !! store_table storeName) as [t|]; [|discriminate].
    simpl. destruct (decide _); [discriminate|].
    intros Hadd. injection Hadd as <-. split; reflexivity. }
  destruct Hsys0 as [Hsys0 Hidx0].
  apply (sql_add_column_frame storeName indexName) in Hadd.
  unfold addIndexSQL. destruct CFG_useSQLiteIndexes.
  - destruct (sql_create_index_if_not_exists storeName (ix_name ix)
                (w_db (w_set_db db w))) as [db'|] eqn:Hci.
    2:{ simpl. rewrite Hsys0, Hidx0. split; [exact Hadd|]. repeat split; auto. }
    assert (Hdb' : db_tables db' = db_tables db /\ db_sys db' = db_sys db
                   /\ db_sqlIndexes db'
                      = {[ (storeName, Some (ix_name ix)) ]} ∪ db_sqlIndexes db).
    { revert Hci. unfold sql_create_index_if_not_exists. simpl.
      destruct (db_tables db !! store_table storeName) as [t|]; [|discriminate].
      simpl. destruct (decide _); [|discriminate].
      intros Hci. injection Hci as <-. repeat split. }
    destruct Hdb' as (Htab & Hsys' & Hidx').
    destruct (applyIndex_frame store index indexHandle indexName storeName
                (w_set_db db' (w_set_db db w))) as (Hfr & Hst & Htx).
    destruct (applyIndex_rest store index indexHandle indexName storeName
                (w_set_db db' (w_set_db db w))) as (Hsys & Hidx & Hoth).
    simpl in Hsys, Hidx, Hoth.
    split; [eapply only_writes_column_trans; [exact Hadd|];
            eapply only_writes_column_trans; [|exact Hfr];
            apply only_writes_column_tables; exact Htab|].
    split; [intros s Hs; rewrite (Hsys s Hs), Hsys', Hsys0; reflexivity|].
    rewrite Hidx, Hidx', Hidx0.
    split; [intros i Hi; apply elem_of_union; right; exact Hi|].
    split; [|split; [exact Hoth|split; assumption]].
    intros i Hi. apply elem_of_union in Hi as [Hi|Hi]; [|left; exact Hi].
    apply elem_of_singleton in Hi as ->. right. exists ix. split; reflexivity.
  - destruct (applyIndex_frame store index indexHandle indexName storeName
                (w_set_db db w)) as (Hfr & Hst & Htx).
    destruct (applyIndex_rest store index indexHandle indexName storeName
                (w_set_db db w)) as (Hsys & Hidx & Hoth).
    simpl in Hsys, Hidx, Hoth.
    split; [eapply only_writes_column_trans; [exact Hadd|exact Hfr]|].
    split; [intros s Hs; rewrite (Hsys s Hs), Hsys0; reflexivity|].
    rewrite Hidx, Hidx0.
    split; [auto|]. split; [auto|]. split; [exact Hoth|]. split; assumption.
Qed.

Lemma backfill_outcome index s n (rows : list Row) seen (db : Database) :
  has_column db s n ->
  ix_unique index = true ->
  NoDup seen ->
  fst (addIndexEntry index s n rows seen db)
  = if decide (NoDup (omap (row_indexKey index) rows ++ seen))
    then BackfillDone
    else BackfillFailed (DOMException ConstraintError).
Proof.
  intros Hcol Hu. revert seen db Hcol.
  induction rows as [|r rows IH]; intros seen db Hcol Hseen; simpl.
  - rewrite decide_True by exact Hseen. reflexivity.
  - destruct (row_indexKey index r) as [e|] eqn:He; simpl;
      [|apply IH; assumption].
    rewrite Hu. simpl. case_bool_decide as Hin.
    + simpl. rewrite decide_False; [reflexivity|].
      intros Hnd. apply NoDup_cons in Hnd as [Hnot _]. apply Hnot.
      apply elem_of_app. right. exact Hin.
    + simpl.
      destruct (sql_update_col_has_column db s n e (row_key r) Hcol)
        as (db' & -> & Hcol' & _).
      rewrite (IH (e :: seen) db' Hcol') by (apply NoDup_cons; split; assumption).
      assert (Hperm : omap (row_indexKey index) rows ++ e :: seen
                      ≡ₚ e :: omap (row_indexKey index) rows ++ seen)
        by (symmetry; apply Permutation_middle).
      destruct (decide (NoDup (omap (row_indexKey index) rows ++ e :: seen)))
        as [Hnd|Hnd];
        [rewrite decide_True by (rewrite <- Hperm; exact Hnd)
        |rewrite decide_False by (rewrite <- Hperm; exact Hnd)]; reflexivity.
Qed.

Lemma sql_update_col_one_row (db : Database) s n v (r : Row) t pre post :
  db_tables db !! store_table s = Some t -> n ∈ tbl_columns t ->
  tbl_rows t = pre ++ r :: post ->
  NoDup (row_key <$> pre ++ r :: post) ->
  exists db',
    sql_update_col s n v (row_key r) db = Some db'
    /\ db_tables db' !! store_table s
       = Some (mkTable (tbl_autoIncrement t) (tbl_columns t)
                 (pre ++ row_set_col n v r :: post)).
Proof.
  intros Ht Hn Hrows Hnd.
  destruct (sql_update_col_rows db s n v (row_key r) t Ht Hn) as (db' & Hupd & Ht').
  exists db'. split; [exact Hupd|]. rewrite Ht', Hrows. f_equal. f_equal.
  rewrite fmap_app in Hnd. apply NoDup_app in Hnd as (_ & Hdis & Hpost).
  rewrite fmap_cons in Hpost. apply NoDup_cons in Hpost as [Hr _].
  rewrite fmap_app, fmap_cons. rewrite decide_True by reflexivity.
  f_equal; [|f_equal].
  - rewrite <- (list_fmap_id pre) at 2. apply list_fmap_ext.
    intros i x Hx. simpl. rewrite decide_False; [reflexivity|].
    intros Hk. apply (Hdis (row_key x)).
    + apply list_elem_of_fmap. exists x. split; [reflexivity|].
      eapply list_elem_of_lookup_2; exact Hx.
    + rewrite fmap_cons, Hk. left.
  - rewrite <- (list_fmap_id post) at 2. apply list_fmap_ext.
    intros i x Hx. simpl. rewrite decide_False; [reflexivity|].
    intros Hk. apply Hr. rewrite <- Hk.
    apply list_elem_of_fmap. exists x. split; [reflexivity|].
    eapply list_elem_of_lookup_2; exact Hx.
Qed.

Lemma backfill_rows index s n (rows : list Row) seen (db : Database) t pre :
  db_tables db !! store_table s = Some t -> n ∈ tbl_columns t ->
  tbl_rows t = pre ++ rows ->
  NoDup (row_key <$> pre ++ rows) ->
  fst (addIndexEntry index s n rows seen db) = BackfillDone ->
  db_tables (snd (addIndexEntry index s n rows seen db)) !! store_table s
  = Some (mkTable (tbl_autoIncrement t) (tbl_columns t)
            (pre ++ (backfilled index n <$> rows))).
Proof.
  revert seen db t pre.
  induction rows as [|r rows IH]; intros seen db t pre Ht Hn Hrows Hnd; simpl.
  - intros _. rewrite Ht. rewrite app_nil_r in *. rewrite <- Hrows.
    destruct t; reflexivity.
  - unfold backfilled at 1.
    destruct (row_indexKey index r) as [e|] eqn:He.
    + destruct (ix_unique index && bool_decide (e ∈ seen)); [discriminate|].
      destruct (sql_update_col_one_row db s n e r t pre rows Ht Hn Hrows Hnd)
        as (db' & -> & Ht').
      intros Hdone.
      rewrite (IH _ db' _ (pre ++ [row_set_col n e r]) Ht' Hn); simpl.
      * rewrite <- app_assoc. reflexivity.
      * rewrite <- app_assoc. reflexivity.
      * rewrite <- app_assoc. simpl.
        rewrite !fmap_app, !fmap_cons in *. exact Hnd.
      * exact Hdone.
    + intros Hdone.
      rewrite (IH seen db t (pre ++ [r]) Ht Hn); simpl.
      * rewrite <- app_assoc. reflexivity.
      * rewrite <- app_assoc. exact Hrows.
      * rewrite <- app_assoc. exact Hnd.
      * exact Hdone.
Qed.

(** X14: whenever the queued [createIndex] step succeeds on a table whose
    records have distinct primary keys, the table holds the same records
    in the same order, each with the encoded index key of its own value
    written into the index column and a record without index key left as
    it was.  The index is then neither pending-create nor deleted. *)
Theorem createIndex_task_backfills (w : World) store index indexHandle indexName
    storeName idx os ix t indexList :
  creation_ready w store index indexName storeName idx os ix t indexList ->
  NoDup (row_key <$> tbl_rows t) ->
  fst (run_createIndex store index indexHandle indexName storeName idx w)
  = TaskSuccess (ResStore store) ->
  exists cols ix',
    db_tables
      (w_db (snd (run_createIndex store index indexHandle indexName storeName idx w)))
      !! store_table storeName
    = Some (mkTable (tbl_autoIncrement t) cols
              (backfilled ix indexName <$> tbl_rows t))
    /\ indexName ∈ cols
    /\ w_indexes
         (snd (run_createIndex store index indexHandle indexName storeName idx w))
         !! index = Some ix'
    /\ ix_pendingCreate ix' = false /\ ix_deleted ix' = false
    /\ ix_recreated ix' = ix_deleted ix || ix_recreated ix.
Proof.
  intros Hready Hkeys.
  destruct (run_createIndex_backfill w store index indexHandle indexName storeName
              idx os ix t indexList Hready) as (db1 & cols & Ht1 & Hcol & _ & ->).
  pose proof (backfill_rows ix storeName indexName (tbl_rows t) [] db1
                (mkTable (tbl_autoIncrement t) cols (tbl_rows t)) []
                Ht1 Hcol eq_refl Hkeys) as Hrows.
  destruct (addIndexEntry ix storeName indexName (tbl_rows t) [] db1)
    as [[|e] db2]; [|discriminate].
  intros _. specialize (Hrows eq_refl). simpl in Hrows.
  pose proof (cr_index _ _ _ _ _ _ _ _ _ _ Hready) as Hix.
  unfold finish_createIndex. simpl.
  destruct (decide (indexHandle = index)) as [->|Hne].
  - rewrite !lookup_alter_eq, Hix. simpl.
    destruct (ix_deleted ix) eqn:Hd; simpl.
    + rewrite !lookup_alter_eq, Hix. simpl.
      eexists cols, _. split; [exact Hrows|]. split; [exact Hcol|].
      split; [reflexivity|]. simpl. repeat split.
    + rewrite !lookup_alter_eq, Hix. simpl.
      eexists cols, _. split; [exact Hrows|]. split; [exact Hcol|].
      split; [reflexivity|]. simpl. rewrite Hd. repeat split.
  - rewrite lookup_alter_ne, lookup_alter_eq, Hix by congruence. simpl.
    destruct (ix_deleted ix) eqn:Hd; simpl.
    + rewrite !lookup_alter_ne, !lookup_alter_eq by congruence.
      rewrite lookup_alter_ne, lookup_alter_eq, Hix by congruence. simpl.
      eexists cols, _. split; [exact Hrows|]. split; [exact Hcol|].
      split; [reflexivity|]. simpl. repeat split.
    + rewrite lookup_alter_ne, lookup_alter_eq, Hix by congruence. simpl.
      eexists cols, _. split; [exact Hrows|]. split; [exact Hcol|].
      split; [reflexivity|]. simpl. rewrite Hd. repeat split.
Qed.

(** *** The table rebuild of a rename *)

Lemma create_indexes_run s (kept : list string) rest (db : Database) t :
  db_tables db !! store_table s = Some t ->
  NoDup kept ->
  Forall (fun c => c ∈ tbl_columns t) kept ->
  (forall c, c ∈ kept -> (s, Some c) ∉ db_sqlIndexes db) ->
  exists db',
    run_statements (((fun c => sql_create_index s (Some c)) <$> kept) ++ rest) db
    = run_statements rest db'
    /\ db_tables db' = db_tables db /\ db_sys db' = db_sys db
    /\ forall i, i ∈ db_sqlIndexes db'
         <-> i ∈ db_sqlIndexes db \/ exists c, c ∈ kept /\ i = (s, Some c).
Proof.
  revert db. induction kept as [|c kept IH]; intros db Ht Hnd Hcols Hnew.
  - exists db. repeat split; [tauto|].
    intros [?|(c & Hc & _)]; [assumption|]. apply elem_of_nil in Hc as [].
  - apply NoDup_cons in Hnd as [Hc Hnd]. apply Forall_cons in Hcols as [Hcol Hcols].
    simpl. unfold sql_create_index at 1. rewrite Ht. simpl.
    rewrite decide_False by (apply Hnew; left).
    rewrite bool_decide_eq_true_2 by exact Hcol.
    destruct (IH (db_set_sqlIndexes ({[(s, Some c)]} ∪ db_sqlIndexes db) db))
      as (db' & Hrun & Htab & Hsys & Hidx); [exact Ht|exact Hnd|exact Hcols| |].
    { intros c' Hc'. simpl. rewrite elem_of_union, elem_of_singleton.
      intros [Heq|Hin].
      - injection Heq as ->. contradiction.
      - apply (Hnew c'); [right; exact Hc'|exact Hin]. }
    exists db'. split; [exact Hrun|]. split; [exact Htab|]. split; [exact Hsys|].
    intros i. rewrite Hidx. simpl. rewrite elem_of_union, elem_of_singleton.
    split.
    + intros [[->|Hi]|(c' & Hc' & ->)].
      * right. exists c. split; [left|reflexivity].
      * left. exact Hi.
      * right. exists c'. split; [right; exact Hc'|reflexivity].
    + intros [Hi|(c' & Hc' & ->)].
      * left. right. exact Hi.
      * apply elem_of_cons in Hc' as [->|Hc'].
        -- left. left. reflexivity.
        -- right. exists c'. split; [exact Hc'|reflexivity].
Qed.

Lemma project_row_cols kept oldName newName (r : Row) c :
  row_cols (project_row kept oldName newName r) !! c
  = if decide (c = newName)
    then match row_cols r !! oldName with
         | Some v => Some v
         | None => if decide (newName ∈ kept) then row_cols r !! newName else None
         end
    else if decide (c ∈ kept) then row_cols r !! c else None.
Proof.
  unfold project_row. simpl.
  assert (Hfilter : forall k,
    filter (fun kv : string * EncodedKey => kv.1 ∈ kept) (row_cols r) !! k
    = if decide (k ∈ kept) then row_cols r !! k else None).
  { intros k. destruct (decide (k ∈ kept)) as [Hk|Hk].
    - destruct (row_cols r !! k) as [v|] eqn:Hv.
      + apply map_lookup_filter_Some. split; [exact Hv|exact Hk].
      + apply map_lookup_filter_None. left. exact Hv.
    - apply map_lookup_filter_None. right. intros v _. exact Hk. }
  destruct (row_cols r !! oldName) as [v|].
  - destruct (decide (c = newName)) as [->|Hne].
    + apply lookup_insert_eq.
    + rewrite lookup_insert_ne by congruence. apply Hfilter.
  - destruct (decide (c = newName)) as [->|Hne]; apply Hfilter.
Qed.

Lemma sql_rebuild_result (db : Database) storeName oldName newName
    autoIncrement kept t :
  db_tables db !! store_table storeName = Some t ->
  db_tables db !! tmp_table storeName = None ->
  NoDup (kept ++ [newName]) ->
  Forall (fun c => c ∈ tbl_columns t) (oldName :: kept) ->
  exists db',
    sql_rebuild storeName oldName newName autoIncrement kept db = (true, db')
    /\ db_tables db'
       = <[store_table storeName :=
             mkTable autoIncrement (kept ++ [newName])
               (project_row kept oldName newName <$> tbl_rows t)]> (db_tables db)
    /\ (forall (r : Row) c,
          row_key (project_row kept oldName newName r) = row_key r
          /\ row_value (project_row kept oldName newName r) = row_value r
          /\ row_cols (project_row kept oldName newName r) !! c
             = if decide (c = newName) then row_cols r !! oldName
               else if decide (c ∈ kept) then row_cols r !! c else None)
    /\ db_sys db' = db_sys db
    /\ forall i, i ∈ db_sqlIndexes db'
         <-> (i.1 <> storeName /\ i ∈ db_sqlIndexes db)
             \/ (CFG_useSQLiteIndexes = true /\ i.1 = storeName
                 /\ (i.2 = None \/ exists c, c ∈ kept /\ i.2 = Some c)).
Proof.
  intros Ht Htmp Hnd Hcols.
  assert (Hnew : newName ∉ kept).
  { apply NoDup_app in Hnd as (_ & Hdis & _). intros Hin.
    apply (Hdis newName Hin). left. }
  assert (Hkept : NoDup kept) by (apply NoDup_app in Hnd as (? & _); assumption).
  assert (Hne : tmp_table storeName <> store_table storeName) by discriminate.
  set (t' := mkTable autoIncrement (kept ++ [newName])
               (project_row kept oldName newName <$> tbl_rows t)).
  set (tables' := <[store_table storeName := t']> (db_tables db)).
  assert (Hfour : forall rest,
    run_statements
      ([ sql_create_table (tmp_table storeName) autoIncrement (kept ++ [newName]);
         sql_insert_select (tmp_table storeName) (store_table storeName)
           kept oldName newName;
         sql_drop_table storeName;
         sql_rename_tmp_table storeName ] ++ rest) db
    = run_statements rest
        (mkDatabase tables' (db_sys db)
           (filter (fun i => i.1 <> storeName) (db_sqlIndexes db)))).
  { assert (Hins : forall (x : Table) m,
      <[tmp_table storeName := x]> m !! store_table storeName
      = m !! store_table storeName)
      by (intros; apply lookup_insert_ne; exact Hne).
    assert (Hdel : forall m : gmap TableId Table,
      delete (store_table storeName) m !! tmp_table storeName
      = m !! tmp_table storeName)
      by (intros; apply lookup_delete_ne; congruence).
    intros rest. simpl. unfold sql_create_table. rewrite Htmp.
    rewrite decide_True by exact Hnd.
    unfold sql_insert_select. simpl.
    rewrite Hins, Ht. simpl.
    rewrite lookup_insert_eq. simpl. rewrite decide_True by exact Hcols.
    unfold sql_drop_table. simpl.
    rewrite !Hins, Ht. simpl.
    unfold sql_rename_tmp_table. simpl.
    rewrite Hdel, lookup_insert_eq. simpl.
    rewrite lookup_delete_eq. f_equal. unfold db_set_tables, db_set_sqlIndexes.
    simpl. f_equal. apply map_eq. intros id. unfold tables'.
    destruct (decide (id = store_table storeName)) as [->|Hid].
    - rewrite !lookup_insert_eq. reflexivity.
    - rewrite !lookup_insert_ne by congruence.
      destruct (decide (id = tmp_table storeName)) as [->|Hid'].
      + rewrite lookup_delete_eq, Htmp. reflexivity.
      + rewrite !lookup_delete_ne, !lookup_insert_ne by congruence. reflexivity. }
  assert (Hrow : forall (r : Row) c,
    row_key (project_row kept oldName newName r) = row_key r
    /\ row_value (project_row kept oldName newName r) = row_value r
    /\ row_cols (project_row kept oldName newName r) !! c
       = if decide (c = newName) then row_cols r !! oldName
         else if decide (c ∈ kept) then row_cols r !! c else None).
  { intros r c. split; [reflexivity|]. split; [reflexivity|].
    rewrite project_row_cols. destruct (decide (c = newName)); [|reflexivity].
    rewrite decide_False by exact Hnew. destruct (row_cols r !! oldName); reflexivity. }
  unfold sql_rebuild. destruct CFG_useSQLiteIndexes.
  - rewrite Hfour.
    destruct (create_indexes_run storeName kept
                [fun db => Some (sql_drop_key_index storeName db);
                 sql_create_index storeName None]
                (mkDatabase tables' (db_sys db)
                   (filter (fun i => i.1 <> storeName) (db_sqlIndexes db))) t')
      as (db1 & -> & Htab & Hsys & Hidx); simpl.
    + unfold tables'. apply lookup_insert_eq.
    + exact Hkept.
    + apply Forall_forall. intros c Hc. apply elem_of_app. left. exact Hc.
    + intros c _ Hin. apply elem_of_filter in Hin as [Hin _]. apply Hin. reflexivity.
    + unfold sql_create_index. simpl. rewrite Htab. simpl.
      unfold tables' at 1. rewrite lookup_insert_eq. simpl.
      rewrite decide_False
        by (intros Hin; apply elem_of_difference in Hin as [_ Hn];
            apply Hn, elem_of_singleton; reflexivity).
      simpl.
      eexists. split; [reflexivity|]. simpl.
      split; [exact Htab|]. split; [exact Hrow|]. split; [exact Hsys|].
      intros [s o]. rewrite elem_of_union, elem_of_singleton, elem_of_difference, Hidx.
      simpl. rewrite elem_of_filter, elem_of_singleton. simpl.
      split.
      * intros [Heq|[[[Hs Hin]|(c & Hc & Heq)] Hnk]].
        -- injection Heq as -> ->. right. auto.
        -- left. auto.
        -- injection Heq as -> ->. right. split; [reflexivity|].
           split; [reflexivity|]. right. exists c. auto.
      * intros [[Hs Hin]|(_ & -> & [->|(c & Hc & ->)])].
        -- right. split; [left; auto|]. intros Heq. injection Heq as -> _.
           contradiction.
        -- left. reflexivity.
        -- right. split; [right; exists c; auto|]. discriminate.
  - rewrite app_nil_r.
    specialize (Hfour []). rewrite app_nil_r in Hfour. rewrite Hfour. simpl.
    eexists. split; [reflexivity|]. simpl.
    split; [reflexivity|]. split; [exact Hrow|]. split; [reflexivity|].
    intros i. rewrite elem_of_filter. split.
    + intros [? ?]. left. auto.
    + intros [[? ?]|(Hf & _)]; [auto|discriminate].
Qed.

Lemma build_indexList_names indexes (os : IDBObjectStoreObj) il k :
  (forall n, n ∈ os_indexNames os ->
     exists l idx, os_indexes os !! n = Some l /\ indexes !! l = Some idx
                   /\ ix_name idx = n) ->
  build_indexList indexes os (os_indexNames os) ∅ = Some il ->
  is_Some (il !! k) <-> k ∈ os_indexNames os.
Proof.
  intros Hres Hil.
  destruct (build_indexList_resolved indexes os (os_indexNames os) ∅ Hres)
    as (il' & Hil' & Hlook).
  rewrite Hil in Hil'. injection Hil' as <-. rewrite Hlook.
  destruct (decide (k ∈ os_indexNames os)) as [Hk|Hk].
  - destruct (Hres k Hk) as (l & idx & -> & Hidx & _). simpl. rewrite Hidx.
    simpl. split; [intros _; exact Hk|intros _; eexists; reflexivity].
  - rewrite lookup_empty. split; [intros [? ?]; discriminate|contradiction].
Qed.

(** X15: the queued [renameIndex] step succeeds whenever the store's table
    exists, no shadow table is left over, and the old column and the
    columns to preserve are columns of the table, distinct from each other
    and from the new name.  The store's table then has the preserved
    columns followed by the new one and holds the same records in the same
    order: key and value unchanged, the new column holding what the old
    column held, each preserved column what it held, and no other column.
    No other table changes.  The storage-level indexes of the store are
    dropped with the table, and recreated for the preserved columns and
    the key only when [useSQLiteIndexes] is set; none is created for the
    renamed column.  With the callback of the [name] setter, the index list
    persisted holds exactly the listed names and the store handle loses its
    [__pendingName]; no index descriptor changes. *)
Theorem renameIndex_task (w : World) storeName oldName newName autoIncrement
    kept cb t :
  db_tables (w_db w) !! store_table storeName = Some t ->
  db_tables (w_db w) !! tmp_table storeName = None ->
  NoDup (kept ++ [newName]) ->
  Forall (fun c => c ∈ tbl_columns t) (oldName :: kept) ->
  (forall store storeHandle, cb = Some (store, storeHandle) ->
     exists os, w_stores w !! store = Some os /\ names_resolved (w_indexes w) os) ->
  exists w',
    run_renameIndex storeName oldName newName autoIncrement kept cb w
    = (TaskSuccess (match cb with
                    | Some (store, _) => ResStore store
                    | None => ResUndefined
                    end), w')
    /\ db_tables (w_db w')
       = <[store_table storeName :=
             mkTable autoIncrement (kept ++ [newName])
               (project_row kept oldName newName <$> tbl_rows t)]>
           (db_tables (w_db w))
    /\ (forall (r : Row) c,
          row_key (project_row kept oldName newName r) = row_key r
          /\ row_value (project_row kept oldName newName r) = row_value r
          /\ row_cols (project_row kept oldName newName r) !! c
             = if decide (c = newName) then row_cols r !! oldName
               else if decide (c ∈ kept) then row_cols r !! c else None)
    /\ (forall i, i ∈ db_sqlIndexes (w_db w')
          <-> (i.1 <> storeName /\ i ∈ db_sqlIndexes (w_db w))
              \/ (CFG_useSQLiteIndexes = true /\ i.1 = storeName
                  /\ (i.2 = None \/ exists c, c ∈ kept /\ i.2 = Some c)))
    /\ (forall store storeHandle os indexList k,
          cb = Some (store, storeHandle) -> w_stores w !! store = Some os ->
          db_sys (w_db w') !! IDBObjectStore_currentName os = Some indexList ->
          is_Some (indexList !! k) <-> k ∈ os_indexNames os)
    /\ w_indexes w' = w_indexes w
    /\ w_transactions w' = w_transactions w
    /\ w_stores w'
       = match cb with
         | Some (_, storeHandle) =>
             alter (os_set_pendingName None) storeHandle (w_stores w)
         | None => w_stores w
         end.
Proof.
  intros Ht Htmp Hnd Hcols Hcb.
  destruct (sql_rebuild_result (w_db w) storeName oldName newName autoIncrement
              kept t Ht Htmp Hnd Hcols) as (db' & Hrun & Htab & Hrow & Hsys & Hidx).
  unfold run_renameIndex. rewrite Hrun.
  destruct cb as [[store storeHandle]|].
  - destruct (Hcb store storeHandle eq_refl) as (os & Hos & Hres).
    destruct (build_indexList_resolved (w_indexes w) os (os_indexNames os) ∅ Hres)
      as (il & Hil & Hlook).
    unfold IDBIndex__updateIndexList. simpl. rewrite Hos. simpl. rewrite Hil.
    simpl. eexists. split; [reflexivity|]. simpl.
    split; [exact Htab|]. split; [exact Hrow|]. split; [exact Hidx|].
    split; [|repeat split].
    intros store' sh' os' indexList k Heq Hos' Hlist.
    injection Heq as <- <-. rewrite Hos in Hos'. injection Hos' as <-.
    destruct (db_sys db' !! IDBObjectStore_currentName os) as [old|] eqn:Hold;
      rewrite lookup_alter_eq, Hold in Hlist; [|discriminate].
    injection Hlist as <-.
    apply (build_indexList_names (w_indexes w) os il k Hres Hil).
  - eexists. split; [reflexivity|]. simpl.
    split; [exact Htab|]. split; [exact Hrow|]. split; [exact Hidx|].
    split; [|repeat split]. intros ? ? ? ? ? Heq. discriminate.
Qed.

(** *** A rename from the setter to the rebuilt table *)

Lemma set_name_world (w : World) me ix os tx l newName storeHandle sh h ho :
  rename_guards_pass w me ix os tx ->
  os_transaction os = Some l ->
  newName <> ix_name ix ->
  os_indexes os !! newName = None ->
  tx_storeHandles tx !! os_name os = Some storeHandle ->
  w_stores w !! storeHandle = Some sh ->
  os_indexHandles sh !! ix_name ix = Some h ->
  w_indexes w !! h = Some ho ->
  exists w' os',
    IDBIndex_set_name me newName w = (inr tt, w')
    /\ w_indexes w'
       = alter (ix_set_pendingName (Some (ix_name ix))) me
           (alter (ix_set_name newName) h
              (alter (ix_set_name newName) me (w_indexes w)))
    /\ w_stores w' !! ix_objectStore ix = Some os'
    /\ os_indexNames os' = splice_replace (ix_name ix) newName (os_indexNames os)
    /\ os_indexes os' = <[newName := me]> (delete (ix_name ix) (os_indexes os))
    /\ w_db w' = w_db w
    /\ w_transactions w'
       = alter (fun o =>
                  tx_set_queue
                    (tx_queue o ++
                     [(NonRequest,
                       renameIndex (IDBObjectStore_currentName os')
                         (ix_name ix) newName (os_autoIncrement os)
                         (filter (fun n => n <> newName)
                            (splice_replace (ix_name ix) newName (os_indexNames os)))
                         (Some (ix_objectStore ix, storeHandle)))]) o)
           l (w_transactions w).
Proof.
  intros Hg Hl Hne Hfree Hsh Hshobj Hh Hho.
  rewrite (set_name_guarded w me ix os tx _ Hg).
  destruct Hg as [Hix Hos (l' & Hl' & Htx) Hv Ha Hd Hp He].
  rewrite Hl in Hl'. injection Hl' as <-.
  unfold set_name_checked. rewrite decide_False by assumption.
  unfold live_index_named. rewrite Hfree.
  unfold IDBIndex__renameIndex, addToTransactionQueue. unfold_m.
  destruct (decide (storeHandle = ix_objectStore ix)) as [->|Hneq];
    try (rewrite Hos in Hshobj; injection Hshobj as <-);
    repeat heap_read;
    eexists _, _; (split; [reflexivity|]);
    repeat heap_read;
    repeat split; reflexivity.
Qed.

Lemma splice_replace_listed x y (l : list string) :
  NoDup l -> x ∈ l -> y ∉ l ->
  filter (fun n => n <> y) (splice_replace x y l) = filter (fun n => n <> x) l
  /\ forall n, n ∈ splice_replace x y l <-> n = y \/ (n ∈ l /\ n <> x).
Proof.
  unfold splice_replace. induction l as [|z l IH]; intros Hnd Hx Hy.
  - apply elem_of_nil in Hx as [].
  - apply NoDup_cons in Hnd as [Hz Hnd]. apply not_elem_of_cons in Hy as [Hyz Hy].
    simpl. destruct (decide (z = x)) as [->|Hne].
    + simpl. rewrite filter_cons_False by tauto.
      rewrite filter_cons_False by tauto.
      rewrite !filter_other_names by assumption. split; [reflexivity|].
      intros n. rewrite !elem_of_cons. split.
      * intros [->|Hn]; [left; reflexivity|].
        right. split; [right; exact Hn|]. intros ->. contradiction.
      * intros [->|[[->|Hn] Hnx]]; [left; reflexivity|contradiction|right; exact Hn].
    + apply elem_of_cons in Hx as [->|Hx]; [congruence|].
      destruct (IH Hnd Hx Hy) as [IHf IHm].
      destruct (indexOf_listed x l Hx) as [i Hi]. rewrite Hi in *. simpl.
      rewrite !filter_cons_True by congruence. split; [f_equal; exact IHf|].
      intros n. rewrite !elem_of_cons, IHm. split.
      * intros [->|[->|[Hn Hnx]]]; [right; split; [left; reflexivity|congruence]
                                    |left; reflexivity|right; split; [right|]; assumption].
      * intros [->|[[->|Hn] Hnx]]; [right; left; reflexivity|left; reflexivity
                                    |right; right; split; assumption].
Qed.

(** X16: a rename end to end.  On a store with distinct index names, all
    resolved, whose handle for the index carries the index's name, setting
    [name] to an unused name returns normally and queues one step; when
    the store's table has a column for every listed index and no shadow
    table is left over, that step succeeds and leaves a table whose columns
    are the other indexes' followed by the new name, with every record
    keeping its key, its value and its entries, those of the old column now
    under the new name.  The index list persisted names the new name and no
    longer the old one, and the index and its handle answer to the new
    name. *)
Theorem rename_end_to_end (w : World) me ix os tx l newName storeHandle sh h ho :
  rename_guards_pass w me ix os tx ->
  os_transaction os = Some l ->
  os_indexes os !! newName = None ->
  tx_storeHandles tx !! os_name os = Some storeHandle ->
  w_stores w !! storeHandle = Some sh ->
  os_indexHandles sh !! ix_name ix = Some h ->
  w_indexes w !! h = Some ho ->
  ix_name ho = ix_name ix ->
  NoDup (os_indexNames os) ->
  ix_name ix ∈ os_indexNames os ->
  newName ∉ os_indexNames os ->
  names_resolved (w_indexes w) os ->
  let others := filter (fun n => n <> ix_name ix) (os_indexNames os) in
  exists w1 os1 task,
    IDBIndex_set_name me newName w = (inr tt, w1)
    /\ w_stores w1 !! ix_objectStore ix = Some os1
    /\ tx_queue <$> w_transactions w1 !! l
       = Some (tx_queue tx ++ [(NonRequest, task)])
    /\ forall t,
         db_tables (w_db w) !! store_table (IDBObjectStore_currentName os1) = Some t ->
         db_tables (w_db w) !! tmp_table (IDBObjectStore_currentName os1) = None ->
         Forall (fun c => c ∈ tbl_columns t) (os_indexNames os) ->
         exists w2,
           run_task task w1 = (TaskSuccess (ResStore (ix_objectStore ix)), w2)
           /\ db_tables (w_db w2) !! store_table (IDBObjectStore_currentName os1)
              = Some (mkTable (os_autoIncrement os) (others ++ [newName])
                        (project_row others (ix_name ix) newName <$> tbl_rows t))
           /\ (forall indexList,
                 db_sys (w_db w2) !! IDBObjectStore_currentName os1 = Some indexList ->
                 is_Some (indexList !! newName) /\ indexList !! ix_name ix = None)
           /\ ix_name <$> w_indexes w2 !! me = Some newName
           /\ ix_name <$> w_indexes w2 !! h = Some newName.
Proof.
  intros Hg Hl Hfree Hsh Hshobj Hh Hho Hhname Hnd Hold Hnew Hres others.
  assert (Hne : newName <> ix_name ix) by (intros ->; contradiction).
  destruct (set_name_world w me ix os tx l newName storeHandle sh h ho
              Hg Hl Hne Hfree Hsh Hshobj Hh Hho)
    as (w1 & os1 & Hset & Hidx1 & Hos1 & Hnames1 & Hmap1 & Hdb1 & Htx1).
  destruct Hg as [Hix Hos (l' & Hl' & Htx) Hv Ha Hd Hp He].
  rewrite Hl in Hl'. injection Hl' as <-.
  destruct (splice_replace_listed (ix_name ix) newName (os_indexNames os)
              Hnd Hold Hnew) as [Hfilter Hmem].
  eexists w1, os1, _. split; [exact Hset|]. split; [exact Hos1|].
  split; [rewrite Htx1, lookup_alter_eq, Htx; reflexivity|].
  rewrite Hfilter. fold others.
  assert (Hme1 : exists ix1, w_indexes w1 !! me = Some ix1 /\ ix_name ix1 = newName).
  { rewrite Hidx1, lookup_alter_eq.
    destruct (decide (h = me)) as [->|Hhme].
    - rewrite !lookup_alter_eq, Hix. eexists. split; reflexivity.
    - rewrite lookup_alter_ne, lookup_alter_eq, Hix by congruence.
      eexists. split; reflexivity. }
  assert (Hh1 : ix_name <$> w_indexes w1 !! h = Some newName).
  { rewrite Hidx1. destruct (decide (h = me)) as [->|Hhme].
    - rewrite !lookup_alter_eq, Hix. reflexivity.
    - rewrite lookup_alter_ne, lookup_alter_eq, lookup_alter_ne, Hho by congruence.
      reflexivity. }
  assert (Hres1 : names_resolved (w_indexes w1) os1).
  { intros n Hn. rewrite Hnames1 in Hn. apply Hmem in Hn as [->|[Hn Hnx]].
    - destruct Hme1 as (ix1 & Hix1 & Hname1). exists me, ix1.
      split; [rewrite Hmap1; apply lookup_insert_eq|]. split; assumption.
    - destruct (Hres n Hn) as (k & idx & Hk & Hidx & Hname).
      assert (Hkme : k <> me).
      { intros ->. rewrite Hix in Hidx. injection Hidx as <-. congruence. }
      assert (Hkh : k <> h).
      { intros ->. rewrite Hho in Hidx. injection Hidx as <-. congruence. }
      exists k, idx. split; [|split; [|exact Hname]].
      + rewrite Hmap1, lookup_insert_ne, lookup_delete_ne by congruence. exact Hk.
      + rewrite Hidx1, !lookup_alter_ne by congruence. exact Hidx. }
  intros t Ht Htmp Hcols. rewrite <- Hdb1 in Ht, Htmp.
  assert (Hkept : NoDup (others ++ [newName])).
  { apply NoDup_app. split; [apply NoDup_filter; exact Hnd|]. split.
    - intros n Hn Hin. apply list_elem_of_singleton in Hin as ->.
      apply list_elem_of_filter in Hn as [_ Hn]. contradiction.
    - apply NoDup_singleton. }
  assert (Hcols' : Forall (fun c => c ∈ tbl_columns t) (ix_name ix :: others)).
  { rewrite Forall_forall in Hcols. apply Forall_cons. split; [apply Hcols, Hold|].
    apply Forall_forall. intros c Hc. apply list_elem_of_filter in Hc as [_ Hc].
    apply Hcols, Hc. }
  destruct (sql_rebuild_result (w_db w1) (IDBObjectStore_currentName os1)
              (ix_name ix) newName (os_autoIncrement os) others t
              Ht Htmp Hkept Hcols') as (db' & Hrun & Htab & _ & Hsys & _).
  destruct (build_indexList_resolved (w_indexes w1) os1 (os_indexNames os1) ∅ Hres1)
    as (il & Hil & Hlook).
  simpl. unfold run_renameIndex. rewrite Hrun.
  unfold IDBIndex__updateIndexList. simpl. rewrite Hos1. simpl. rewrite Hil. simpl.
  eexists. split; [reflexivity|]. simpl.
  split; [rewrite Htab; apply lookup_insert_eq|].
  split; [|split; [destruct Hme1 as (ix1 & -> & <-); reflexivity|exact Hh1]].
  intros indexList Hlist.
  destruct (db_sys db' !! IDBObjectStore_currentName os1) as [old|] eqn:Holdl;
    rewrite lookup_alter_eq, Holdl in Hlist; [|discriminate].
  injection Hlist as <-. split.
  - apply (build_indexList_names (w_indexes w1) os1 il newName Hres1 Hil).
    rewrite Hnames1. apply Hmem. left. reflexivity.
  - destruct (il !! ix_name ix) as [p|] eqn:Hp'; [|reflexivity].
    assert (Hin : ix_name ix ∈ os_indexNames os1)
      by (apply (build_indexList_names (w_indexes w1) os1 il _ Hres1 Hil);
          eexists; exact Hp').
    rewrite Hnames1 in Hin. apply Hmem in Hin as [Heq|[_ Hc]]; congruence.
Qed.

(** *** What a queued step leaves alone *)

Lemma run_createIndex_objects store index indexHandle indexName storeName idx
    (w : World) :
  w_stores (snd (run_createIndex store index indexHandle indexName storeName idx w))
  = w_stores w
  /\ w_transactions
       (snd (run_createIndex store index indexHandle indexName storeName idx w))
     = w_transactions w.
Proof.
  unfold run_createIndex.
  destruct (w_indexes w !! index) as [ix|]; [|split; reflexivity].
  destruct (columnExists idx w); [apply applyIndex_frame|].
  destruct (sql_add_column storeName (ix_name ix) (w_db w)) as [db|];
    [|split; reflexivity].
  unfold addIndexSQL. destruct CFG_useSQLiteIndexes.
  - destruct (sql_create_index_if_not_exists storeName (ix_name ix)
                (w_db (w_set_db db w))) as [db'|]; [|split; reflexivity].
    apply (applyIndex_frame store index indexHandle indexName storeName
             (w_set_db db' (w_set_db db w))).
  - apply (applyIndex_frame store index indexHandle indexName storeName
             (w_set_db db w)).
Qed.

(** X17: running a queued step, whichever it is and however it ends,
    changes no transaction, so it never enqueues anything, and changes no
    object store except that the rename step removes [__pendingName] from
    the store handle; a fetch step changes nothing at all. *)
Theorem run_task_objects (t : Task) (w : World) :
  w_transactions (snd (run_task t w)) = w_transactions w
  /\ (forall l, os_set_pendingName None <$> w_stores (snd (run_task t w)) !! l
                = os_set_pendingName None <$> w_stores w !! l)
  /\ match t with
     | fetchIndexData _ _ _ _ _ _ _ _ => snd (run_task t w) = w
     | renameIndex _ _ _ _ _ _ => w_indexes (snd (run_task t w)) = w_indexes w
     | _ => w_stores (snd (run_task t w)) = w_stores w
     end.
Proof.
  destruct t as [store index indexHandle indexName storeName idx
                |store index indexHandle
                |storeName oldName newName autoIncrement cols cb
                |count unb index hasKey range opType multiChecks sql]; simpl.
  - destruct (run_createIndex_objects store index indexHandle indexName storeName
                idx w) as [Hst Htx].
    rewrite Hst, Htx. repeat split.
  - assert (Hfinish : forall w0 : World,
      w_transactions (snd (finishDeleteIndex store index indexHandle w0))
      = w_transactions w0
      /\ w_stores (snd (finishDeleteIndex store index indexHandle w0)) = w_stores w0).
    { intros w0. unfold finishDeleteIndex.
      destruct (IDBIndex__updateIndexList store w0) as [w1|] eqn:Hupd;
        [|split; reflexivity].
      apply updateIndexList_frame in Hupd as (_ & _ & Hst & Htx).
      simpl. split; assumption. }
    unfold run_deleteIndex. destruct CFG_useSQLiteIndexes.
    + destruct (w_stores w !! store) as [os|]; [|repeat split].
      destruct (w_indexes w !! index) as [ix|]; [|repeat split].
      destruct (Hfinish (w_set_db (sql_drop_index (os_name os) (ix_name ix) (w_db w)) w))
        as [Htx Hst].
      rewrite Htx, Hst. repeat split.
    + destruct (Hfinish w) as [Htx Hst]. rewrite Htx, Hst. repeat split.
  - split; [|split; [|apply run_renameIndex_keeps_indexes]].
    + unfold run_renameIndex.
      destruct (sql_rebuild storeName oldName newName autoIncrement cols (w_db w))
        as [[|] db]; [|reflexivity].
      destruct cb as [[store storeHandle]|]; [|reflexivity].
      destruct (IDBIndex__updateIndexList store (w_set_db db w)) as [w2|] eqn:Hupd;
        [|reflexivity].
      apply updateIndexList_frame in Hupd as (_ & _ & _ & Htx). exact Htx.
    + intros l. unfold run_renameIndex.
      destruct (sql_rebuild storeName oldName newName autoIncrement cols (w_db w))
        as [[|] db]; [|reflexivity].
      destruct cb as [[store storeHandle]|]; [|reflexivity].
      destruct (IDBIndex__updateIndexList store (w_set_db db w)) as [w2|] eqn:Hupd;
        [|reflexivity].
      apply updateIndexList_frame in Hupd as (_ & _ & Hst & _). simpl.
      rewrite Hst. simpl. destruct (decide (l = storeHandle)) as [->|Hne].
      * rewrite lookup_alter_eq. destruct (w_stores w !! storeHandle); reflexivity.
      * rewrite lookup_alter_ne by congruence. reflexivity.
  - repeat split.
Qed.

(** *** A count from the call to the result *)

(** X18: [count] without a query, from the call to the result.  On an
    index that passes the state guards the call returns normally and
    queues one request; when the store's table has the index column, that
    request resolves, leaving everything unchanged, to the number of
    records that have an entry in the index column, or, on a multi-entry
    index, to the sum of the numbers of elements of those entries. *)
Theorem count_end_to_end (w : World) me ix os tx l query t :
  fetch_guards_pass w me ix os tx ->
  os_transaction os = Some l ->
  is_nullish query = true ->
  db_tables (w_db w) !! store_table (IDBObjectStore_currentName os) = Some t ->
  ix_name ix ∈ tbl_columns t ->
  (ix_multiEntry ix = true -> exists enc, Key_encode query true = inr enc) ->
  let entries := filter (fun r => is_Some (row_cols r !! ix_name ix)) (tbl_rows t) in
  exists request w' task,
    IDBIndex_count me query = Some request
    /\ request w = (inr tt, w')
    /\ tx_queue <$> w_transactions w' !! l = Some (tx_queue tx ++ [(Request, task)])
    /\ run_task task w'
       = (TaskSuccess
            (ResCount (if ix_multiEntry ix
                       then sum_list (row_count (ix_name ix) <$> entries)
                       else length entries)), w').
Proof.
  intros Hg Hl Hn Ht Hcol Henc entries.
  destruct Hg as [Hix Hos (l' & Hl' & Htx) Ha Hd Hp He Hsd Hsp Hse].
  rewrite Hl in Hl'. injection Hl' as <-.
  assert (Hcall : exists w' task,
    IDBIndex__fetchIndexData me query OpCount false None w = (inr tt, w')
    /\ tx_queue <$> w_transactions w' !! l = Some (tx_queue tx ++ [(Request, task)])
    /\ run_task task w'
       = (TaskSuccess
            (ResCount (if ix_multiEntry ix
                       then sum_list (row_count (ix_name ix) <$> entries)
                       else length entries)), w')).
  { assert (Hexec : forall w0 : World,
      w_db w0 = w_db w -> w_indexes w0 = w_indexes w ->
      executeFetchIndexData None false me false query OpCount false
        {| sel_col := OpKey; sel_withIndexCol := ix_multiEntry ix;
           sel_store := IDBObjectStore_currentName os;
           sel_index := ix_name ix; sel_cond := CondNone;
           sel_orderBy := false; sel_limit := None |} w0
      = TaskSuccess
          (ResCount (if ix_multiEntry ix
                     then sum_list (row_count (ix_name ix) <$> entries)
                     else length entries))).
    { intros w0 Hdb0 Hidx0.
      unfold executeFetchIndexData, with_limit, sql_select. simpl.
      rewrite Hdb0, Hidx0, Ht. simpl.
      rewrite decide_True by (split; [exact Hcol|discriminate]).
      rewrite Hix.
      assert (Hrows :
        filter (fun r : Row =>
                  row_selected
                    {| sel_col := OpKey; sel_withIndexCol := ix_multiEntry ix;
                       sel_store := IDBObjectStore_currentName os;
                       sel_index := ix_name ix; sel_cond := CondNone;
                       sel_orderBy := false; sel_limit := None |} r = true)
          (tbl_rows t) = entries).
      { apply list_filter_iff. intros r. unfold row_selected. simpl.
        destruct (row_cols r !! ix_name ix) as [v|]; simpl.
        - split; [intros _; eexists; reflexivity|reflexivity].
        - split; [discriminate|intros [? ?]; discriminate]. }
      rewrite Hrows.
      destruct (ix_multiEntry ix) eqn:Hm.
      - destruct (Henc eq_refl) as [enc Hq].
        rewrite (count_without_filter ix query enc entries Hm Hq). reflexivity.
      - unfold fetch_callback. rewrite Hm.
        destruct (plain_loop_count entries []) as [recs Hloop]. rewrite Hloop.
        apply plain_loop_length in Hloop. simpl in Hloop. rewrite Hloop.
        reflexivity. }
    unfold IDBIndex__fetchIndexData. unfold_m.
    rewrite (index_invalidStateIfDeleted_pass w me ix os l tx Hix Hos Hl Htx Hd Hp He).
    rewrite Hix. simpl. rewrite Hos. simpl.
    rewrite (store_guard_on_store w os l tx Hl Htx Hsd Hsp Hse).
    rewrite Hsd. rewrite Hl.
    rewrite (assertActive_pass w l tx Htx Ha).
    unfold buildFetchIndexDataSQL. unfold_m. rewrite Hix. simpl. rewrite Hos. simpl.
    rewrite Hn. simpl. unfold addToTransactionQueue. unfold_m. rewrite Htx. simpl.
    eexists _, _. split; [reflexivity|]. simpl.
    split; [rewrite lookup_alter_eq, Htx; reflexivity|].
    simpl. rewrite Hexec by reflexivity. reflexivity. }
  destruct Hcall as (w' & task & Hcall & Hq & Hrun).
  exists (IDBIndex__fetchIndexData me query OpCount false None), w', task.
  split; [|split; [exact Hcall|split; [exact Hq|exact Hrun]]].
  destruct query; try reflexivity; discriminate.
Qed.

(** X19: creating an index under a name whose column is still in the
    table, as after the deletion of an index of that name, adds no column:
    when the step succeeds on a table with distinct primary keys, the
    table has the columns it had, and every record for which the new index
    yields no key is in it unchanged, so it still carries in that column
    whatever the earlier index had written there. *)
Theorem createIndex_reuses_column (w : World) store index indexHandle indexName
    storeName idx os ix t indexList :
  creation_ready w store index indexName storeName idx os ix t indexList ->
  indexName ∈ tbl_columns t ->
  NoDup (row_key <$> tbl_rows t) ->
  fst (run_createIndex store index indexHandle indexName storeName idx w)
  = TaskSuccess (ResStore store) ->
  exists t',
    db_tables
      (w_db (snd (run_createIndex store index indexHandle indexName storeName idx w)))
      !! store_table storeName = Some t'
    /\ tbl_columns t' = tbl_columns t
    /\ forall r, r ∈ tbl_rows t -> row_indexKey ix r = None -> r ∈ tbl_rows t'.
Proof.
  intros [Hos Hix Hname Hil Ht Hcol] Hin Hkeys.
  unfold run_createIndex. rewrite Hix, Hcol.
  rewrite bool_decide_eq_true_2 by exact Hin.
  unfold applyIndex, IDBIndex__updateIndexList. rewrite Hos. simpl. rewrite Hil.
  simpl. unfold sql_select_all. simpl. rewrite Ht. simpl. rewrite Hix.
  pose proof (backfill_rows ix storeName indexName (tbl_rows t) []
                (sql_update_indexList (IDBObjectStore_currentName os) indexList (w_db w))
                t [] Ht Hin eq_refl Hkeys) as Hrows.
  destruct (addIndexEntry ix storeName indexName (tbl_rows t) []
              (sql_update_indexList (IDBObjectStore_currentName os) indexList (w_db w)))
    as [[|e] db2]; [|discriminate].
  intros _. specialize (Hrows eq_refl). simpl in Hrows.
  assert (Hdb : w_db (finish_createIndex index indexHandle
                        (w_set_db db2
                           (w_set_db (sql_update_indexList
                                        (IDBObjectStore_currentName os) indexList
                                        (w_db w)) w))) = db2)
    by apply finish_createIndex_frame.
  simpl. rewrite Hdb, Hrows. eexists. split; [reflexivity|]. simpl.
  split; [reflexivity|]. intros r Hr Hnone.
  apply list_elem_of_fmap. exists r. split; [|exact Hr].
  unfold backfilled. rewrite Hnone. reflexivity.
Qed.

(** *** Creating an index from the call to the populated column *)

Lemma createIndex_fresh_called (w : World) store index ix os l tx :
  w_indexes w !! index = Some ix ->
  w_stores w !! store = Some os ->
  os_transaction os = Some l ->
  w_transactions w !! l = Some tx ->
  os_indexHandles os !! ix_name ix = None ->
  exists w1 h,
    IDBIndex__createIndex store index w = (inr tt, w1)
    /\ w_indexes w !! h = None
    /\ h <> index
    /\ w_indexes w1
       = alter (fun o =>
                  mkIndex (ix_objectStore o) (ix_name o) (ix_originalName ix)
                    (ix_keyPath o) (ix_multiEntry o) (ix_unique o) (ix_deleted ix)
                    (ix_pendingDelete ix) true (ix_recreated ix) (ix_pendingName o))
           h (<[h := mkIndex store (ix_name ix) (ix_name ix) (ix_keyPath ix)
                       (ix_multiEntry ix) (ix_unique ix) false false false false
                       None]>
                (alter (ix_set_pendingCreate true) index (w_indexes w)))
    /\ w_stores w1
       = alter (fun o => os_set_indexHandles
                           (<[ix_name ix := h]> (os_indexHandles o)) o)
           store
           (alter (fun o => os_set_indexes (<[ix_name ix := index]> (os_indexes o))
                              (os_set_indexNames (os_indexNames o ++ [ix_name ix]) o))
              store (w_stores w))
    /\ w_db w1 = w_db w
    /\ w_transactions w1
       = alter (fun o =>
                  tx_set_queue
                    (tx_queue o ++
                     [(NonRequest,
                       createIndex store index h (ix_name ix)
                         (IDBObjectStore_currentName os)
                         (os_indexes os !! ix_name ix))]) o)
           l (w_transactions w).
Proof.
  intros Hix Hos Hl Htx Hh.
  assert (Hnew : alter (ix_set_pendingCreate true) index (w_indexes w)
                 !! fresh (dom (alter (ix_set_pendingCreate true) index (w_indexes w)))
                 = None) by apply fresh_index_unallocated.
  assert (Hne : fresh (dom (alter (ix_set_pendingCreate true) index (w_indexes w)))
                <> index).
  { intros Heq. rewrite Heq, lookup_alter_eq, Hix in Hnew. discriminate. }
  assert (Hold : w_indexes w
                 !! fresh (dom (alter (ix_set_pendingCreate true) index (w_indexes w)))
                 = None).
  { rewrite lookup_alter_ne in Hnew by congruence. exact Hnew. }
  unfold IDBIndex__createIndex, IDBIndex__clone, IDBIndex__createInstance,
    addToTransactionQueue.
  unfold_m. rewrite Hix. simpl. rewrite Hos. simpl.
  rewrite lookup_alter_eq, Hix. simpl. rewrite lookup_alter_eq, Hos. simpl.
  rewrite Hh. simpl. rewrite !lookup_alter_eq, Hos. simpl. rewrite Hl. simpl.
  rewrite Htx. simpl.
  eexists _, _. split; [reflexivity|]. simpl.
  split; [exact Hold|]. split; [exact Hne|]. repeat split.
Qed.

Lemma run_createIndex_fresh (w : World) store index indexHandle indexName
    storeName idx os ix t indexList :
  creation_ready w store index indexName storeName idx os ix t indexList ->
  indexName ∉ tbl_columns t ->
  NoDup (row_key <$> tbl_rows t) ->
  ~ (ix_unique ix = true /\ ~ NoDup (omap (row_indexKey ix) (tbl_rows t))) ->
  exists db,
    run_createIndex store index indexHandle indexName storeName idx w
    = (TaskSuccess (ResStore store),
       finish_createIndex index indexHandle (w_set_db db w))
    /\ db_tables db !! store_table storeName
       = Some (mkTable (tbl_autoIncrement t) (tbl_columns t ++ [indexName])
                 (backfilled ix indexName <$> tbl_rows t))
    /\ db_sys db
       = alter (fun _ => indexList) (IDBObjectStore_currentName os) (db_sys (w_db w)).
Proof.
  intros [Hos Hix Hname Hil Ht Hcol] Hfresh Hkeys Hok.
  assert (Hlast : indexName ∈ tbl_columns t ++ [indexName])
    by (apply elem_of_app; right; apply list_elem_of_singleton; reflexivity).
  assert (Happly : forall db0 : Database,
    db_tables db0 !! store_table storeName
      = Some (mkTable (tbl_autoIncrement t) (tbl_columns t ++ [indexName])
                (tbl_rows t)) ->
    db_sys db0 = db_sys (w_db w) ->
    exists db,
      applyIndex store index indexHandle indexName storeName (w_set_db db0 w)
      = (TaskSuccess (ResStore store),
         finish_createIndex index indexHandle (w_set_db db w))
      /\ db_tables db !! store_table storeName
         = Some (mkTable (tbl_autoIncrement t) (tbl_columns t ++ [indexName])
                   (backfilled ix indexName <$> tbl_rows t))
      /\ db_sys db
         = alter (fun _ => indexList) (IDBObjectStore_currentName os)
             (db_sys (w_db w))).
  { intros db0 Ht0 Hsys0.
    unfold applyIndex, IDBIndex__updateIndexList. simpl.
    rewrite Hos. simpl. rewrite Hil. simpl.
    unfold sql_select_all. simpl. rewrite Ht0. simpl. rewrite Hix.
    remember (sql_update_indexList (IDBObjectStore_currentName os) indexList db0)
      as db1 eqn:Hdb1.
    assert (Ht1 : db_tables db1 !! store_table storeName
      = Some (mkTable (tbl_autoIncrement t) (tbl_columns t ++ [indexName])
                (tbl_rows t))) by (rewrite Hdb1; exact Ht0).
    assert (Hsys1 : db_sys db1
      = alter (fun _ => indexList) (IDBObjectStore_currentName os) (db_sys (w_db w)))
      by (rewrite Hdb1; simpl; rewrite Hsys0; reflexivity).
    clear Hdb1.
    assert (Hhas : has_column db1 storeName indexName)
      by (eexists; split; [exact Ht1|exact Hlast]).
    assert (Hdone : fst (addIndexEntry ix storeName indexName (tbl_rows t) [] db1)
                    = BackfillDone).
    { destruct (ix_unique ix) eqn:Hu.
      - rewrite (backfill_outcome ix storeName indexName (tbl_rows t) [] db1
                   Hhas Hu (NoDup_nil_2)).
        rewrite app_nil_r. destruct (decide _) as [_|Hdup]; [reflexivity|].
        exfalso. apply Hok. split; [reflexivity|exact Hdup].
      - apply backfill_done; [exact Hhas|]. intros Hu'. congruence. }
    pose proof (backfill_rows ix storeName indexName (tbl_rows t) [] db1
                  (mkTable (tbl_autoIncrement t) (tbl_columns t ++ [indexName])
                     (tbl_rows t)) [] Ht1 Hlast eq_refl Hkeys Hdone) as Hrows.
    pose proof (addIndexEntry_keeps_sys ix storeName indexName (tbl_rows t) [] db1)
      as Hsys2.
    destruct (addIndexEntry ix storeName indexName (tbl_rows t) [] db1)
      as [[|e] db2]; [|discriminate].
    simpl in *. exists db2. split; [reflexivity|].
    split; [exact Hrows|]. rewrite Hsys2. exact Hsys1. }
  unfold run_createIndex. rewrite Hix, Hcol.
  rewrite bool_decide_eq_false_2 by exact Hfresh.
  unfold sql_add_column. rewrite Ht. simpl. rewrite Hname.
  rewrite decide_False by exact Hfresh.
  remember (db_set_tables _ (w_db w)) as db0 eqn:Hdb0.
  assert (Ht0 : db_tables db0 !! store_table storeName
    = Some (mkTable (tbl_autoIncrement t) (tbl_columns t ++ [indexName])
              (tbl_rows t)))
    by (rewrite Hdb0; simpl; apply lookup_insert_eq).
  assert (Hsys0 : db_sys db0 = db_sys (w_db w)) by (rewrite Hdb0; reflexivity).
  clear Hdb0.
  unfold addIndexSQL. destruct CFG_useSQLiteIndexes.
  - unfold sql_create_index_if_not_exists. simpl. rewrite Ht0. simpl.
    rewrite decide_True by exact Hlast.
    destruct (Happly (db_set_sqlIndexes
                        ({[(storeName, Some indexName)]} ∪ db_sqlIndexes db0) db0)
                Ht0 Hsys0) as (db & Hrun & Htab & Hsys).
    exists db. split; [|split; assumption]. exact Hrun.
  - destruct (Happly db0 Ht0 Hsys0) as (db & Hrun & Htab & Hsys).
    exists db. split; [|split; assumption]. exact Hrun.
Qed.

(** X20: creating an index end to end.  On a store whose listed index
    names resolve and whose table has distinct primary keys and no column
    of the new name, [__createIndex] for a name the store neither lists nor
    has a handle for returns normally and queues one step; unless the
    index is unique and two records have equal index keys, that step
    succeeds, appends the column to the table and writes into it, record
    by record, the encoded key extracted from the record's value, leaving
    records without such a key without an entry.  Afterwards the index is
    listed, no longer pending-create, and named in the persisted index
    list. *)
Theorem createIndex_end_to_end (w : World) store index ix os l tx t :
  w_indexes w !! index = Some ix ->
  w_stores w !! store = Some os ->
  os_transaction os = Some l ->
  w_transactions w !! l = Some tx ->
  names_resolved (w_indexes w) os ->
  ix_name ix ∉ os_indexNames os ->
  os_indexes os !! ix_name ix = None ->
  os_indexHandles os !! ix_name ix = None ->
  db_tables (w_db w) !! store_table (IDBObjectStore_currentName os) = Some t ->
  ix_name ix ∉ tbl_columns t ->
  NoDup (row_key <$> tbl_rows t) ->
  ~ (ix_unique ix = true /\ ~ NoDup (omap (row_indexKey ix) (tbl_rows t))) ->
  exists w1 task w2 os2 ix2,
    IDBIndex__createIndex store index w = (inr tt, w1)
    /\ tx_queue <$> w_transactions w1 !! l
       = Some (tx_queue tx ++ [(NonRequest, task)])
    /\ run_task task w1 = (TaskSuccess (ResStore store), w2)
    /\ db_tables (w_db w2) !! store_table (IDBObjectStore_currentName os)
       = Some (mkTable (tbl_autoIncrement t) (tbl_columns t ++ [ix_name ix])
                 (backfilled ix (ix_name ix) <$> tbl_rows t))
    /\ w_stores w2 !! store = Some os2
    /\ os_indexNames os2 = os_indexNames os ++ [ix_name ix]
    /\ os_indexes os2 !! ix_name ix = Some index
    /\ w_indexes w2 !! index = Some ix2
    /\ ix_name ix2 = ix_name ix
    /\ ix_pendingCreate ix2 = false
    /\ forall indexList,
         db_sys (w_db w2) !! IDBObjectStore_currentName os2 = Some indexList ->
         indexList !! ix_name ix
         = Some (mkProps (ix_name ix) (ix_keyPath ix) (ix_unique ix)
                   (ix_multiEntry ix) false).
Proof.
  intros Hix Hos Hl Htx Hres Hnew Hfree Hnoh Ht Hcol Hkeys Hok.
  destruct (createIndex_fresh_called w store index ix os l tx Hix Hos Hl Htx Hnoh)
    as (w1 & h & Hcall & Hh & Hhne & Hidx1 & Hst1 & Hdb1 & Htx1).
  set (ix1 := ix_set_pendingCreate true ix).
  set (os1 := os_set_indexHandles (<[ix_name ix := h]> (os_indexHandles os))
                (os_set_indexes (<[ix_name ix := index]> (os_indexes os))
                   (os_set_indexNames (os_indexNames os ++ [ix_name ix]) os))).
  assert (Hix1 : w_indexes w1 !! index = Some ix1).
  { rewrite Hidx1, lookup_alter_ne, lookup_insert_ne, lookup_alter_eq, Hix
      by congruence. reflexivity. }
  assert (Hos1 : w_stores w1 !! store = Some os1).
  { rewrite Hst1, !lookup_alter_eq, Hos. reflexivity. }
  assert (Hother : forall k o, k <> index -> w_indexes w !! k = Some o ->
                               w_indexes w1 !! k = Some o).
  { intros k o Hk Hko.
    assert (k <> h) by (intros ->; rewrite Hh in Hko; discriminate).
    rewrite Hidx1, lookup_alter_ne, lookup_insert_ne, lookup_alter_ne by congruence.
    exact Hko. }
  assert (Hres1 : names_resolved (w_indexes w1) os1).
  { intros n Hn. simpl in Hn. apply elem_of_app in Hn as [Hn|Hn].
    - destruct (Hres n Hn) as (k & idx & Hk & Hidx & Hname).
      assert (Hnn : n <> ix_name ix) by (intros ->; contradiction).
      assert (Hki : k <> index).
      { intros ->. rewrite Hix in Hidx. injection Hidx as <-. congruence. }
      exists k, idx. split; [|split; [|exact Hname]].
      + simpl. rewrite lookup_insert_ne by congruence. exact Hk.
      + apply Hother; assumption.
    - apply list_elem_of_singleton in Hn as ->.
      exists index, ix1. split; [simpl; apply lookup_insert_eq|].
      split; [exact Hix1|reflexivity]. }
  destruct (build_indexList_resolved (w_indexes w1) os1 (os_indexNames os1) ∅ Hres1)
    as (il & Hil & Hlook).
  assert (Hready : creation_ready w1 store index (ix_name ix)
                     (IDBObjectStore_currentName os) (os_indexes os !! ix_name ix)
                     os1 ix1 t il).
  { constructor.
    - exact Hos1.
    - exact Hix1.
    - reflexivity.
    - exact Hil.
    - rewrite Hdb1. exact Ht.
    - rewrite Hfree. simpl. symmetry. apply bool_decide_eq_false_2. exact Hcol. }
  destruct (run_createIndex_fresh w1 store index h (ix_name ix)
              (IDBObjectStore_currentName os) (os_indexes os !! ix_name ix)
              os1 ix1 t il Hready Hcol Hkeys Hok) as (db & Hrun & Htab & Hsys).
  assert (Hfin : exists ix2,
    w_indexes (finish_createIndex index h (w_set_db db w1)) !! index = Some ix2
    /\ ix_name ix2 = ix_name ix /\ ix_pendingCreate ix2 = false).
  { unfold finish_createIndex. simpl.
    rewrite lookup_alter_ne, lookup_alter_eq, Hix1 by congruence. simpl.
    destruct (ix_deleted ix).
    - simpl. rewrite lookup_alter_ne, lookup_alter_eq by congruence.
      rewrite lookup_alter_ne, lookup_alter_eq, Hix1 by congruence.
      eexists. repeat split.
    - simpl. rewrite lookup_alter_ne, lookup_alter_eq, Hix1 by congruence.
      eexists. repeat split. }
  destruct Hfin as (ix2 & Hix2 & Hname2 & Hpc2).
  eexists w1, _, _, os1, ix2. split; [exact Hcall|].
  split; [rewrite Htx1, lookup_alter_eq, Htx; reflexivity|].
  split; [exact Hrun|].
  destruct (finish_createIndex_frame index h (w_set_db db w1)) as (Hfdb & Hfst & _).
  rewrite Hfdb, Hfst. simpl.
  split; [exact Htab|]. split; [exact Hos1|]. split; [reflexivity|].
  split; [apply lookup_insert_eq|].
  split; [exact Hix2|]. split; [exact Hname2|]. split; [exact Hpc2|].
  intros indexList Hlist. rewrite Hsys in Hlist.
  destruct (db_sys (w_db w1) !! IDBObjectStore_currentName os1) as [old|] eqn:Hold;
    rewrite lookup_alter_eq, Hold in Hlist; [|discriminate].
  injection Hlist as <-. rewrite Hlook.
  rewrite decide_True
    by (simpl; apply elem_of_app; right; apply list_elem_of_singleton; reflexivity).
  simpl. rewrite lookup_insert_eq. simpl. rewrite Hix1. reflexivity.
Qed.

(** *** Deleting an index from the call to the tombstone *)

Lemma deleteIndex_called (w : World) store index ix os l tx :
  w_indexes w !! index = Some ix ->
  w_stores w !! store = Some os ->
  os_transaction os = Some l ->
  w_transactions w !! l = Some tx ->
  exists w1,
    IDBIndex__deleteIndex store index w = (inr tt, w1)
    /\ w_indexes w1
       = match os_indexHandles os !! ix_name ix with
         | Some h => alter (ix_set_pendingDelete true) h
                       (alter (ix_set_pendingDelete true) index (w_indexes w))
         | None => alter (ix_set_pendingDelete true) index (w_indexes w)
         end
    /\ w_stores w1
       = alter (fun o => os_set_indexNames
                           (splice_remove (ix_name ix) (os_indexNames o)) o)
           store (w_stores w)
    /\ w_db w1 = w_db w
    /\ w_transactions w1
       = alter (fun o =>
                  tx_set_queue
                    (tx_queue o ++
                     [(NonRequest,
                       deleteIndex store index (os_indexHandles os !! ix_name ix))]) o)
           l (w_transactions w).
Proof.
  intros Hix Hos Hl Htx.
  unfold IDBIndex__deleteIndex, addToTransactionQueue. unfold_m.
  rewrite lookup_alter_eq, Hix. simpl. rewrite Hos.
  destruct (os_indexHandles os !! ix_name ix) as [h|]; unfold_m;
    rewrite Hl; simpl; rewrite Htx; simpl;
    eexists; (split; [reflexivity|]); repeat split.
Qed.

Lemma pendingDelete_keeps_resolved (indexes : gmap loc IDBIndexObj) k
    (os os' : IDBObjectStoreObj) :
  os_indexes os' = os_indexes os ->
  (forall n, n ∈ os_indexNames os' -> n ∈ os_indexNames os) ->
  names_resolved indexes os ->
  names_resolved (alter (ix_set_pendingDelete true) k indexes) os'.
Proof.
  intros Hmap Hsub Hres n Hn.
  destruct (Hres n (Hsub n Hn)) as (l & idx & Hl & Hidx & Hname).
  destruct (decide (l = k)) as [->|Hne].
  - exists k, (ix_set_pendingDelete true idx).
    split; [rewrite Hmap; exact Hl|]. split; [|exact Hname].
    rewrite lookup_alter_eq, Hidx. reflexivity.
  - exists l, idx. split; [rewrite Hmap; exact Hl|]. split; [|exact Hname].
    rewrite lookup_alter_ne by congruence. exact Hidx.
Qed.

(** X21: deleting an index end to end.  On a store with distinct index
    names, all resolved, [__deleteIndex] on a listed index returns normally
    and queues one step, and that step succeeds.  Afterwards the index is a
    tombstone: deleted, no longer pending-delete, still registered in
    [store.__indexes] but off [indexNames]; the persisted index list has an
    entry for every other listed name and none for the deleted one; no
    table has changed, so the column and its entries are still there; and
    every fetch on the index throws InvalidStateError. *)
Theorem deleteIndex_end_to_end (w : World) store index ix os l tx :
  w_indexes w !! index = Some ix ->
  w_stores w !! store = Some os ->
  os_transaction os = Some l ->
  w_transactions w !! l = Some tx ->
  NoDup (os_indexNames os) ->
  ix_name ix ∈ os_indexNames os ->
  names_resolved (w_indexes w) os ->
  exists w1 task w2 os2 ix2,
    IDBIndex__deleteIndex store index w = (inr tt, w1)
    /\ tx_queue <$> w_transactions w1 !! l
       = Some (tx_queue tx ++ [(NonRequest, task)])
    /\ run_task task w1 = (TaskSuccess (ResStore store), w2)
    /\ w_indexes w2 !! index = Some ix2
    /\ ix_deleted ix2 = true /\ ix_pendingDelete ix2 = false
    /\ w_stores w2 !! store = Some os2
    /\ os_indexNames os2 = filter (fun n => n <> ix_name ix) (os_indexNames os)
    /\ os_indexes os2 = os_indexes os
    /\ db_tables (w_db w2) = db_tables (w_db w)
    /\ (forall indexList,
          db_sys (w_db w2) !! IDBObjectStore_currentName os2 = Some indexList ->
          indexList !! ix_name ix = None
          /\ forall n, n ∈ os_indexNames os -> n <> ix_name ix ->
               is_Some (indexList !! n))
    /\ forall range opType nullDisallowed,
         IDBIndex__fetchIndexData index range opType nullDisallowed None w2
         = (inl (DOMException InvalidStateError), w2).
Proof.
  intros Hix Hos Hl Htx Hnd Hin Hres.
  destruct (deleteIndex_called w store index ix os l tx Hix Hos Hl Htx)
    as (w1 & Hcall & Hidx1 & Hst1 & Hdb1 & Htx1).
  set (os1 := os_set_indexNames (splice_remove (ix_name ix) (os_indexNames os)) os).
  assert (Hnames1 : os_indexNames os1
                    = filter (fun n => n <> ix_name ix) (os_indexNames os))
    by (apply splice_remove_listed; assumption).
  assert (Hos1 : w_stores w1 !! store = Some os1)
    by (rewrite Hst1, lookup_alter_eq, Hos; reflexivity).
  assert (Hmap1 : os_indexes os1 = os_indexes os) by reflexivity.
  clearbody os1.
  assert (Hsub : forall n, n ∈ os_indexNames os1 -> n ∈ os_indexNames os).
  { intros n Hn. rewrite Hnames1 in Hn. apply list_elem_of_filter in Hn as [_ Hn].
    exact Hn. }
  assert (Hres1 : names_resolved (w_indexes w1) os1).
  { rewrite Hidx1. destruct (os_indexHandles os !! ix_name ix) as [h|].
    - apply (pendingDelete_keeps_resolved _ h os1 os1 eq_refl (fun _ H => H)).
      apply (pendingDelete_keeps_resolved _ index os os1 Hmap1 Hsub Hres).
    - apply (pendingDelete_keeps_resolved _ index os os1 Hmap1 Hsub Hres). }
  assert (Hix1 : exists ix1, w_indexes w1 !! index = Some ix1
                             /\ ix_name ix1 = ix_name ix).
  { rewrite Hidx1. destruct (os_indexHandles os !! ix_name ix) as [h|].
    - destruct (decide (h = index)) as [->|Hne].
      + rewrite !lookup_alter_eq, Hix. eexists. split; reflexivity.
      + rewrite lookup_alter_ne, lookup_alter_eq, Hix by congruence.
        eexists. split; reflexivity.
    - rewrite lookup_alter_eq, Hix. eexists. split; reflexivity. }
  destruct Hix1 as (ix1 & Hix1 & Hname1).
  destruct (build_indexList_resolved (w_indexes w1) os1 (os_indexNames os1) ∅ Hres1)
    as (il & Hil & Hlook).
  assert (Hfinish : forall db : Database,
    db_tables db = db_tables (w_db w) ->
    exists w2 ix2,
      finishDeleteIndex store index (os_indexHandles os !! ix_name ix)
        (w_set_db db w1) = (TaskSuccess (ResStore store), w2)
      /\ w_indexes w2 !! index = Some ix2
      /\ ix_deleted ix2 = true /\ ix_pendingDelete ix2 = false
      /\ w_stores w2 = w_stores w1
      /\ db_tables (w_db w2) = db_tables (w_db w)
      /\ db_sys (w_db w2)
         = alter (fun _ => il) (IDBObjectStore_currentName os1) (db_sys db)).
  { intros db Hdb. unfold finishDeleteIndex, IDBIndex__updateIndexList. simpl.
    rewrite Hos1. simpl. rewrite Hil. simpl.
    destruct (os_indexHandles os !! ix_name ix) as [h|];
      [destruct (decide (h = index)) as [->|Hne]|].
    - eexists _, _. split; [reflexivity|]. simpl.
      rewrite !lookup_alter_eq, Hix1. simpl. repeat split. exact Hdb.
    - eexists _, _. split; [reflexivity|]. simpl.
      rewrite lookup_alter_ne, lookup_alter_eq, Hix1 by congruence. simpl.
      repeat split. exact Hdb.
    - eexists _, _. split; [reflexivity|]. simpl.
      rewrite lookup_alter_eq, Hix1. simpl. repeat split. exact Hdb. }
  assert (Hrun : exists w2 ix2 (db : Database),
    run_task (deleteIndex store index (os_indexHandles os !! ix_name ix)) w1
    = (TaskSuccess (ResStore store), w2)
    /\ w_indexes w2 !! index = Some ix2
    /\ ix_deleted ix2 = true /\ ix_pendingDelete ix2 = false
    /\ w_stores w2 = w_stores w1
    /\ db_tables (w_db w2) = db_tables (w_db w)
    /\ db_sys (w_db w2)
       = alter (fun _ => il) (IDBObjectStore_currentName os1) (db_sys db)).
  { simpl. unfold run_deleteIndex. destruct CFG_useSQLiteIndexes.
    - rewrite Hos1, Hix1.
      destruct (Hfinish (sql_drop_index (os_name os1) (ix_name ix1) (w_db w1)))
        as (w2 & ix2 & Hf); [rewrite <- Hdb1; reflexivity|].
      exists w2, ix2, (sql_drop_index (os_name os1) (ix_name ix1) (w_db w1)).
      exact Hf.
    - destruct (Hfinish (w_db w1)) as (w2 & ix2 & Hf);
        [rewrite Hdb1; reflexivity|].
      replace (w_set_db (w_db w1) w1) with w1 in Hf by (destruct w1; reflexivity).
      exists w2, ix2, (w_db w1). exact Hf. }
  destruct Hrun as (w2 & ix2 & db & Hrun & Hix2 & Hd2 & Hp2 & Hst2 & Htab2 & Hsys2).
  exists w1, (deleteIndex store index (os_indexHandles os !! ix_name ix)), w2, os1, ix2.
  split; [exact Hcall|].
  split; [rewrite Htx1, lookup_alter_eq, Htx; reflexivity|].
  split; [exact Hrun|]. split; [exact Hix2|]. split; [exact Hd2|].
  split; [exact Hp2|]. split; [rewrite Hst2; exact Hos1|].
  split; [exact Hnames1|]. split; [exact Hmap1|]. split; [exact Htab2|].
  split.
  - intros indexList Hlist. rewrite Hsys2 in Hlist.
    destruct (db_sys db !! IDBObjectStore_currentName os1) as [old|] eqn:Hold;
      rewrite lookup_alter_eq, Hold in Hlist; [|discriminate].
    injection Hlist as <-. split.
    + rewrite Hlook. rewrite decide_False; [apply lookup_empty|].
      rewrite Hnames1. intros Hn. apply list_elem_of_filter in Hn as [Hn _].
      apply Hn. reflexivity.
    + intros n Hn Hne.
      apply (build_indexList_names (w_indexes w1) os1 il n Hres1 Hil).
      rewrite Hnames1. apply list_elem_of_filter. split; assumption.
  - intros range opType nd.
    apply (fetchIndexData_deleted w2 index ix2 range opType nd None Hix2);
      [left; exact Hd2|exact I].
Qed.

(** *** The creation step in the state the call leaves *)

Lemma createIndex_call_ready (w : World) store index ix os l tx t :
  w_indexes w !! index = Some ix ->
  w_stores w !! store = Some os ->
  os_transaction os = Some l ->
  w_transactions w !! l = Some tx ->
  names_resolved (w_indexes w) os ->
  ix_name ix ∉ os_indexNames os ->
  os_indexes os !! ix_name ix = None ->
  os_indexHandles os !! ix_name ix = None ->
  db_tables (w_db w) !! store_table (IDBObjectStore_currentName os) = Some t ->
  ix_name ix ∉ tbl_columns t ->
  exists w1 h os1 tx1 il,
    IDBIndex__createIndex store index w = (inr tt, w1)
    /\ w_transactions w1 !! l = Some tx1
    /\ tx_queue tx1
       = tx_queue tx
         ++ [(NonRequest,
              createIndex store index h (ix_name ix)
                (IDBObjectStore_currentName os) None)]
    /\ creation_ready w1 store index (ix_name ix) (IDBObjectStore_currentName os)
         None os1 (ix_set_pendingCreate true ix) t il
    /\ os_indexNames os1 = os_indexNames os ++ [ix_name ix]
    /\ os_transaction os1 = Some l
    /\ w_db w1 = w_db w.
Proof.
  intros Hix Hos Hl Htx Hres Hnew Hfree Hnoh Ht Hcol.
  destruct (createIndex_fresh_called w store index ix os l tx Hix Hos Hl Htx Hnoh)
    as (w1 & h & Hcall & Hh & Hhne & Hidx1 & Hst1 & Hdb1 & Htx1).
  rewrite Hfree in Htx1.
  set (ix1 := ix_set_pendingCreate true ix).
  set (os1 := os_set_indexHandles (<[ix_name ix := h]> (os_indexHandles os))
                (os_set_indexes (<[ix_name ix := index]> (os_indexes os))
                   (os_set_indexNames (os_indexNames os ++ [ix_name ix]) os))).
  assert (Hix1 : w_indexes w1 !! index = Some ix1).
  { rewrite Hidx1, lookup_alter_ne, lookup_insert_ne, lookup_alter_eq, Hix
      by congruence. reflexivity. }
  assert (Hos1 : w_stores w1 !! store = Some os1).
  { rewrite Hst1, !lookup_alter_eq, Hos. reflexivity. }
  assert (Hother : forall k o, k <> index -> w_indexes w !! k = Some o ->
                               w_indexes w1 !! k = Some o).
  { intros k o Hk Hko.
    assert (k <> h) by (intros ->; rewrite Hh in Hko; discriminate).
    rewrite Hidx1, lookup_alter_ne, lookup_insert_ne, lookup_alter_ne by congruence.
    exact Hko. }
  assert (Hres1 : names_resolved (w_indexes w1) os1).
  { intros n Hn. simpl in Hn. apply elem_of_app in Hn as [Hn|Hn].
    - destruct (Hres n Hn) as (k & idx & Hk & Hidx & Hname).
      assert (Hnn : n <> ix_name ix) by (intros ->; contradiction).
      assert (Hki : k <> index).
      { intros ->. rewrite Hix in Hidx. injection Hidx as <-. congruence. }
      exists k, idx. split; [|split; [|exact Hname]].
      + simpl. rewrite lookup_insert_ne by congruence. exact Hk.
      + apply Hother; assumption.
    - apply list_elem_of_singleton in Hn as ->.
      exists index, ix1. split; [simpl; apply lookup_insert_eq|].
      split; [exact Hix1|reflexivity]. }
  destruct (build_indexList_resolved (w_indexes w1) os1 (os_indexNames os1) ∅ Hres1)
    as (il & Hil & _).
  eexists w1, h, os1, _, il. split; [exact Hcall|].
  split; [rewrite Htx1, lookup_alter_eq, Htx; reflexivity|].
  split; [reflexivity|]. split; [|split; [reflexivity|split; [exact Hl|exact Hdb1]]].
  constructor.
  - exact Hos1.
  - exact Hix1.
  - reflexivity.
  - exact Hil.
  - rewrite Hdb1. exact Ht.
  - symmetry. apply bool_decide_eq_false_2. exact Hcol.
Qed.

(** X13: for a name the store neither lists nor has a handle or a column
    for, on a store whose listed names resolve and whose table exists, the
    step that [__createIndex] queues, run in the state the call leaves,
    has its outcome decided by the encoded index keys of the records that
    have one: it fails, with ConstraintError, exactly when the index is
    unique and two of those keys are equal, and succeeds in every other
    case.  Records without an index key never make it fail. *)
Theorem createIndex_task_outcome (w : World) store index ix os l tx t :
  w_indexes w !! index = Some ix ->
  w_stores w !! store = Some os ->
  os_transaction os = Some l ->
  w_transactions w !! l = Some tx ->
  names_resolved (w_indexes w) os ->
  ix_name ix ∉ os_indexNames os ->
  os_indexes os !! ix_name ix = None ->
  os_indexHandles os !! ix_name ix = None ->
  db_tables (w_db w) !! store_table (IDBObjectStore_currentName os) = Some t ->
  ix_name ix ∉ tbl_columns t ->
  exists w1 task,
    IDBIndex__createIndex store index w = (inr tt, w1)
    /\ tx_queue <$> w_transactions w1 !! l
       = Some (tx_queue tx ++ [(NonRequest, task)])
    /\ fst (run_task task w1)
       = if decide (ix_unique ix = true
                    /\ ~ NoDup (omap (row_indexKey ix) (tbl_rows t)))
         then TaskFailure (DOMException ConstraintError)
         else TaskSuccess (ResStore store).
Proof.
  intros Hix Hos Hl Htx Hres Hnew Hfree Hnoh Ht Hcol.
  destruct (createIndex_call_ready w store index ix os l tx t
              Hix Hos Hl Htx Hres Hnew Hfree Hnoh Ht Hcol)
    as (w1 & h & os1 & tx1 & il & Hcall & Htx1 & Hq & Hready & _).
  eexists w1, _. split; [exact Hcall|].
  split; [rewrite Htx1; simpl; rewrite Hq; reflexivity|]. simpl.
  destruct (run_createIndex_backfill w1 store index h (ix_name ix)
              (IDBObjectStore_currentName os) None os1 _ t il Hready)
    as (db1 & cols & Ht1 & Hcol1 & _ & ->).
  assert (Hhas : has_column db1 (IDBObjectStore_currentName os) (ix_name ix))
    by (eexists; split; [exact Ht1|exact Hcol1]).
  set (ix1 := ix_set_pendingCreate true ix) in *.
  assert (Hkeys : omap (row_indexKey ix1) (tbl_rows t)
                  = omap (row_indexKey ix) (tbl_rows t)) by reflexivity.
  destruct (ix_unique ix) eqn:Hu.
  - pose proof (backfill_outcome ix1 (IDBObjectStore_currentName os) (ix_name ix)
                  (tbl_rows t) [] db1 Hhas Hu (NoDup_nil_2)) as Hout.
    rewrite app_nil_r, Hkeys in Hout.
    destruct (addIndexEntry ix1 (IDBObjectStore_currentName os) (ix_name ix)
                (tbl_rows t) [] db1) as [b db2]. simpl in Hout. subst b.
    destruct (decide (NoDup (omap (row_indexKey ix) (tbl_rows t)))) as [Hnd|Hnd].
    + rewrite decide_False by tauto. reflexivity.
    + rewrite decide_True by tauto. reflexivity.
  - pose proof (backfill_done ix1 (IDBObjectStore_currentName os) (ix_name ix)
                  (tbl_rows t) [] db1 Hhas) as Hout.
    rewrite decide_False by (intros [? _]; discriminate).
    destruct (addIndexEntry ix1 (IDBObjectStore_currentName os) (ix_name ix)
                (tbl_rows t) [] db1) as [b db2]. simpl in Hout.
    rewrite Hout by (simpl; congruence). reflexivity.
Qed.




End EngineLaws.

(** ** The further properties on the reference instance *)

Section ReferenceLaws.
Import Reference Examples.

#[local] Abbreviation Row := (@Row Encoded Record_).
#[local] Abbreviation World := (@World Encoded Record_).

Lemma names_ab_distinct : NoDup ["a"; "b"].
Proof.
  apply NoDup_cons. split.
  - intros Hin. apply list_elem_of_singleton in Hin. discriminate Hin.
  - apply NoDup_singleton.
Defined.

Lemma renaming_resolved :
  names_resolved (w_indexes (renaming false)) (people_ab false).
Proof.
  intros n Hn. apply elem_of_cons in Hn as [->|Hn].
  - exists 10%positive, index_a. repeat split.
  - apply list_elem_of_singleton in Hn as ->.
    exists 20%positive, index_b. repeat split.
Defined.

Lemma fetch_on_deleted_index_witness :
  IDBIndex_get 10%positive [QNull] deleted_a
  = (inl (DOMException InvalidStateError), deleted_a)
  /\ IDBIndex_getKey 10%positive [QNull] deleted_a
     = (inl (DOMException InvalidStateError), deleted_a)
  /\ IDBIndex_getAll 10%positive QNull (Some 5%Z) deleted_a
     = (inl (DOMException InvalidStateError), deleted_a)
  /\ IDBIndex_getAllKeys 10%positive QNull (Some 5%Z) deleted_a
     = (inl (DOMException InvalidStateError), deleted_a)
  /\ exists request,
       IDBIndex_count 10%positive QNull = Some request
       /\ request deleted_a = (inl (DOMException InvalidStateError), deleted_a).
Proof.
  destruct (fetch_on_deleted_index deleted_a 10%positive
              (index "a" "name" false false true) QNull [] (Some 5%Z))
    as (Hget & HgetKey & HgetAll & HgetAllKeys & Hcount).
  - reflexivity.
  - left. reflexivity.
  - exists 5%N. reflexivity.
  - split; [exact Hget|]. split; [exact HgetKey|]. split; [exact HgetAll|].
    split; [exact HgetAllKeys|]. apply Hcount. intros r Hr. discriminate Hr.
Defined.

Lemma getAll_respects_count_witness :
  executeFetchIndexData (Some 1%N) false 10%positive false QUndefined OpKey false
    select_a (renaming false)
  = TaskSuccess (ResRecords [FKey (num 1)])
  /\ (length [@FKey Record_ (num 1)] <= 1)%nat.
Proof.
  split; [vm_compute; reflexivity|].
  apply (proj2 (getAll_respects_count 10%positive false QUndefined OpKey false
                  select_a (renaming false)) 1%N).
  - discriminate.
  - vm_compute. reflexivity.
Defined.

Lemma multiEntry_key_fetch_witness :
  fetch_callback false byTag true (QKey (KString "x")) OpCount false
    [ann_tagged; ann2_tagged]
  = TaskSuccess (ResCount 1)
  /\ fetch_callback false byTag true (QKey (KString "x")) OpKey false
       [ann_tagged; ann2_tagged]
     = TaskSuccess (ResRecords [FKey (num 1)])
  /\ fetch_callback true byTag true (QKey (KString "x")) OpKey false
       [ann_tagged; ann2_tagged]
     = TaskSuccess (ResRecord (FKey (num 1))).
Proof.
  exact (multiEntry_key_fetch byTag (QKey (KString "x")) (Enc (KString "x"))
           [ann_tagged; ann2_tagged] eq_refl eq_refl).
Defined.

Lemma multiEntry_unfiltered_fetch_witness :
  fetch_callback false byTag false QUndefined OpCount false [ann_tagged; ann2_tagged]
  = TaskSuccess (ResCount 5)
  /\ fetch_callback false byTag false QUndefined OpKey false
       [ann_tagged; ann2_tagged]
     = TaskSuccess (ResRecords [FKey (num 1); FKey (num 3)]).
Proof.
  exact (multiEntry_unfiltered_fetch byTag QUndefined EncNull
           [ann_tagged; ann2_tagged] eq_refl eq_refl).
Defined.


Lemma plain_count_selected_witness :
  executeFetchIndexData None false 10%positive false QUndefined OpCount false
    select_a (renaming false)
  = TaskSuccess (ResCount 2).
Proof.
  apply (plain_count_selected 10%positive index_a false QUndefined false select_a
           (renaming false) (people_table ["a"; "b"] [ann_indexed; bob_indexed])).
  - reflexivity.
  - reflexivity.
  - reflexivity.
  - vm_compute. discriminate.
  - reflexivity.
Defined.

Lemma updateIndexList_persists_listed_witness :
  exists w' indexList,
    IDBIndex__updateIndexList 1%positive (renaming false) = Some w'
    /\ db_sys (w_db w') !! "people" = Some indexList
    /\ (forall k, indexList !! k
          = if decide (k ∈ ["a"; "b"])
            then index_properties
                   <$> (os_indexes (people_ab false) !! k
                          ≫= fun l => w_indexes (renaming false) !! l)
            else None)
    /\ (forall s, s <> "people" ->
          db_sys (w_db w') !! s = db_sys (w_db (renaming false)) !! s)
    /\ db_tables (w_db w') = db_tables (w_db (renaming false))
    /\ w_indexes w' = w_indexes (renaming false)
    /\ w_stores w' = w_stores (renaming false)
    /\ w_transactions w' = w_transactions (renaming false).
Proof.
  refine (updateIndexList_persists_listed (renaming false) 1%positive
            (people_ab false) _ _ _).
  - reflexivity.
  - eexists. reflexivity.
  - exact renaming_resolved.
Defined.

Lemma deleteIndex_synchronous_witness :
  exists w' os',
    IDBIndex__deleteIndex 1%positive 10%positive (renaming false) = (inr tt, w')
    /\ ix_pendingDelete <$> w_indexes w' !! 10%positive = Some true
    /\ (forall h, os_indexHandles (people_ab false) !! "a" = Some h ->
          is_Some (w_indexes (renaming false) !! h) ->
          ix_pendingDelete <$> w_indexes w' !! h = Some true)
    /\ w_stores w' !! 1%positive = Some os'
    /\ os_indexNames os' = filter (fun n => n <> "a") ["a"; "b"]
    /\ os_indexes os' = os_indexes (people_ab false)
    /\ w_db w' = w_db (renaming false)
    /\ tx_queue <$> w_transactions w' !! 1%positive
       = Some ([] ++ [(NonRequest,
                       deleteIndex 1%positive 10%positive (Some 11%positive))])
    /\ forall range opType nullDisallowed,
         IDBIndex__fetchIndexData 10%positive range opType nullDisallowed None w'
         = (inl (DOMException InvalidStateError), w').
Proof.
  refine (deleteIndex_synchronous (renaming false) 1%positive 10%positive index_a
            (people_ab false) 1%positive (transaction true true false)
            _ _ _ _ _ _).
  - reflexivity.
  - reflexivity.
  - reflexivity.
  - reflexivity.
  - exact names_ab_distinct.
  - left.
Defined.

Lemma deleting_a_resolved :
  names_resolved (w_indexes deleting_a)
    (people ["b"] {[ "a" := 10%positive; "b" := 20%positive ]}
       {[ "a" := 11%positive; "b" := 21%positive ]} false).
Proof.
  intros n Hn. apply list_elem_of_singleton in Hn as ->.
  exists 20%positive, index_b. repeat split.
Defined.

Lemma deleteIndex_task_witness :
  exists w',
    run_deleteIndex 1%positive 10%positive (Some 11%positive) deleting_a
    = (TaskSuccess (ResStore 1%positive), w')
    /\ (exists ix', w_indexes w' !! 10%positive = Some ix'
          /\ ix_deleted ix' = true /\ ix_pendingDelete ix' = false
          /\ ix_recreated ix' = false /\ ix_name ix' = "a")
    /\ db_tables (w_db w') = db_tables (w_db deleting_a)
    /\ (forall indexList k,
          db_sys (w_db w') !! "people" = Some indexList ->
          is_Some (indexList !! k) -> k ∈ ["b"]).
Proof.
  destruct (deleteIndex_task deleting_a 1%positive 10%positive (Some 11%positive)
              (people ["b"] {[ "a" := 10%positive; "b" := 20%positive ]}
                 {[ "a" := 11%positive; "b" := 21%positive ]} false)
              (ix_set_pendingDelete true index_a))
    as (w' & Hrun & Hix & _ & Htab & _ & Hlist & _).
  - reflexivity.
  - reflexivity.
  - exact deleting_a_resolved.
  - exists w'. split; [exact Hrun|]. split; [exact Hix|].
    split; [exact Htab|exact Hlist].
Defined.

Lemma createIndex_registers_witness :
  exists w' os' h ho,
    IDBIndex__createIndex 1%positive 10%positive unique_byName = (inr tt, w')
    /\ w_indexes w' !! 10%positive
       = Some (ix_set_pendingCreate true (index "byName" "name" false true false))
    /\ w_stores w' !! 1%positive = Some os'
    /\ os_indexNames os' = ["byName"]
    /\ os_indexes os' = {[ "byName" := 10%positive ]}
    /\ os_indexHandles os' = {[ "byName" := h ]}
    /\ w_indexes w' !! h = Some ho
    /\ ix_pendingCreate ho = true
    /\ w_db w' = w_db unique_byName.
Proof.
  destruct (createIndex_registers unique_byName 1%positive 10%positive
              (index "byName" "name" false true false) (people [] ∅ ∅ false)
              1%positive (transaction true true false))
    as (w' & os' & h & ho & Hrun & Hix & Hos & Hnames & Hmap & Hhandles & Hho
        & Hcase & Hdb & _).
  - reflexivity.
  - reflexivity.
  - reflexivity.
  - reflexivity.
  - intros h Hh. discriminate Hh.
  - exists w', os', h, ho. split; [exact Hrun|]. split; [exact Hix|].
    split; [exact Hos|]. split; [exact Hnames|]. split; [exact Hmap|].
    split; [exact Hhandles|]. split; [exact Hho|]. split; [|exact Hdb].
    destruct Hcase as [[Hh _]|[_ ->]]; [discriminate Hh|reflexivity].
Defined.

Lemma createIndex_task_outcome_witness :
  exists w1 task,
    IDBIndex__createIndex 1%positive 10%positive unique_byName = (inr tt, w1)
    /\ tx_queue <$> w_transactions w1 !! 1%positive = Some [(NonRequest, task)]
    /\ fst (run_task task w1) = TaskFailure (DOMException ConstraintError).
Proof.
  destruct (createIndex_task_outcome unique_byName 1%positive 10%positive
              (index "byName" "name" false true false) (people [] ∅ ∅ false)
              1%positive (transaction true true false)
              (people_table [] [ann; bob; ann2]))
    as (w1 & task & Hcall & Hq & Hout).
  - reflexivity.
  - reflexivity.
  - reflexivity.
  - reflexivity.
  - intros n Hn. apply elem_of_nil in Hn as [].
  - apply not_elem_of_nil.
  - reflexivity.
  - reflexivity.
  - reflexivity.
  - apply not_elem_of_nil.
  - exists w1, task. split; [exact Hcall|]. split; [exact Hq|].
    rewrite Hout. vm_compute. reflexivity.
Defined.

Lemma people_keys_distinct : NoDup (row_key <$> [ann; bob; ann2]).
Proof.
  apply NoDup_cons. split.
  - intros Hin. apply elem_of_cons in Hin as [Hin|Hin]; [discriminate Hin|].
    apply list_elem_of_singleton in Hin. discriminate Hin.
  - apply NoDup_cons. split; [|apply NoDup_singleton].
    intros Hin. apply list_elem_of_singleton in Hin. discriminate Hin.
Defined.

Lemma createIndex_task_backfills_witness :
  exists cols ix',
    db_tables
      (w_db (snd (run_createIndex 1%positive 10%positive 11%positive "byTag"
                    "people" None
                    (snd (IDBIndex__createIndex 1%positive 10%positive multi_byTag)))))
      !! store_table "people"
    = Some (mkTable false cols [ann_tagged; bob; ann2_tagged])
    /\ "byTag" ∈ cols
    /\ w_indexes
         (snd (run_createIndex 1%positive 10%positive 11%positive "byTag" "people"
                 None
                 (snd (IDBIndex__createIndex 1%positive 10%positive multi_byTag))))
         !! 10%positive = Some ix'
    /\ ix_pendingCreate ix' = false /\ ix_deleted ix' = false.
Proof.
  destruct (createIndex_task_backfills
              (snd (IDBIndex__createIndex 1%positive 10%positive multi_byTag))
              1%positive 10%positive 11%positive "byTag" "people" None _ _ _ _
              multi_byTag_ready people_keys_distinct)
    as (cols & ix' & Ht & Hcol & Hix & Hpc & Hd & _).
  - vm_compute. reflexivity.
  - exists cols, ix'. split; [exact Ht|]. split; [exact Hcol|].
    split; [exact Hix|]. split; [exact Hpc|exact Hd].
Defined.

Lemma renamed_resolved :
  exists os,
    w_stores (snd (renamed false)) !! 1%positive = Some os
    /\ names_resolved (w_indexes (snd (renamed false))) os.
Proof.
  eexists. split; [vm_compute; reflexivity|].
  intros n Hn. apply elem_of_cons in Hn as [->|Hn].
  - exists 10%positive. eexists. repeat split; vm_compute; reflexivity.
  - apply list_elem_of_singleton in Hn as ->.
    exists 20%positive, index_b. repeat split.
Defined.

Lemma renameIndex_task_witness :
  exists w',
    run_renameIndex "people" "a" "c" false ["b"] (Some (1%positive, 1%positive))
      (snd (renamed false))
    = (TaskSuccess (ResStore 1%positive), w')
    /\ db_tables (w_db w') !! store_table "people"
       = Some (mkTable false ["b"; "c"]
                 (project_row ["b"] "a" "c" <$> [ann_indexed; bob_indexed]))
    /\ row_cols (project_row ["b"] "a" "c" ann_indexed) !! "c"
       = Some (Enc (KString "Ann"))
    /\ row_cols (project_row ["b"] "a" "c" ann_indexed) !! "a" = None
    /\ w_indexes w' = w_indexes (snd (renamed false)).
Proof.
  destruct (renameIndex_task (snd (renamed false)) "people" "a" "c" false ["b"]
              (Some (1%positive, 1%positive))
              (people_table ["a"; "b"] [ann_indexed; bob_indexed]))
    as (w' & Hrun & Htab & Hrow & _ & _ & Hidx & _).
  - reflexivity.
  - reflexivity.
  - apply NoDup_cons. split; [|apply NoDup_singleton].
    intros Hin. apply list_elem_of_singleton in Hin. discriminate Hin.
  - repeat constructor.
  - intros store storeHandle Hcb. injection Hcb as <- <-. exact renamed_resolved.
  - exists w'. split; [exact Hrun|].
    split; [rewrite Htab; apply lookup_insert_eq|].
    split; [exact (proj2 (proj2 (Hrow ann_indexed "c")))|].
    split; [exact (proj2 (proj2 (Hrow ann_indexed "a")))|exact Hidx].
Defined.

Lemma rename_end_to_end_witness :
  exists w1 os1 task w2,
    IDBIndex_set_name 10%positive "c" (renaming false) = (inr tt, w1)
    /\ w_stores w1 !! 1%positive = Some os1
    /\ tx_queue <$> w_transactions w1 !! 1%positive = Some [(NonRequest, task)]
    /\ run_task task w1 = (TaskSuccess (ResStore 1%positive), w2)
    /\ db_tables (w_db w2) !! store_table (currentName os1)
       = Some (mkTable false ["b"; "c"]
                 (project_row ["b"] "a" "c" <$> [ann_indexed; bob_indexed]))
    /\ ix_name <$> w_indexes w2 !! 10%positive = Some "c"
    /\ ix_name <$> w_indexes w2 !! 11%positive = Some "c".
Proof.
  destruct (rename_end_to_end (renaming false) 10%positive index_a (people_ab false)
              (transaction true true false) 1%positive "c" 1%positive
              (people_ab false) 11%positive index_a)
    as (w1 & os1 & task & Hset & Hos1 & Hq & Hrun).
  - exact renaming_guards.
  - reflexivity.
  - reflexivity.
  - reflexivity.
  - reflexivity.
  - reflexivity.
  - reflexivity.
  - reflexivity.
  - exact names_ab_distinct.
  - left.
  - intros Hin. apply elem_of_cons in Hin as [Hin|Hin]; [discriminate Hin|].
    apply list_elem_of_singleton in Hin. discriminate Hin.
  - exact renaming_resolved.
  - assert (Hname : currentName os1 = "people").
    { assert (Hw1 : w1 = snd (renamed false))
        by (unfold renamed; rewrite Hset; reflexivity).
      rewrite Hw1 in Hos1. vm_compute in Hos1. injection Hos1 as <-. reflexivity. }
    destruct (Hrun (people_table ["a"; "b"] [ann_indexed; bob_indexed]))
      as (w2 & Hrun2 & Htab & _ & Hme & Hh).
    + simpl. rewrite Hname. reflexivity.
    + simpl. rewrite Hname. reflexivity.
    + repeat constructor.
    + exists w1, os1, task, w2. split; [exact Hset|]. split; [exact Hos1|].
      split; [exact Hq|]. split; [exact Hrun2|]. split; [exact Htab|].
      split; [exact Hme|exact Hh].
Defined.

Lemma count_end_to_end_witness :
  exists request w' task,
    IDBIndex_count 10%positive QUndefined = Some request
    /\ request (renaming false) = (inr tt, w')
    /\ tx_queue <$> w_transactions w' !! 1%positive = Some [(Request, task)]
    /\ run_task task w' = (TaskSuccess (ResCount 2), w').
Proof.
  refine (count_end_to_end (renaming false) 10%positive index_a (people_ab false)
            (transaction true true false) 1%positive QUndefined
            (people_table ["a"; "b"] [ann_indexed; bob_indexed]) _ _ _ _ _ _).
  - exact renaming_fetch_guards.
  - reflexivity.
  - reflexivity.
  - reflexivity.
  - left.
  - intros Hm. discriminate Hm.
Defined.

Lemma recreating_ready :
  exists os indexList,
    creation_ready recreating 1%positive 30%positive "a" "people" (Some 10%positive)
      os (ix_set_pendingCreate true index_a_tags)
      (people_table ["a"; "b"] [ann_indexed; bob_indexed]) indexList.
Proof.
  eexists _, _. constructor; vm_compute; reflexivity.
Defined.

Lemma people_indexed_keys_distinct :
  NoDup (row_key <$> [ann_indexed; bob_indexed]).
Proof.
  apply NoDup_cons. split; [|apply NoDup_singleton].
  intros Hin. apply list_elem_of_singleton in Hin. discriminate Hin.
Defined.

Lemma createIndex_reuses_column_witness :
  exists t',
    db_tables
      (w_db (snd (run_createIndex 1%positive 30%positive 31%positive "a" "people"
                    (Some 10%positive) recreating)))
      !! store_table "people" = Some t'
    /\ tbl_columns t' = ["a"; "b"]
    /\ bob_indexed ∈ tbl_rows t'
    /\ row_cols bob_indexed !! "a" = Some (Enc (KString "Bob")).
Proof.
  destruct recreating_ready as (os & indexList & Hready).
  destruct (createIndex_reuses_column recreating 1%positive 30%positive 31%positive
              "a" "people" (Some 10%positive) os _ _ indexList Hready)
    as (t' & Ht' & Hcols & Hrows).
  - left.
  - exact people_indexed_keys_distinct.
  - vm_compute. reflexivity.
  - exists t'. split; [exact Ht'|]. split; [exact Hcols|].
    split; [|reflexivity].
    apply Hrows; [right; left|reflexivity].
Defined.

Lemma createIndex_end_to_end_witness :
  exists w1 task w2 os2 ix2,
    IDBIndex__createIndex 1%positive 10%positive multi_byTag = (inr tt, w1)
    /\ tx_queue <$> w_transactions w1 !! 1%positive = Some [(NonRequest, task)]
    /\ run_task task w1 = (TaskSuccess (ResStore 1%positive), w2)
    /\ db_tables (w_db w2) !! store_table "people"
       = Some (mkTable false ["byTag"] [ann_tagged; bob; ann2_tagged])
    /\ w_stores w2 !! 1%positive = Some os2
    /\ os_indexNames os2 = ["byTag"]
    /\ w_indexes w2 !! 10%positive = Some ix2
    /\ ix_pendingCreate ix2 = false.
Proof.
  destruct (createIndex_end_to_end multi_byTag 1%positive 10%positive byTag
              (people [] ∅ ∅ false) 1%positive (transaction true true false)
              (people_table [] [ann; bob; ann2]))
    as (w1 & task & w2 & os2 & ix2 & Hcall & Hq & Hrun & Htab & Hos2 & Hnames
        & _ & Hix2 & _ & Hpc & _).
  - reflexivity.
  - reflexivity.
  - reflexivity.
  - reflexivity.
  - intros n Hn. apply elem_of_nil in Hn as [].
  - apply not_elem_of_nil.
  - reflexivity.
  - reflexivity.
  - reflexivity.
  - apply not_elem_of_nil.
  - exact people_keys_distinct.
  - intros [Hu _]. discriminate Hu.
  - exists w1, task, w2, os2, ix2. split; [exact Hcall|]. split; [exact Hq|].
    split; [exact Hrun|]. split; [exact Htab|]. split; [exact Hos2|].
    split; [exact Hnames|]. split; [exact Hix2|exact Hpc].
Defined.

Lemma deleteIndex_end_to_end_witness :
  exists w1 task w2 os2 ix2,
    IDBIndex__deleteIndex 1%positive 10%positive (renaming false) = (inr tt, w1)
    /\ tx_queue <$> w_transactions w1 !! 1%positive = Some [(NonRequest, task)]
    /\ run_task task w1 = (TaskSuccess (ResStore 1%positive), w2)
    /\ w_indexes w2 !! 10%positive = Some ix2
    /\ ix_deleted ix2 = true /\ ix_pendingDelete ix2 = false
    /\ w_stores w2 !! 1%positive = Some os2
    /\ os_indexNames os2 = ["b"]
    /\ os_indexes os2 !! "a" = Some 10%positive
    /\ db_tables (w_db w2) = db_tables (w_db (renaming false))
    /\ IDBIndex__fetchIndexData 10%positive QUndefined OpCount false None w2
       = (inl (DOMException InvalidStateError), w2).
Proof.
  destruct (deleteIndex_end_to_end (renaming false) 1%positive 10%positive index_a
              (people_ab false) 1%positive (transaction true true false))
    as (w1 & task & w2 & os2 & ix2 & Hcall & Hq & Hrun & Hix2 & Hd & Hp & Hos2
        & Hnames & Hmap & Htab & _ & Hfetch).
  - reflexivity.
  - reflexivity.
  - reflexivity.
  - reflexivity.
  - exact names_ab_distinct.
  - left.
  - exact renaming_resolved.
  - exists w1, task, w2, os2, ix2. split; [exact Hcall|]. split; [exact Hq|].
    split; [exact Hrun|]. split; [exact Hix2|]. split; [exact Hd|].
    split; [exact Hp|]. split; [exact Hos2|]. split; [exact Hnames|].
    split; [rewrite Hmap; reflexivity|]. split; [exact Htab|].
    apply Hfetch.
Defined.




(** The host converts the argument of [includes]: a number is found in a
    string by its decimal digits. *)
Example includes_converts_number :
  includes (Some (KString "a2b")) (KNumber 2) = inr true
  /\ includes (Some (KString "a2b")) (KArray [KNumber 2; KString "b"]) = inr false
  /\ includes (Some (KString "a2,b")) (KArray [KNumber 2; KString "b"]) = inr true.
Proof. repeat split. Qed.

End ReferenceLaws.
